(** * ANT debug channel (examples/ant/experimental/ant_debug/debug.c)

    A shallow embedding of the debug-field registry, the selective filter,
    the round-robin page builder and the filter command decoder, followed by
    the properties of the specification that were checked against it.

    Conventions.  C integers are [Z] with the wrap-around of their type
    written out ([mod 256] for [uint8_t], [mod 65536] for [uint16_t]).  The
    file-scope statics of debug.c are the fields of [ad_state]; every C
    function becomes a function on that state.  The two static arrays are
    lists of length [DEBUG_QUEUE_SIZE]; they are only ever indexed with
    [uint8_t] values, so no access of the source leaves them.  The
    [while] loop of the page builder takes fuel, one unit per iteration,
    and returns [None] when the fuel runs out.

    Embedded: [ad_output_debug_mesg], [ad_get_debug_page], [ad_update_tx],
    [ad_decode_debug_command], [ad_init], [ad_set_debug_field],
    [ad_get_debug_field], [ad_increment_debug_field] and
    [ad_set_fast_debug_byte].  The calls into the radio stack (channel
    set-up, broadcast) change none of the statics and are left out. *)

From stdpp Require Import base list relations.
From Stdlib Require Import ZArith Lia.

Local Open Scope Z_scope.

(** ** Constants of debug.c *)

Definition ANT_DEBUG_FIELD_INVALID : Z := 255.
Definition ANT_FAST_DEBUG_BYTE_INDEX : Z := 1.
Definition ANT_DEBUG_PAGE_MESSAGE : Z := 249.
Definition ANT_DEBUG_FILTER_COMMAND : Z := 3.
Definition ANT_DEBUG_SUB_COMMAND_FILTER_ADD : Z := 1.
Definition ANT_DEBUG_SUB_COMMAND_FILTER_CLEAR : Z := 2.
Definition ANT_RESERVED_BYTE : Z := 255.
Definition ANT_PAGE_DEBUG_KEY0_INDEX : Z := 2.
Definition ANT_PAGE_DEBUG_VALUE_SIZE : Z := 3.
Definition DEBUG_QUEUE_SIZE : Z := 256.
Definition ANT_STANDARD_DATA_PAYLOAD_SIZE : Z := 8.

(** ** Data *)

(** [debug_value_t]: one slot of the field list. *)
Record debug_value_t : Type := mk_debug_value {
  index : Z;      (* uint8_t  *)
  value : Z;      (* uint16_t *)
  output : bool
}.

#[global] Instance debug_value_inhabited : Inhabited debug_value_t :=
  populate (mk_debug_value 0 0 false).

(** The file-scope statics. *)
Record ad_state : Type := mk_ad_state {
  m_debug_queue : list debug_value_t;
  m_hash_lookup : list Z;
  m_queue_size : Z;
  m_current_index_debug_channel : Z;
  m_head : Z;
  m_selective_debug : bool;
  m_tx_buffer : list Z;
  m_fast_debug_byte : Z
}.

(** Array read [a[i]] and array write [a[i] = v]. *)
Definition sel {A : Type} `{Inhabited A} (a : list A) (i : Z) : A :=
  a !!! Z.to_nat i.

Definition upd {A : Type} (a : list A) (i : Z) (v : A) : list A :=
  <[Z.to_nat i := v]> a.

(** Assignments to one member of a slot. *)
Definition with_index (k : Z) (d : debug_value_t) : debug_value_t :=
  mk_debug_value k (value d) (output d).
Definition with_value (v : Z) (d : debug_value_t) : debug_value_t :=
  mk_debug_value (index d) v (output d).
Definition with_output (b : bool) (d : debug_value_t) : debug_value_t :=
  mk_debug_value (index d) (value d) b.

(** Assignments to one static. *)
Definition set_queue (q : list debug_value_t) (st : ad_state) : ad_state :=
  mk_ad_state q (m_hash_lookup st) (m_queue_size st)
    (m_current_index_debug_channel st) (m_head st) (m_selective_debug st)
    (m_tx_buffer st) (m_fast_debug_byte st).
Definition set_lookup (l : list Z) (st : ad_state) : ad_state :=
  mk_ad_state (m_debug_queue st) l (m_queue_size st)
    (m_current_index_debug_channel st) (m_head st) (m_selective_debug st)
    (m_tx_buffer st) (m_fast_debug_byte st).
Definition set_queue_size (n : Z) (st : ad_state) : ad_state :=
  mk_ad_state (m_debug_queue st) (m_hash_lookup st) n
    (m_current_index_debug_channel st) (m_head st) (m_selective_debug st)
    (m_tx_buffer st) (m_fast_debug_byte st).
Definition set_current_index (c : Z) (st : ad_state) : ad_state :=
  mk_ad_state (m_debug_queue st) (m_hash_lookup st) (m_queue_size st)
    c (m_head st) (m_selective_debug st)
    (m_tx_buffer st) (m_fast_debug_byte st).
Definition set_head (h : Z) (st : ad_state) : ad_state :=
  mk_ad_state (m_debug_queue st) (m_hash_lookup st) (m_queue_size st)
    (m_current_index_debug_channel st) h (m_selective_debug st)
    (m_tx_buffer st) (m_fast_debug_byte st).
Definition set_selective (b : bool) (st : ad_state) : ad_state :=
  mk_ad_state (m_debug_queue st) (m_hash_lookup st) (m_queue_size st)
    (m_current_index_debug_channel st) (m_head st) b
    (m_tx_buffer st) (m_fast_debug_byte st).
Definition set_tx_buffer (p : list Z) (st : ad_state) : ad_state :=
  mk_ad_state (m_debug_queue st) (m_hash_lookup st) (m_queue_size st)
    (m_current_index_debug_channel st) (m_head st) (m_selective_debug st)
    p (m_fast_debug_byte st).
Definition set_fast_debug_byte (b : Z) (st : ad_state) : ad_state :=
  mk_ad_state (m_debug_queue st) (m_hash_lookup st) (m_queue_size st)
    (m_current_index_debug_channel st) (m_head st) (m_selective_debug st)
    (m_tx_buffer st) b.

(** [for (i = start; i < start + n; i++) body]: a counted loop whose body
    changes neither [i] nor the bound. *)
Fixpoint for_loop {S : Type} (n : nat) (i : Z) (body : Z -> S -> S) (s : S) : S :=
  match n with
  | O => s
  | S n' => for_loop n' (i + 1) body (body i s)
  end.

(** The statics before the first call: C zero-initialises them. *)
Definition boot_state : ad_state :=
  mk_ad_state (replicate 256 (mk_debug_value 0 0 false)) (replicate 256 0)
    0 0 0 false (replicate 8 0) 0.

(** ** Operations *)

(** [ad_output_debug_mesg] (debug.c:78). *)
Definition ad_output_debug_mesg (st : ad_state) (current_index : Z) : bool :=
  if m_selective_debug st
  then output (sel (m_debug_queue st) current_index)
  else true.

(** The three stores of one (key, value) pair, debug.c:114-116. *)
Definition write_pair (st : ad_state) (p_data : list Z) (idx cur : Z) : list Z :=
  let d := sel (m_debug_queue st) cur in
  let p1 := upd p_data idx (index d) in
  let p2 := upd p1 (idx + 1) (value d mod 256) in
  upd p2 (idx + 2) (Z.shiftr (value d) 8 mod 256).

(** The cursor update of debug.c:119-123. *)
Definition next_index (st : ad_state) (cur : Z) : Z :=
  let cur1 := (cur + 1) mod 256 in
  if m_queue_size st <=? cur1 then 0 else cur1.

(** The [while (count < 2)] loop of [ad_get_debug_page] (debug.c:108-124).
    One unit of fuel is one execution of the body, that is, one slot
    examined; [None] means the fuel ran out before the loop was left. *)
Fixpoint ad_get_debug_page_loop (fuel : nat) (st : ad_state)
    (count : Z) (p_data : list Z) (cur : Z) : option (list Z * Z) :=
  if 2 <=? count then Some (p_data, cur)
  else
    match fuel with
    | O => None
    | S fuel' =>
        let idx := (ANT_PAGE_DEBUG_KEY0_INDEX + count * ANT_PAGE_DEBUG_VALUE_SIZE) mod 256 in
        if ad_output_debug_mesg st cur
        then ad_get_debug_page_loop fuel' st ((count + 1) mod 256)
               (write_pair st p_data idx cur) (next_index st cur)
        else ad_get_debug_page_loop fuel' st count p_data (next_index st cur)
    end.

(** [memset(&p_data[from], byte, n)]. *)
Definition memset (p_data : list Z) (from byte : Z) (n : nat) : list Z :=
  for_loop n from (fun i p => upd p i byte) p_data.

(** [ad_get_debug_page] (debug.c:96): the new buffer and the new cursor. *)
Definition ad_get_debug_page (fuel : nat) (st : ad_state)
    (p_data : list Z) (p_current_index : Z) : option (list Z * Z) :=
  let p0 := upd p_data 0 ANT_DEBUG_PAGE_MESSAGE in
  let p1 := upd p0 ANT_FAST_DEBUG_BYTE_INDEX (m_fast_debug_byte st) in
  if 0 <? m_queue_size st
  then ad_get_debug_page_loop fuel st 0 p1 p_current_index
  else Some (memset p1 ANT_PAGE_DEBUG_KEY0_INDEX ANT_RESERVED_BYTE 6, p_current_index).

(** [ad_update_tx] (debug.c:136); the broadcast itself belongs to the
    radio stack and is not modelled. *)
Definition ad_update_tx (fuel : nat) (st : ad_state) : option ad_state :=
  match ad_get_debug_page fuel st (m_tx_buffer st) (m_current_index_debug_channel st) with
  | Some (p, c) => Some (set_current_index c (set_tx_buffer p st))
  | None => None
  end.

(** [ad_set_debug_field] (debug.c:250). *)
Definition ad_set_debug_field (idx field_value : Z) (st : ad_state) : ad_state :=
  if negb (sel (m_hash_lookup st) idx =? ANT_DEBUG_FIELD_INVALID)
  then
    let i := sel (m_hash_lookup st) idx in
    set_queue (upd (m_debug_queue st) i
                 (with_value field_value (sel (m_debug_queue st) i))) st
  else
    let i := m_head st in
    let st1 := set_lookup (upd (m_hash_lookup st) idx (m_head st)) st in
    let st2 := set_queue (upd (m_debug_queue st1) (m_head st1)
                 (with_index idx (sel (m_debug_queue st1) (m_head st1)))) st1 in
    let st3 := set_head ((m_head st2 + 1) mod 256) st2 in
    let st4 := set_queue_size ((m_queue_size st3 + 1) mod 256) st3 in
    set_queue (upd (m_debug_queue st4) i
                 (with_value field_value (sel (m_debug_queue st4) i))) st4.

(** [ad_get_debug_field] (debug.c:272): [Some v] when the function returns
    [true] having stored [v] through [p_field_value], [None] when it
    returns [false]. *)
Definition ad_get_debug_field (idx : Z) (st : ad_state) : option Z :=
  let value_ := sel (m_debug_queue st) (sel (m_hash_lookup st) idx) in
  if negb (index value_ =? ANT_DEBUG_FIELD_INVALID)
  then Some (value value_)
  else None.

(** [ad_increment_debug_field] (debug.c:285). *)
Definition ad_increment_debug_field (idx : Z) (st : ad_state) : ad_state :=
  match ad_get_debug_field idx st with
  | Some v => ad_set_debug_field idx ((v + 1) mod 65536) st
  | None => st
  end.

(** [ad_set_fast_debug_byte] (debug.c:296). *)
Definition ad_set_fast_debug_byte (fdb_value : Z) (st : ad_state) : ad_state :=
  set_fast_debug_byte fdb_value st.

(** The body of the filter-add loop (debug.c:171-184) for one payload
    byte [b]. *)
Definition filter_add_arg (b : Z) (st : ad_state) : ad_state :=
  if negb (b =? ANT_DEBUG_FIELD_INVALID)
  then
    let key := sel (m_hash_lookup st) b in
    if key =? ANT_DEBUG_FIELD_INVALID
    then
      let st1 := ad_set_debug_field b 65535 st in
      let key1 := sel (m_hash_lookup st1) b in
      set_queue (upd (m_debug_queue st1) key1
                   (with_output true (sel (m_debug_queue st1) key1))) st1
    else
      set_queue (upd (m_debug_queue st) key
                   (with_output true (sel (m_debug_queue st) key))) st
  else st.

(** [ad_decode_debug_command] (debug.c:156).  [payload] is the 8-byte
    [ANT_MESSAGE_aucPayload] of the received message. *)
Definition ad_decode_debug_command (payload : list Z) (st : ad_state) : ad_state :=
  if sel payload 1 =? ANT_DEBUG_FILTER_COMMAND
  then
    if sel payload 2 =? ANT_DEBUG_SUB_COMMAND_FILTER_ADD
    then
      for_loop 5 3 (fun i s => filter_add_arg (sel payload i) s)
        (set_selective true st)
    else if sel payload 2 =? ANT_DEBUG_SUB_COMMAND_FILTER_CLEAR
    then
      let st1 := set_selective false st in
      for_loop (Z.to_nat (m_queue_size st1)) 0
        (fun i s => set_queue (upd (m_debug_queue s) i
                                 (with_output false (sel (m_debug_queue s) i))) s)
        st1
    else st
  else st.

(** The state changes of [ad_init] (debug.c:206); opening the channel
    belongs to the radio stack and is not modelled. *)
Definition ad_init (st : ad_state) : ad_state :=
  let st1 := set_queue_size 0 st in
  let st2 := set_current_index 0 st1 in
  let st3 := set_head 0 st2 in
  let st4 := set_selective false st3 in
  let st5 := set_fast_debug_byte 255 st4 in
  for_loop (Z.to_nat DEBUG_QUEUE_SIZE) 0
    (fun i s =>
       let s1 := set_queue (upd (m_debug_queue s) i
                   (with_index 0 (sel (m_debug_queue s) i))) s in
       let s2 := set_queue (upd (m_debug_queue s1) i
                   (with_value 0 (sel (m_debug_queue s1) i))) s1 in
       set_lookup (upd (m_hash_lookup s2) i ANT_DEBUG_FIELD_INVALID) s2)
    st5.


(** ** The C types as predicates *)

Definition u8 (z : Z) : Prop := 0 <= z < 256.
Definition u16 (z : Z) : Prop := 0 <= z < 65536.

#[global] Instance u8_dec z : Decision (u8 z).
Proof. unfold u8. apply _. Defined.
#[global] Instance u16_dec z : Decision (u16 z).
Proof. unfold u16. apply _. Defined.

Definition slot_typed (d : debug_value_t) : Prop := u8 (index d) /\ u16 (value d).

#[global] Instance slot_typed_dec d : Decision (slot_typed d).
Proof. unfold slot_typed. apply _. Defined.

(** A state in which every static holds a value of its C type and the
    arrays have their declared sizes. *)
Definition well_typed (st : ad_state) : Prop :=
  length (m_debug_queue st) = 256%nat /\
  Forall slot_typed (m_debug_queue st) /\
  length (m_hash_lookup st) = 256%nat /\
  Forall u8 (m_hash_lookup st) /\
  u8 (m_queue_size st) /\
  u8 (m_current_index_debug_channel st) /\
  u8 (m_head st) /\
  length (m_tx_buffer st) = 8%nat /\
  Forall u8 (m_tx_buffer st) /\
  u8 (m_fast_debug_byte st).

#[global] Instance well_typed_dec st : Decision (well_typed st).
Proof. unfold well_typed. apply _. Defined.

(** [forall_below n P]: [P i] for every index [0 <= i < n] (see
    [forall_below_spec]); stated over the list of indices so that it can be
    decided by evaluation on a concrete state. *)
Definition forall_below (n : Z) (P : Z -> Prop) : Prop := Forall P (seqZ 0 n).

#[global] Instance forall_below_dec n (P : Z -> Prop) `{!forall i, Decision (P i)} :
  Decision (forall_below n P).
Proof. unfold forall_below. apply _. Defined.

(** ** Pages *)

(** The cursor points into the occupied slots (or is 0 while there are
    none): what [ad_init] and [next_index] leave behind. *)
Definition cursor_ok (st : ad_state) : Prop :=
  m_current_index_debug_channel st < m_queue_size st \/
  m_current_index_debug_channel st = 0.

#[global] Instance cursor_ok_dec st : Decision (cursor_ok st).
Proof. unfold cursor_ok. apply _. Defined.

(** One (key, value) pair on the wire: the key, then the value low byte
    first. *)
Definition pair_bytes (d : debug_value_t) : list Z :=
  [index d; value d mod 256; value d / 256 mod 256].

(** The page that carries slots [i] and [j]. *)
Definition page_of (st : ad_state) (i j : Z) : list Z :=
  [ANT_DEBUG_PAGE_MESSAGE; m_fast_debug_byte st]
  ++ pair_bytes (sel (m_debug_queue st) i)
  ++ pair_bytes (sel (m_debug_queue st) j).

(** The page of an empty registry. *)
Definition empty_page (st : ad_state) : list Z :=
  [ANT_DEBUG_PAGE_MESSAGE; m_fast_debug_byte st] ++ replicate 6 ANT_RESERVED_BYTE.

(** A well-formed page: eight bytes, the tag, the fast byte, and either
    six fill bytes (empty registry) or the pairs of two occupied slots that
    [ad_output_debug_mesg] lets through. *)
Definition page_well_formed (st : ad_state) (p : list Z) : Prop :=
  length p = 8%nat /\ Forall u8 p /\
  (m_queue_size st = 0 /\ p = empty_page st \/
   exists i j,
     (0 <= i < m_queue_size st /\ ad_output_debug_mesg st i = true) /\
     (0 <= j < m_queue_size st /\ ad_output_debug_mesg st j = true) /\
     p = page_of st i j).

(** ** The registry *)

(** [fresh st k]: the lookup table holds the sentinel for key [k], so
    [ad_set_debug_field] would take its else-branch and allocate. *)
Definition fresh (st : ad_state) (k : Z) : bool :=
  sel (m_hash_lookup st) k =? ANT_DEBUG_FIELD_INVALID.

(** The registry after [used] allocations since [ad_init]: head and size
    are [used] as a [uint8_t], the slots allocated so far are found back
    through the lookup table, and every lookup entry other than the
    sentinel names an allocated slot holding that key. *)
Definition registry_inv (used : Z) (st : ad_state) : Prop :=
  (0 <= used <= DEBUG_QUEUE_SIZE) /\
  m_head st = used mod 256 /\
  m_queue_size st = used mod 256 /\
  forall_below used (fun i =>
    sel (m_hash_lookup st) (index (sel (m_debug_queue st) i)) = i) /\
  forall_below 256 (fun k =>
    sel (m_hash_lookup st) k <> ANT_DEBUG_FIELD_INVALID ->
    sel (m_hash_lookup st) k < used /\
    index (sel (m_debug_queue st) (sel (m_hash_lookup st) k)) = k).

#[global] Instance registry_inv_dec used st : Decision (registry_inv used st).
Proof. unfold registry_inv. apply _. Defined.

(** A registry whose slot count did not wrap: [m_queue_size] slots are
    allocated. *)
Definition registry_ok (st : ad_state) : Prop := registry_inv (m_queue_size st) st.

#[global] Instance registry_ok_dec st : Decision (registry_ok st).
Proof. unfold registry_ok. apply _. Defined.

(** The invariant of the specification's data model, on the occupied
    slots [0 .. m_queue_size - 1]. *)
Definition lookup_invariant (st : ad_state) : Prop :=
  (forall i, 0 <= i < m_queue_size st ->
     sel (m_hash_lookup st) (index (sel (m_debug_queue st) i)) = i) /\
  (forall k, u8 k -> sel (m_hash_lookup st) k <> ANT_DEBUG_FIELD_INVALID ->
     index (sel (m_debug_queue st) (sel (m_hash_lookup st) k)) = k).

(** ** Sequences of calls *)

Inductive ad_op : Type :=
  | OpSet (idx field_value : Z)
  | OpIncrement (idx : Z)
  | OpCommand (payload : list Z).

(** Arguments of the C types; a command payload has eight bytes. *)
Definition op_valid (op : ad_op) : Prop :=
  match op with
  | OpSet idx field_value => u8 idx /\ u16 field_value
  | OpIncrement idx => u8 idx
  | OpCommand payload => length payload = 8%nat /\ Forall u8 payload
  end.

#[global] Instance op_valid_dec op : Decision (op_valid op).
Proof. destruct op; unfold op_valid; apply _. Defined.

Definition ad_step (op : ad_op) (st : ad_state) : ad_state :=
  match op with
  | OpSet idx field_value => ad_set_debug_field idx field_value st
  | OpIncrement idx => ad_increment_debug_field idx st
  | OpCommand payload => ad_decode_debug_command payload st
  end.

Definition ad_run (ops : list ad_op) (st : ad_state) : ad_state :=
  foldl (fun s op => ad_step op s) st ops.

(** The number of slots a call allocated: how far it advanced [m_head]
    (the only assignment to [m_head] after [ad_init] is the [m_head++] of
    an allocation, and one call allocates at most five slots). *)
Definition slots_allocated (st st' : ad_state) : Z :=
  (m_head st' - m_head st) mod 256.

(** The number of slots a sequence of calls allocates from [st]. *)
Fixpoint allocations (ops : list ad_op) (st : ad_state) : Z :=
  match ops with
  | [] => 0
  | op :: ops' =>
      slots_allocated st (ad_step op st) + allocations ops' (ad_step op st)
  end.

(** [set] called on each (key, value) of a list in turn. *)
Definition set_all (kvs : list (Z * Z)) (st : ad_state) : ad_state :=
  foldl (fun s kv => ad_set_debug_field kv.1 kv.2 s) st kvs.

(** [advances a st st']: [st'] comes from [st] by [a] allocations; it is
    well-typed, its head moved by [a], and it satisfies the registry
    invariant for [a] more slots whenever these fit. *)
Definition advances (a : Z) (st st' : ad_state) : Prop :=
  0 <= a /\ well_typed st' /\
  m_head st' = (m_head st + a) mod 256 /\
  forall used, registry_inv used st -> used + a <= DEBUG_QUEUE_SIZE ->
               registry_inv (used + a) st'.

(** ** The filter *)

(** The registry as a partial map: the slot of key [k], when the lookup
    table knows [k]. *)
Definition ad_field (st : ad_state) (k : Z) : option debug_value_t :=
  if fresh st k then None
  else Some (sel (m_debug_queue st) (sel (m_hash_lookup st) k)).

(** The filter-add step in the words of the specification: skip the
    reserved byte; register an unknown key with the placeholder 0xFFFF;
    then flag the key's slot. *)
Definition filter_add_spec_step (st : ad_state) (b : Z) : ad_state :=
  if decide (b = 255) then st
  else
    let st1 := if fresh st b then ad_set_debug_field b 65535 st else st in
    let slot := sel (m_hash_lookup st1) b in
    set_queue (upd (m_debug_queue st1) slot
                 (with_output true (sel (m_debug_queue st1) slot))) st1.

(** The slots allocated while the bytes [d] are processed from [st]. *)
Fixpoint filter_add_allocs (d : list Z) (st : ad_state) : Z :=
  match d with
  | [] => 0
  | b :: d' =>
      (if negb (b =? ANT_DEBUG_FIELD_INVALID) && fresh st b then 1 else 0)
      + filter_add_allocs d' (filter_add_arg b st)
  end.

(** ** Between two filter commands *)

(** One call that is neither [ad_init] nor a filter command, and that
    does not fill the registry up to the sentinel slot number: a set, an
    increment, a fast-byte update, a page build that finished, or a command
    the decoder ignores. *)
Inductive kept_step : ad_state -> ad_state -> Prop :=
  | kept_set idx field_value st :
      u8 idx -> u16 field_value ->
      (fresh st idx = true -> m_queue_size st + 1 < DEBUG_QUEUE_SIZE) ->
      kept_step st (ad_set_debug_field idx field_value st)
  | kept_increment idx st :
      u8 idx ->
      (fresh st idx = true -> m_queue_size st + 1 < DEBUG_QUEUE_SIZE) ->
      kept_step st (ad_increment_debug_field idx st)
  | kept_fast_byte fdb_value st :
      u8 fdb_value ->
      kept_step st (ad_set_fast_debug_byte fdb_value st)
  | kept_update_tx fuel st st' :
      ad_update_tx fuel st = Some st' ->
      kept_step st st'
  | kept_other_command payload st :
      sel payload 1 <> ANT_DEBUG_FILTER_COMMAND \/
      (sel payload 2 <> ANT_DEBUG_SUB_COMMAND_FILTER_ADD /\
       sel payload 2 <> ANT_DEBUG_SUB_COMMAND_FILTER_CLEAR) ->
      kept_step st (ad_decode_debug_command payload st).

(** [n] page builds in a row. *)
Fixpoint ad_update_tx_n (fuel : nat) (n : nat) (st : ad_state) : option ad_state :=
  match n with
  | O => Some st
  | S n' =>
      match ad_update_tx fuel st with
      | Some st' => ad_update_tx_n fuel n' st'
      | None => None
      end
  end.

(** The filter {A, B} is in force: Selective Mode is on, only occupied
    slots holding key [A] or [B] are flagged, and the slot of [A] is. *)
Definition filter_holds (A B : Z) (st : ad_state) : Prop :=
  (well_typed st /\ registry_ok st /\ cursor_ok st) /\
  m_selective_debug st = true /\
  (forall i, 0 <= i < 256 -> output (sel (m_debug_queue st) i) = true ->
     i < m_queue_size st /\
     (index (sel (m_debug_queue st) i) = A \/ index (sel (m_debug_queue st) i) = B)) /\
  fresh st A = false /\
  output (sel (m_debug_queue st) (sel (m_hash_lookup st) A)) = true.

(** No filter is in force: the state a filter-add command is expected to
    meet.  It holds after boot and the first [ad_init] and is kept by
    every call other than a filter-add ([no_filter_init],
    [no_filter_step]); a later [ad_init] does not restore it, since it
    leaves the [output] flags as they are. *)
Definition no_filter (st : ad_state) : Prop :=
  (well_typed st /\ registry_ok st /\ cursor_ok st) /\
  forall_below 256 (fun i => output (sel (m_debug_queue st) i) = false).

#[global] Instance no_filter_dec st : Decision (no_filter st).
Proof. unfold no_filter. apply _. Defined.

(** ** The rest of debug.c *)

(** [ad_force_error_page] (debug.c:302).  The two field keys come from
    debug.h and are taken as they are given.  [file_name] is the string as
    the list of its [char]s; each [(uint8_t)] cast is a [mod 256].  The
    broadcast itself belongs to the radio stack. *)
Section debug_h.

Variables ANT_DEBUG_FIELD_FILE_NAME ANT_DEBUG_FIELD_ERR_LINE : Z.

Definition ad_force_error_page (error_code error_line : Z) (file_name : list Z)
    (st : ad_state) : ad_state :=
  let b0 := upd (m_tx_buffer st) 0 ANT_DEBUG_PAGE_MESSAGE in
  let b1 := upd b0 1 error_code in
  let b2 := upd b1 2 ANT_DEBUG_FIELD_FILE_NAME in
  let b3 := upd b2 3 (sel file_name 1 mod 256) in
  let b4 := upd b3 4 (sel file_name 0 mod 256) in
  let b5 := upd b4 5 ANT_DEBUG_FIELD_ERR_LINE in
  let b6 := upd b5 6 (Z.shiftr error_line 0 mod 256) in
  let b7 := upd b6 7 (Z.shiftr error_line 8 mod 256) in
  set_tx_buffer b7 st.

End debug_h.

(** A custom command handler is code of the application; it is given the
    received bytes from offset 3 on and is modelled by what it does to the
    statics of this file. *)
Definition custom_command_handler_t : Type := list Z -> ad_state -> ad_state.

(** The statics of [ad_state] together with [m_custom_command_callback]
    ([None] for [NULL], its initial value). *)
Record ad_module : Type := mk_ad_module {
  ad_statics : ad_state;
  m_custom_command_callback : option custom_command_handler_t
}.

(** [ad_register_custom_command_callback] (debug.c:244). *)
Definition ad_register_custom_command_callback
    (callback : option custom_command_handler_t) (m : ad_module) : ad_module :=
  mk_ad_module (ad_statics m) callback.

(** The members of [ant_evt_t] that debug.c reads. *)
Record ant_evt_t : Type := mk_ant_evt {
  event : Z;
  evt_buffer : list Z
}.

(** [ad_process_ant_event] (debug.c:316).  The event codes and the layout
    of [ANT_MESSAGE] come from ant_parameters.h: the codes are taken as
    they are given (distinct, being case labels of one [switch]), and
    [ANT_MESSAGE_aucPayload] is the payload member of the buffer seen as an
    [ANT_MESSAGE]. *)
Section ant_parameters_h.

Variables EVENT_CHANNEL_COLLISION EVENT_TRANSFER_TX_FAILED EVENT_TX EVENT_RX : Z.
Variable ANT_MESSAGE_aucPayload : list Z -> list Z.

Definition ad_process_ant_event (fuel : nat) (p_ant_evt : ant_evt_t)
    (m : ad_module) : option ad_module :=
  let st := ad_statics m in
  if (event p_ant_evt =? EVENT_CHANNEL_COLLISION)
     || (event p_ant_evt =? EVENT_TRANSFER_TX_FAILED)
     || (event p_ant_evt =? EVENT_TX)
  then
    match ad_update_tx fuel st with
    | Some st' => Some (mk_ad_module st' (m_custom_command_callback m))
    | None => None
    end
  else if event p_ant_evt =? EVENT_RX
  then
    if sel (evt_buffer p_ant_evt) 3 =? ANT_DEBUG_PAGE_MESSAGE
    then
      Some (mk_ad_module
              (ad_decode_debug_command (ANT_MESSAGE_aucPayload (evt_buffer p_ant_evt)) st)
              (m_custom_command_callback m))
    else
      match m_custom_command_callback m with
      | Some callback =>
          Some (mk_ad_module (callback (drop 3 (evt_buffer p_ant_evt)) st)
                  (m_custom_command_callback m))
      | None => Some m
      end
  else Some m.

End ant_parameters_h.

(** Only occupied slots are flagged: what the clear loop of
    [ad_decode_debug_command], which stops at the slot count, relies on to
    reach every flag. *)
Definition flags_occupied (st : ad_state) : Prop :=
  forall_below 256 (fun i =>
    output (sel (m_debug_queue st) i) = true -> i < m_queue_size st).

#[global] Instance flags_occupied_dec st : Decision (flags_occupied st).
Proof. unfold flags_occupied. apply _. Defined.

(** * Supporting lemmas *)

Lemma forall_below_spec n (P : Z -> Prop) :
  forall_below n P <-> forall i, 0 <= i < n -> P i.
Proof.
  unfold forall_below. rewrite Forall_forall. split.
  - intros H i Hi. apply H, elem_of_seqZ. lia.
  - intros H i Hi. apply elem_of_seqZ in Hi. apply H. lia.
Qed.

(** ** Arrays *)

Lemma length_upd {A : Type} (a : list A) i v : length (upd a i v) = length a.
Proof. apply length_insert. Qed.

Lemma sel_upd_eq {A : Type} `{!Inhabited A} (a : list A) i v :
  0 <= i < Z.of_nat (length a) -> sel (upd a i v) i = v.
Proof.
  intros Hi. unfold sel, upd. apply list_lookup_total_insert_eq. lia.
Qed.

Lemma sel_upd_ne {A : Type} `{!Inhabited A} (a : list A) i j v :
  0 <= i -> 0 <= j -> i <> j -> sel (upd a i v) j = sel a j.
Proof.
  intros Hi Hj Hne. unfold sel, upd. apply list_lookup_total_insert_ne. lia.
Qed.

Lemma sel_upd {A : Type} `{!Inhabited A} (a : list A) i j v :
  0 <= i < Z.of_nat (length a) -> 0 <= j ->
  sel (upd a i v) j = if decide (i = j) then v else sel a j.
Proof.
  intros Hi Hj. destruct (decide (i = j)) as [->|Hne].
  - by apply sel_upd_eq.
  - apply sel_upd_ne; lia.
Qed.

Lemma upd_upd_eq {A : Type} (a : list A) i v w : upd (upd a i v) i w = upd a i w.
Proof. apply list_insert_insert_eq. Qed.

Lemma upd_sel_id {A : Type} `{!Inhabited A} (a : list A) i v :
  0 <= i < Z.of_nat (length a) -> sel a i = v -> upd a i v = a.
Proof.
  intros Hi Hv. unfold upd. apply list_insert_id.
  rewrite <- Hv. unfold sel. apply list_lookup_lookup_total_lt. lia.
Qed.

Lemma Forall_sel {A : Type} `{!Inhabited A} (P : A -> Prop) (a : list A) i :
  Forall P a -> 0 <= i < Z.of_nat (length a) -> P (sel a i).
Proof.
  intros Ha Hi. unfold sel.
  eapply Forall_lookup_1; [exact Ha|].
  apply list_lookup_lookup_total_lt. lia.
Qed.

Lemma Forall_upd {A : Type} (P : A -> Prop) (a : list A) i v :
  Forall P a -> P v -> Forall P (upd a i v).
Proof. intros Ha Hv. unfold upd. by apply Forall_insert. Qed.

(** ** Counted loops *)

Lemma for_loop_snoc {S : Type} n i (body : Z -> S -> S) s :
  for_loop (Datatypes.S n) i body s = body (i + Z.of_nat n) (for_loop n i body s).
Proof.
  revert i s. induction n as [|n IH]; intros i s.
  - simpl. by rewrite Z.add_0_r.
  - change (for_loop (Datatypes.S (Datatypes.S n)) i body s)
      with (for_loop (Datatypes.S n) (i + 1) body (body i s)).
    rewrite IH. simpl for_loop.
    replace (i + 1 + Z.of_nat n) with (i + Z.of_nat (Datatypes.S n)) by lia.
    done.
Qed.

(** An invariant indexed by the number of iterations done. *)
Lemma for_loop_ind {S : Type} (I : nat -> S -> Prop) n i (body : Z -> S -> S) s :
  I O s ->
  (forall k s', (k < n)%nat -> I k s' -> I (Datatypes.S k) (body (i + Z.of_nat k) s')) ->
  I n (for_loop n i body s).
Proof.
  intros H0 Hstep. induction n as [|n IH].
  - exact H0.
  - rewrite for_loop_snoc. apply Hstep; [lia|]. apply IH.
    intros k s' Hk. apply Hstep. lia.
Qed.

(** ** Evaluating a decidable property of a concrete state *)

Lemma decide_by_evaluation (P : Prop) `{!Decision P} : bool_decide P = true -> P.
Proof. apply bool_decide_eq_true_1. Qed.

Ltac evaluate :=
  lazymatch goal with
  | |- ?P =>
      let d := constr:(_ : Decision P) in
      apply (@decide_by_evaluation P d); vm_compute; reflexivity
  end.

(** ** [ad_set_debug_field] *)

Ltac typed H :=
  destruct H as (Hql & Hqt & Hll & Hlt & Hsz & Hcur & Hhd & Htl & Htt & Hfb).

Lemma set_known st k v :
  sel (m_hash_lookup st) k <> ANT_DEBUG_FIELD_INVALID ->
  ad_set_debug_field k v st =
  set_queue (upd (m_debug_queue st) (sel (m_hash_lookup st) k)
               (with_value v (sel (m_debug_queue st) (sel (m_hash_lookup st) k)))) st.
Proof.
  intros Hk. unfold ad_set_debug_field.
  destruct (Z.eqb_spec (sel (m_hash_lookup st) k) ANT_DEBUG_FIELD_INVALID); [done|].
  reflexivity.
Qed.

Lemma set_fresh st k v :
  well_typed st ->
  sel (m_hash_lookup st) k = ANT_DEBUG_FIELD_INVALID ->
  ad_set_debug_field k v st =
  mk_ad_state
    (upd (m_debug_queue st) (m_head st)
       (mk_debug_value k v (output (sel (m_debug_queue st) (m_head st)))))
    (upd (m_hash_lookup st) k (m_head st))
    ((m_queue_size st + 1) mod 256)
    (m_current_index_debug_channel st)
    ((m_head st + 1) mod 256)
    (m_selective_debug st) (m_tx_buffer st) (m_fast_debug_byte st).
Proof.
  intros Hwt Hk. typed Hwt. unfold ad_set_debug_field.
  destruct (Z.eqb_spec (sel (m_hash_lookup st) k) ANT_DEBUG_FIELD_INVALID); [|done].
  cbn [negb]. unfold set_queue, set_lookup, set_head, set_queue_size.
  cbn [m_debug_queue m_hash_lookup m_queue_size m_current_index_debug_channel
       m_head m_selective_debug m_tx_buffer m_fast_debug_byte].
  rewrite sel_upd_eq by (unfold u8 in Hhd; lia).
  rewrite upd_upd_eq. reflexivity.
Qed.

(** ** [ad_init] *)

Lemma ad_init_spec st :
  well_typed st ->
  let st' := ad_init st in
  length (m_debug_queue st') = 256%nat /\
  length (m_hash_lookup st') = 256%nat /\
  m_queue_size st' = 0 /\
  m_current_index_debug_channel st' = 0 /\
  m_head st' = 0 /\
  m_selective_debug st' = false /\
  m_tx_buffer st' = m_tx_buffer st /\
  m_fast_debug_byte st' = 255 /\
  forall i, 0 <= i < 256 ->
    sel (m_debug_queue st') i = mk_debug_value 0 0 (output (sel (m_debug_queue st) i)) /\
    sel (m_hash_lookup st') i = ANT_DEBUG_FIELD_INVALID.
Proof.
  intros Hwt. typed Hwt. unfold ad_init.
  set (body := fun (i : Z) (s : ad_state) => _).
  set (st5 := set_fast_debug_byte 255 _).
  pose (I := fun (k : nat) (s : ad_state) =>
    length (m_debug_queue s) = 256%nat /\
    length (m_hash_lookup s) = 256%nat /\
    m_queue_size s = 0 /\ m_current_index_debug_channel s = 0 /\
    m_head s = 0 /\ m_selective_debug s = false /\
    m_tx_buffer s = m_tx_buffer st /\ m_fast_debug_byte s = 255 /\
    forall i, 0 <= i < 256 ->
      (i < Z.of_nat k ->
         sel (m_debug_queue s) i = mk_debug_value 0 0 (output (sel (m_debug_queue st) i)) /\
         sel (m_hash_lookup s) i = ANT_DEBUG_FIELD_INVALID) /\
      (Z.of_nat k <= i -> sel (m_debug_queue s) i = sel (m_debug_queue st) i)).
  assert (HI : I (Z.to_nat DEBUG_QUEUE_SIZE) (for_loop (Z.to_nat DEBUG_QUEUE_SIZE) 0 body st5)).
  { apply for_loop_ind.
    - unfold I, st5. cbn. split_and!; try done.
      intros i Hi. split; intros Hcmp; [lia|done].
    - intros k s Hk (Hq & Hl & H1 & H2 & H3 & H4 & H5 & H6 & H7).
      assert (Hk' : (k < 256)%nat) by (unfold DEBUG_QUEUE_SIZE in Hk; lia).
      unfold I, body. cbn.
      change (0 + Z.of_nat k) with (Z.of_nat k).
      rewrite !length_upd.
      split_and!; try done.
      intros i Hi. split; intros Hcmp.
      + destruct (decide (i = Z.of_nat k)) as [->|Hne].
        * rewrite sel_upd_eq by (rewrite length_upd; lia).
          rewrite sel_upd_eq by lia.
          rewrite sel_upd_eq by lia.
          destruct (H7 (Z.of_nat k) ltac:(lia)) as [_ Hge].
          rewrite Hge by lia. done.
        * rewrite !sel_upd_ne by lia.
          destruct (H7 i ltac:(lia)) as [Hlt' _]. apply Hlt'. lia.
      + rewrite !sel_upd_ne by lia.
        destruct (H7 i ltac:(lia)) as [_ Hge']. apply Hge'. lia. }
  cbv zeta. revert HI.
  generalize (for_loop (Z.to_nat DEBUG_QUEUE_SIZE) 0 body st5). intros r HI.
  destruct HI as (Hq & Hl & H1 & H2 & H3 & H4 & H5 & H6 & H7).
  split_and!; try assumption.
  intros i Hi. destruct (H7 i Hi) as [Hlt' _]. apply Hlt'.
  unfold DEBUG_QUEUE_SIZE. lia.
Qed.

Lemma init_typed st : well_typed st -> well_typed (ad_init st).
Proof.
  intros Hwt.
  destruct (ad_init_spec st Hwt) as (Hq & Hl & H1 & H2 & H3 & H4 & H5 & H6 & H7).
  revert Hq Hl H1 H2 H3 H4 H5 H6 H7.
  generalize (ad_init st). intros st' Hq Hl H1 H2 H3 H4 H5 H6 H7.
  typed Hwt. unfold well_typed. rewrite H1, H2, H3, H5, H6.
  split_and!; try done.
  - apply Forall_lookup_2. intros i d Hd.
    pose proof (lookup_lt_Some _ _ _ Hd) as Hi.
    destruct (H7 (Z.of_nat i) ltac:(lia)) as [Hs _].
    unfold sel in Hs. rewrite Nat2Z.id in Hs.
    rewrite (list_lookup_total_correct _ _ _ Hd) in Hs. subst d.
    split; cbn; unfold u8, u16; lia.
  - apply Forall_lookup_2. intros i d Hd.
    pose proof (lookup_lt_Some _ _ _ Hd) as Hi.
    destruct (H7 (Z.of_nat i) ltac:(lia)) as [_ Hs].
    unfold sel in Hs. rewrite Nat2Z.id in Hs.
    rewrite (list_lookup_total_correct _ _ _ Hd) in Hs. subst d.
    unfold u8, ANT_DEBUG_FIELD_INVALID. lia.
Qed.

(** * Claims about single calls *)

(** C2 (code defect).  The specification wants [get] of a key that was
    never set to be absent.  In debug.c the not-found test looks at the key
    stored in slot [m_hash_lookup[index]]; for an unknown key that is slot
    255 (the sentinel used as an index), whose key [ad_init] cleared to 0,
    so the call returns [true] and the value 0.  Evaluated here right after
    initialisation, and after a [set] on another key. *)
Theorem get_of_unset_key_after_init :
  let st0 := ad_init boot_state in
  let st1 := ad_set_debug_field 9 7 st0 in
  sel (m_hash_lookup st0) 5 = ANT_DEBUG_FIELD_INVALID /\
  ad_get_debug_field 5 st0 = Some 0 /\
  sel (m_hash_lookup st1) 5 = ANT_DEBUG_FIELD_INVALID /\
  ad_get_debug_field 5 st1 = Some 0.
Proof. vm_compute. done. Qed.

(** The same on every initialised state and for every key. *)
Lemma get_after_init st k :
  well_typed st -> u8 k -> ad_get_debug_field k (ad_init st) = Some 0.
Proof.
  intros Hwt Hk. destruct (ad_init_spec st Hwt) as (_ & _ & _ & _ & _ & _ & _ & _ & H).
  revert H. generalize (ad_init st). intros st' H.
  unfold ad_get_debug_field.
  destruct (H k Hk) as [_ ->].
  destruct (H ANT_DEBUG_FIELD_INVALID ltac:(unfold ANT_DEBUG_FIELD_INVALID; lia)) as [-> _].
  reflexivity.
Qed.

(** C3 (code defect, the one of C2).  The specification wants [increment]
    of an absent key to change nothing.  In debug.c the read of the absent
    key succeeds with value 0, so the increment stores 1 under the key and
    allocates a slot for it. *)
Theorem increment_of_absent_key_registers_it :
  let st := ad_init boot_state in
  let st' := ad_increment_debug_field 5 st in
  (sel (m_hash_lookup st) 5 = ANT_DEBUG_FIELD_INVALID /\ m_queue_size st = 0) /\
  sel (m_hash_lookup st') 5 = 0 /\
  m_queue_size st' = 1 /\
  sel (m_debug_queue st') 0 = mk_debug_value 5 1 false.
Proof. vm_compute. done. Qed.

(** C9.  [ad_set_debug_field] does not treat key 255 specially: when
    [m_hash_lookup[255]] holds the sentinel, the call takes the next free
    slot [m_head] for it, stores key and value there, and advances
    [m_head] and [m_queue_size], exactly as [set_fresh] says for any key.
    Only the command decoder skips byte 255. *)
Theorem set_registers_key_255 st v :
  well_typed st ->
  sel (m_hash_lookup st) 255 = ANT_DEBUG_FIELD_INVALID ->
  let st' := ad_set_debug_field 255 v st in
  sel (m_hash_lookup st') 255 = m_head st /\
  sel (m_debug_queue st') (m_head st) =
    mk_debug_value 255 v (output (sel (m_debug_queue st) (m_head st))) /\
  m_head st' = (m_head st + 1) mod 256 /\
  m_queue_size st' = (m_queue_size st + 1) mod 256 /\
  filter_add_arg 255 st = st.
Proof.
  intros Hwt Hk. cbv zeta. rewrite (set_fresh st 255 v Hwt Hk).
  typed Hwt. unfold u8 in *. cbn.
  rewrite !sel_upd_eq by lia. done.
Qed.

Lemma set_registers_key_255_witness :
  let st := ad_init boot_state in
  let st' := ad_set_debug_field 255 1234 st in
  sel (m_hash_lookup st') 255 = m_head st /\
  sel (m_debug_queue st') (m_head st) =
    mk_debug_value 255 1234 (output (sel (m_debug_queue st) (m_head st))) /\
  m_head st' = (m_head st + 1) mod 256 /\
  m_queue_size st' = (m_queue_size st + 1) mod 256 /\
  filter_add_arg 255 st = st.
Proof.
  apply (set_registers_key_255 (ad_init boot_state) 1234).
  - evaluate.
  - vm_compute. reflexivity.
Defined.

(** C8.  [ad_init] resets the slot count, the cursor, the head, the
    selective flag and the fast byte, and the key and value of every slot
    and every lookup entry, but writes no [output] member: each slot keeps
    its flag.  Hence a field registered after a re-initialisation lands in
    slot 0 with whatever flag slot 0 had before. *)
Theorem init_keeps_output_flags st :
  well_typed st ->
  let st' := ad_init st in
  (m_queue_size st' = 0 /\ m_current_index_debug_channel st' = 0 /\
   m_head st' = 0 /\ m_selective_debug st' = false /\
   m_fast_debug_byte st' = 255) /\
  (forall i, 0 <= i < DEBUG_QUEUE_SIZE ->
     sel (m_debug_queue st') i =
       mk_debug_value 0 0 (output (sel (m_debug_queue st) i)) /\
     sel (m_hash_lookup st') i = ANT_DEBUG_FIELD_INVALID) /\
  (forall k v, u8 k ->
     let st'' := ad_set_debug_field k v st' in
     sel (m_hash_lookup st'') k = 0 /\
     sel (m_debug_queue st'') 0 =
       mk_debug_value k v (output (sel (m_debug_queue st) 0))).
Proof.
  intros Hwt.
  pose proof (init_typed st Hwt) as Hwt'.
  destruct (ad_init_spec st Hwt) as (Hq & Hl & H1 & H2 & H3 & H4 & H5 & H6 & H7).
  cbv zeta. revert Hwt' Hq Hl H1 H2 H3 H4 H5 H6 H7.
  generalize (ad_init st). intros st' Hwt' Hq Hl H1 H2 H3 H4 H5 H6 H7.
  split_and!; try assumption.
  intros k v Hk.
  destruct (H7 k Hk) as [_ Hlk].
  rewrite (set_fresh _ k v Hwt' Hlk). cbn. rewrite H3.
  rewrite !sel_upd_eq by (unfold u8 in Hk; lia).
  destruct (H7 0 ltac:(lia)) as [-> _]. split; reflexivity.
Qed.

Lemma init_keeps_output_flags_witness :
  let st := ad_decode_debug_command [249; 3; 1; 7; 255; 255; 255; 255] (ad_init boot_state) in
  output (sel (m_debug_queue st) 0) = true /\
  sel (m_debug_queue (ad_set_debug_field 9 1 (ad_init st))) 0 = mk_debug_value 9 1 true.
Proof.
  cbv zeta. split; [vm_compute; reflexivity|].
  refine (proj2 (proj2 (proj2 (init_keeps_output_flags
    (ad_decode_debug_command [249; 3; 1; 7; 255; 255; 255; 255] (ad_init boot_state)) _))
    9 1 _)).
  - evaluate.
  - unfold u8. lia.
Defined.

(** * The page builder *)

Lemma shiftr_8 v : Z.shiftr v 8 = v / 256.
Proof. rewrite Z.shiftr_div_pow2 by lia. reflexivity. Qed.

(** The two pairs written over the tag and the fast byte give [page_of]. *)
Lemma write_two_pairs st (p : list Z) i j :
  length p = 8%nat ->
  write_pair st
    (write_pair st
       (upd (upd p 0 ANT_DEBUG_PAGE_MESSAGE) ANT_FAST_DEBUG_BYTE_INDEX (m_fast_debug_byte st))
       2 i) 5 j
  = page_of st i j.
Proof.
  intros Hp.
  destruct p as [|b0 [|b1 [|b2 [|b3 [|b4 [|b5 [|b6 [|b7 [|b8 p]]]]]]]]]; try discriminate Hp.
  unfold write_pair, page_of, pair_bytes. rewrite !shiftr_8. reflexivity.
Qed.

Lemma memset_page st (p : list Z) :
  length p = 8%nat ->
  memset (upd (upd p 0 ANT_DEBUG_PAGE_MESSAGE) ANT_FAST_DEBUG_BYTE_INDEX (m_fast_debug_byte st))
    ANT_PAGE_DEBUG_KEY0_INDEX ANT_RESERVED_BYTE 6
  = empty_page st.
Proof.
  intros Hp.
  destruct p as [|b0 [|b1 [|b2 [|b3 [|b4 [|b5 [|b6 [|b7 [|b8 p]]]]]]]]]; try discriminate Hp.
  reflexivity.
Qed.

Lemma page_of_typed st i j :
  well_typed st -> 0 <= i < 256 -> 0 <= j < 256 ->
  length (page_of st i j) = 8%nat /\ Forall u8 (page_of st i j).
Proof.
  intros Hwt Hi Hj. typed Hwt. split; [reflexivity|].
  assert (Hd : forall k, 0 <= k < 256 -> slot_typed (sel (m_debug_queue st) k)).
  { intros k Hk. apply Forall_sel; [done|lia]. }
  destruct (Hd i Hi) as [Hi1 Hi2]. destruct (Hd j Hj) as [Hj1 Hj2].
  unfold page_of, pair_bytes, ANT_DEBUG_PAGE_MESSAGE. cbn [app].
  repeat (apply Forall_cons; split); try apply Forall_nil;
    try done; unfold u8, u16 in *; try lia;
    try (apply Z.mod_pos_bound; lia).
Qed.

Lemma empty_page_typed st :
  well_typed st -> length (empty_page st) = 8%nat /\ Forall u8 (empty_page st).
Proof.
  intros Hwt. typed Hwt. split; [reflexivity|].
  unfold empty_page, ANT_DEBUG_PAGE_MESSAGE, ANT_RESERVED_BYTE. cbn [app replicate].
  repeat (apply Forall_cons; split); try apply Forall_nil; try done; unfold u8; lia.
Qed.

(** *** The cursor *)

Lemma next_index_step st c :
  u8 (m_queue_size st) -> 0 <= c < m_queue_size st ->
  next_index st c = if c + 1 <? m_queue_size st then c + 1 else 0.
Proof.
  unfold u8, next_index. intros Hn Hc.
  rewrite Z.mod_small by lia.
  destruct (Z.leb_spec (m_queue_size st) (c + 1)), (Z.ltb_spec (c + 1) (m_queue_size st)); lia.
Qed.

Lemma next_index_lt st c :
  u8 (m_queue_size st) -> 0 <= c < m_queue_size st ->
  0 <= next_index st c < m_queue_size st.
Proof.
  intros Hn Hc. rewrite next_index_step by done.
  destruct (Z.ltb_spec (c + 1) (m_queue_size st)); lia.
Qed.

Lemma next_index_u8 st c : u8 (next_index st c).
Proof.
  unfold u8, next_index.
  destruct (Z.leb_spec (m_queue_size st) ((c + 1) mod 256)); [lia|].
  apply Z.mod_pos_bound. lia.
Qed.

(** Cyclic distance from [c] forward to [p] among [n] slots. *)
Lemma mod_distance n p c :
  0 <= p < n -> 0 <= c < n ->
  (p - c) mod n = if c <=? p then p - c else p - c + n.
Proof.
  intros Hp Hc. destruct (Z.leb_spec c p).
  - apply Z.mod_small. lia.
  - replace (p - c) with (p - c + n + (-1) * n) at 1 by lia.
    rewrite Z_mod_plus_full. apply Z.mod_small. lia.
Qed.

(** *** One iteration of the loop *)

Lemma page_loop_done fuel st count p c :
  2 <= count -> ad_get_debug_page_loop fuel st count p c = Some (p, c).
Proof.
  intros Hc. destruct fuel; simpl; destruct (Z.leb_spec 2 count); try lia; done.
Qed.

Lemma page_loop_skip fuel st count p c :
  count < 2 -> ad_output_debug_mesg st c = false ->
  ad_get_debug_page_loop (S fuel) st count p c =
  ad_get_debug_page_loop fuel st count p (next_index st c).
Proof.
  intros Hc He. simpl. destruct (Z.leb_spec 2 count); [lia|]. by rewrite He.
Qed.

Lemma page_loop_hit fuel st count p c :
  0 <= count < 2 -> ad_output_debug_mesg st c = true ->
  ad_get_debug_page_loop (S fuel) st count p c =
  ad_get_debug_page_loop fuel st (count + 1)
    (write_pair st p (2 + count * 3) c) (next_index st c).
Proof.
  intros Hc He. simpl. destruct (Z.leb_spec 2 count); [lia|]. rewrite He.
  unfold ANT_PAGE_DEBUG_KEY0_INDEX, ANT_PAGE_DEBUG_VALUE_SIZE.
  rewrite !Z.mod_small by lia. reflexivity.
Qed.

(** Without an eligible slot the loop is never left: every amount of fuel
    runs out. *)
Lemma page_loop_diverges st :
  (forall i, u8 i -> ad_output_debug_mesg st i = false) ->
  forall fuel count p c, count < 2 -> u8 c ->
  ad_get_debug_page_loop fuel st count p c = None.
Proof.
  intros Hno fuel. induction fuel as [|fuel IH]; intros count p c Hc Hu.
  - simpl. destruct (Z.leb_spec 2 count); [lia|done].
  - rewrite page_loop_skip by auto. apply IH; [done|apply next_index_u8].
Qed.

(** From cursor [c], with slot [p] eligible, the loop reaches the first
    eligible slot [q] at or after [c] (cyclically) after skipping [k]
    ineligible ones, writes its pair and moves the cursor past it. *)
Lemma page_loop_scan st p :
  u8 (m_queue_size st) -> 0 <= p < m_queue_size st ->
  ad_output_debug_mesg st p = true ->
  forall (d : nat) c, 0 <= c < m_queue_size st ->
  (p - c) mod m_queue_size st = Z.of_nat d ->
  exists (k : nat) q,
    (k <= d)%nat /\ 0 <= q < m_queue_size st /\
    ad_output_debug_mesg st q = true /\
    (forall fuel count data, 0 <= count < 2 ->
       ad_get_debug_page_loop (k + 1 + fuel) st count data c =
       ad_get_debug_page_loop fuel st (count + 1)
         (write_pair st data (2 + count * 3) q) (next_index st q)).
Proof.
  intros Hn Hp Hep d. induction d as [|d IH]; intros c Hc Hd.
  - assert (c = p) as ->.
    { rewrite mod_distance in Hd by lia. destruct (Z.leb_spec c p); lia. }
    exists O, p. split_and!; try done; try lia.
    intros fuel count data Hcount. by apply page_loop_hit.
  - destruct (ad_output_debug_mesg st c) eqn:Hec.
    + exists O, c. split_and!; try done; try lia.
      intros fuel count data Hcount. by apply page_loop_hit.
    + pose proof (next_index_lt st c Hn Hc) as Hnext.
      destruct (IH (next_index st c) Hnext) as (k & q & Hk & Hq & Heq & Hrun).
      { rewrite next_index_step in * by done.
        rewrite mod_distance in Hd by lia. rewrite mod_distance by lia.
        destruct (Z.ltb_spec (c + 1) (m_queue_size st)), (Z.leb_spec c p);
          try destruct (Z.leb_spec (c + 1) p); try destruct (Z.leb_spec 0 p); lia. }
      exists (S k), q. split_and!; try done; try lia.
      intros fuel count data Hcount.
      change (S k + 1 + fuel)%nat with (S (k + 1 + fuel)).
      rewrite page_loop_skip by (done || lia). by apply Hrun.
Qed.

(** *** A whole page *)

Lemma page_build_empty st fuel :
  well_typed st -> m_queue_size st = 0 ->
  ad_get_debug_page fuel st (m_tx_buffer st) (m_current_index_debug_channel st) =
  Some (empty_page st, m_current_index_debug_channel st).
Proof.
  intros Hwt Hn. typed Hwt. unfold ad_get_debug_page. rewrite Hn.
  change (0 <? 0) with false. cbv iota. by rewrite memset_page.
Qed.

(** With some eligible slot [p], [2 * size] iterations suffice, and the
    page carries two eligible slots. *)
Lemma page_build_nonempty st p fuel :
  well_typed st ->
  0 <= m_current_index_debug_channel st < m_queue_size st ->
  0 <= p < m_queue_size st -> ad_output_debug_mesg st p = true ->
  (2 * Z.to_nat (m_queue_size st) <= fuel)%nat ->
  exists q1 q2,
    (0 <= q1 < m_queue_size st /\ ad_output_debug_mesg st q1 = true) /\
    (0 <= q2 < m_queue_size st /\ ad_output_debug_mesg st q2 = true) /\
    ad_get_debug_page fuel st (m_tx_buffer st) (m_current_index_debug_channel st) =
    Some (page_of st q1 q2, next_index st q2).
Proof.
  intros Hwt Hc Hp Hep Hfuel. pose proof Hwt as Hwt'. typed Hwt'.
  set (n := m_queue_size st) in *. set (c := m_current_index_debug_channel st) in *.
  assert (Hmod : forall x, 0 <= (p - x) mod n < n) by (intros; apply Z.mod_pos_bound; lia).
  destruct (page_loop_scan st p Hsz Hp Hep (Z.to_nat ((p - c) mod n)) c Hc)
    as (k1 & q1 & Hk1 & Hq1 & He1 & Hrun1).
  { specialize (Hmod c). fold n. lia. }
  pose proof (next_index_lt st q1 Hsz Hq1) as Hc1.
  destruct (page_loop_scan st p Hsz Hp Hep
              (Z.to_nat ((p - next_index st q1) mod n)) (next_index st q1) Hc1)
    as (k2 & q2 & Hk2 & Hq2 & He2 & Hrun2).
  { specialize (Hmod (next_index st q1)). fold n. lia. }
  exists q1, q2. split; [done|]. split; [done|].
  unfold ad_get_debug_page. fold n c.
  destruct (Z.ltb_spec 0 n); [|lia].
  pose proof (Hmod c). pose proof (Hmod (next_index st q1)).
  replace fuel with (k1 + 1 + (k2 + 1 + (fuel - (k1 + 1) - (k2 + 1))))%nat by lia.
  rewrite Hrun1 by lia. rewrite Hrun2 by lia.
  rewrite page_loop_done by lia.
  change (2 + 0 * 3) with 2. change (2 + (0 + 1) * 3) with 5.
  by rewrite write_two_pairs.
Qed.

(** With Selective Mode off the page carries the slot under the cursor
    and its successor. *)
Lemma page_build_unfiltered st fuel :
  well_typed st -> m_selective_debug st = false ->
  0 <= m_current_index_debug_channel st < m_queue_size st ->
  (2 <= fuel)%nat ->
  ad_get_debug_page fuel st (m_tx_buffer st) (m_current_index_debug_channel st) =
  Some (page_of st (m_current_index_debug_channel st)
          (next_index st (m_current_index_debug_channel st)),
        next_index st (next_index st (m_current_index_debug_channel st))).
Proof.
  intros Hwt Hsel Hc Hfuel. typed Hwt.
  assert (He : forall i, ad_output_debug_mesg st i = true).
  { intros i. unfold ad_output_debug_mesg. by rewrite Hsel. }
  unfold ad_get_debug_page. destruct (Z.ltb_spec 0 (m_queue_size st)); [|lia].
  destruct fuel as [|[|fuel]]; try lia.
  rewrite page_loop_hit by (auto || lia).
  rewrite page_loop_hit by (auto || lia).
  rewrite page_loop_done by lia.
  change (2 + 0 * 3) with 2. change (2 + (0 + 1) * 3) with 5.
  by rewrite write_two_pairs.
Qed.

(** The only statics [ad_update_tx] writes are the buffer and the cursor. *)
Lemma update_tx_frame fuel st st' :
  ad_update_tx fuel st = Some st' ->
  m_debug_queue st' = m_debug_queue st /\ m_hash_lookup st' = m_hash_lookup st /\
  m_queue_size st' = m_queue_size st /\ m_head st' = m_head st /\
  m_selective_debug st' = m_selective_debug st /\
  m_fast_debug_byte st' = m_fast_debug_byte st.
Proof.
  unfold ad_update_tx.
  destruct (ad_get_debug_page _ _ _ _) as [[p c]|]; [|done].
  intros [= <-]. done.
Qed.

Lemma update_tx_typed st p c :
  well_typed st -> length p = 8%nat -> Forall u8 p -> u8 c ->
  well_typed (set_current_index c (set_tx_buffer p st)).
Proof. intros Hwt Hp1 Hp2 Hc. typed Hwt. unfold well_typed. cbn. done. Qed.

(** C10.  In Selective Mode, with exactly one occupied slot [p] flagged,
    the page build terminates (any fuel of at least [2 * size] iterations
    is enough) and the page carries the key and the little-endian value of
    slot [p] in both pair positions; the cursor ends just past [p]. *)
Theorem single_included_field_fills_both_pairs st p fuel :
  well_typed st ->
  m_selective_debug st = true ->
  0 <= m_current_index_debug_channel st < m_queue_size st ->
  0 <= p < m_queue_size st ->
  output (sel (m_debug_queue st) p) = true ->
  (forall i, 0 <= i < m_queue_size st -> i <> p ->
     output (sel (m_debug_queue st) i) = false) ->
  (2 * Z.to_nat (m_queue_size st) <= fuel)%nat ->
  let d := sel (m_debug_queue st) p in
  ad_update_tx fuel st =
  Some (set_current_index (next_index st p)
          (set_tx_buffer
             [ANT_DEBUG_PAGE_MESSAGE; m_fast_debug_byte st;
              index d; value d mod 256; value d / 256 mod 256;
              index d; value d mod 256; value d / 256 mod 256] st)).
Proof.
  intros Hwt Hsel Hc Hp Hout Honly Hfuel d.
  assert (Hel : forall i, ad_output_debug_mesg st i = output (sel (m_debug_queue st) i)).
  { intros i. unfold ad_output_debug_mesg. by rewrite Hsel. }
  destruct (page_build_nonempty st p fuel Hwt Hc Hp) as (q1 & q2 & [Hq1 He1] & [Hq2 He2] & Hrun);
    [by rewrite Hel|done|].
  assert (q1 = p) as ->.
  { destruct (decide (q1 = p)) as [|Hne]; [done|].
    rewrite Hel, (Honly q1 Hq1 Hne) in He1. discriminate. }
  assert (q2 = p) as ->.
  { destruct (decide (q2 = p)) as [|Hne]; [done|].
    rewrite Hel, (Honly q2 Hq2 Hne) in He2. discriminate. }
  unfold ad_update_tx. rewrite Hrun. reflexivity.
Qed.

Lemma single_included_field_fills_both_pairs_witness :
  let st := ad_decode_debug_command [249; 3; 1; 9; 255; 255; 255; 255]
              (ad_set_debug_field 9 7 (ad_set_debug_field 5 100 (ad_init boot_state))) in
  option_map m_tx_buffer (ad_update_tx 4 st) = Some [249; 255; 9; 7; 0; 9; 7; 0].
Proof.
  cbv zeta.
  rewrite (single_included_field_fills_both_pairs
             (ad_decode_debug_command [249; 3; 1; 9; 255; 255; 255; 255]
                (ad_set_debug_field 9 7 (ad_set_debug_field 5 100 (ad_init boot_state))))
             1 4).
  - vm_compute. reflexivity.
  - evaluate.
  - vm_compute. reflexivity.
  - evaluate.
  - evaluate.
  - vm_compute. reflexivity.
  - apply (proj1 (forall_below_spec _ (fun i => i <> 1 -> output (sel _ i) = false))).
    evaluate.
  - vm_compute. lia.
Defined.

(** C1 (as amended).  Whenever the registry is empty, or Selective Mode
    is off, or some occupied slot is flagged, the page build terminates
    after examining at most [2 * size] slots (one unit of fuel is one slot
    examined) and leaves a well-formed page in the buffer; the state stays
    well-typed and the cursor stays inside the occupied slots. *)
Theorem page_build_terminates_with_eligible_slot st fuel :
  well_typed st -> cursor_ok st ->
  (m_queue_size st = 0 \/ m_selective_debug st = false \/
   exists p, 0 <= p < m_queue_size st /\ output (sel (m_debug_queue st) p) = true) ->
  (2 * Z.to_nat (m_queue_size st) <= fuel)%nat ->
  exists st',
    ad_update_tx fuel st = Some st' /\
    page_well_formed st (m_tx_buffer st') /\
    well_typed st' /\ cursor_ok st'.
Proof.
  intros Hwt Hcok Hcase Hfuel. pose proof Hwt as Hwt'. typed Hwt'.
  destruct (decide (m_queue_size st = 0)) as [Hn|Hn].
  - exists (set_current_index (m_current_index_debug_channel st)
              (set_tx_buffer (empty_page st) st)).
    unfold ad_update_tx. rewrite page_build_empty by done.
    destruct (empty_page_typed st Hwt) as [Hl Ht].
    split; [done|]. split; [|split].
    + unfold page_well_formed. cbn. split; [done|]. split; [done|]. by left.
    + by apply update_tx_typed.
    + exact Hcok.
  - assert (Hc : 0 <= m_current_index_debug_channel st < m_queue_size st).
    { unfold cursor_ok, u8 in *. lia. }
    assert (exists p, 0 <= p < m_queue_size st /\ ad_output_debug_mesg st p = true)
      as (p & Hp & Hep).
    { unfold ad_output_debug_mesg.
      destruct Hcase as [?|[Hsel|(p & Hp & Hout)]]; [done| |].
      - exists 0. rewrite Hsel. unfold u8 in *. split; [lia|done].
      - exists p. split; [done|]. by destruct (m_selective_debug st). }
    destruct (page_build_nonempty st p fuel Hwt Hc Hp Hep Hfuel)
      as (q1 & q2 & [Hq1 He1] & [Hq2 He2] & Hrun).
    exists (set_current_index (next_index st q2) (set_tx_buffer (page_of st q1 q2) st)).
    unfold ad_update_tx. rewrite Hrun.
    destruct (page_of_typed st q1 q2 Hwt) as [Hl Ht]; [unfold u8 in *; lia..|].
    pose proof (next_index_lt st q2 Hsz Hq2).
    split; [done|]. split; [|split].
    + unfold page_well_formed. cbn. split; [done|]. split; [done|].
      right. exists q1, q2. done.
    + apply update_tx_typed; try done. apply next_index_u8.
    + unfold cursor_ok. cbn. lia.
Qed.

Lemma page_build_terminates_with_eligible_slot_witness :
  let st := ad_set_debug_field 9 7 (ad_set_debug_field 5 100 (ad_init boot_state)) in
  exists st', ad_update_tx 4 st = Some st' /\
    page_well_formed st (m_tx_buffer st') /\ well_typed st' /\ cursor_ok st'.
Proof.
  apply (page_build_terminates_with_eligible_slot
           (ad_set_debug_field 9 7 (ad_set_debug_field 5 100 (ad_init boot_state))) 4).
  - evaluate.
  - evaluate.
  - right. left. vm_compute. reflexivity.
  - vm_compute. lia.
Defined.

(** C1 as stated fails on the code.  With one field and Selective Mode
    off, the build is not finished after examining [size] (= 1) slots: it
    reads slot 0 twice.  With the cursor outside the occupied slots (here
    7, with one field) the page carries the bytes of slot 7, which holds no
    field.  And with Selective Mode on and no slot flagged (here after a
    filter-add command whose five data bytes are all 255) the loop is never
    left, whatever the fuel. *)
Lemma page_build_bound_and_termination_counterexample :
  let st_a := ad_set_debug_field 5 100 (ad_init boot_state) in
  let st_b := ad_decode_debug_command [249; 3; 1; 255; 255; 255; 255; 255] st_a in
  let st_c := set_current_index 7 st_a in
  (m_queue_size st_a = 1 /\
   ad_update_tx (Z.to_nat (m_queue_size st_a)) st_a = None /\
   option_map m_tx_buffer (ad_update_tx 2 st_a) = Some [249; 255; 5; 100; 0; 5; 100; 0]) /\
  (well_typed st_c /\
   option_map m_tx_buffer (ad_update_tx 2 st_c) = Some [249; 255; 0; 0; 0; 5; 100; 0]) /\
  (well_typed st_b /\ cursor_ok st_b /\ forall fuel, ad_update_tx fuel st_b = None).
Proof.
  cbv zeta. split; [vm_compute; done|]. split; [split; [evaluate|vm_compute; done]|].
  split; [evaluate|]. split; [evaluate|].
  intros fuel. unfold ad_update_tx, ad_get_debug_page.
  set (st_b := ad_decode_debug_command _ _).
  assert (Hsize : (0 <? m_queue_size st_b) = true) by (vm_compute; reflexivity).
  rewrite Hsize.
  rewrite page_loop_diverges; [done| |lia|evaluate].
  intros i Hi.
  assert (Hall : forall_below 256 (fun i => ad_output_debug_mesg st_b i = false)) by evaluate.
  apply (proj1 (forall_below_spec _ _) Hall). exact Hi.
Qed.

(** * The registry invariant *)

Lemma registry_inv_spec used st :
  registry_inv used st <->
  (0 <= used <= 256) /\
  m_head st = used mod 256 /\
  m_queue_size st = used mod 256 /\
  (forall i, 0 <= i < used ->
     sel (m_hash_lookup st) (index (sel (m_debug_queue st) i)) = i) /\
  (forall k, 0 <= k < 256 ->
     sel (m_hash_lookup st) k <> ANT_DEBUG_FIELD_INVALID ->
     sel (m_hash_lookup st) k < used /\
     index (sel (m_debug_queue st) (sel (m_hash_lookup st) k)) = k).
Proof. unfold registry_inv. rewrite !forall_below_spec. reflexivity. Qed.

Lemma typed_slot st i :
  well_typed st -> 0 <= i < 256 -> slot_typed (sel (m_debug_queue st) i).
Proof. intros Hwt Hi. typed Hwt. apply Forall_sel; [done|lia]. Qed.

Lemma typed_lookup st k :
  well_typed st -> 0 <= k < 256 -> 0 <= sel (m_hash_lookup st) k < 256.
Proof. intros Hwt Hk. typed Hwt. apply (Forall_sel u8); [done|lia]. Qed.

(** Rewriting a slot without changing its key keeps everything. *)
Lemma slot_update_typed st i d :
  well_typed st -> 0 <= i < 256 ->
  index d = index (sel (m_debug_queue st) i) -> u16 (value d) ->
  well_typed (set_queue (upd (m_debug_queue st) i d) st).
Proof.
  intros Hwt Hi Hidx Hval.
  pose proof (typed_slot st i Hwt Hi) as [Hki _]. typed Hwt.
  unfold well_typed. cbn. rewrite length_upd. split_and!; try done.
  apply Forall_upd; [done|]. split; [by rewrite Hidx|done].
Qed.

Lemma slot_update_inv used st i d :
  well_typed st -> 0 <= i < 256 ->
  index d = index (sel (m_debug_queue st) i) ->
  registry_inv used st ->
  registry_inv used (set_queue (upd (m_debug_queue st) i d) st).
Proof.
  intros Hwt Hi Hidx Hinv.
  pose proof Hwt as Hwt'. typed Hwt'.
  assert (Hsame : forall j, 0 <= j ->
            index (sel (upd (m_debug_queue st) i d) j) = index (sel (m_debug_queue st) j)).
  { intros j Hj. rewrite sel_upd by lia. destruct (decide (i = j)) as [<-|]; done. }
  apply registry_inv_spec in Hinv as (Hu & Hh & Hs & H1 & H2).
  apply registry_inv_spec. cbn. split_and!; try done; try lia.
  - intros j Hj. rewrite Hsame by lia. by apply H1.
  - intros k Hk Hne. destruct (H2 k Hk Hne) as [Hlt' Hik].
    pose proof (typed_lookup st k Hwt Hk).
    rewrite Hsame by lia. done.
Qed.

(** [set] on a key the lookup table does not know: one allocation. *)
Lemma set_fresh_inv used st k v :
  well_typed st -> u8 k -> u16 v ->
  fresh st k = true ->
  well_typed (ad_set_debug_field k v st) /\
  m_head (ad_set_debug_field k v st) = (m_head st + 1) mod 256 /\
  (registry_inv used st -> used + 1 <= 256 ->
   registry_inv (used + 1) (ad_set_debug_field k v st)).
Proof.
  intros Hwt Hk Hv Hf. unfold fresh in Hf. apply Z.eqb_eq in Hf.
  rewrite (set_fresh st k v Hwt Hf).
  pose proof Hwt as Hwt'. typed Hwt'. unfold u8, u16 in *.
  split_and!.
  - unfold well_typed. cbn. rewrite !length_upd. split_and!; try done.
    + apply Forall_upd; [done|]. split; cbn; unfold u8, u16; lia.
    + apply Forall_upd; [done|]. unfold u8; lia.
    + unfold u8. apply Z.mod_pos_bound. lia.
    + unfold u8. apply Z.mod_pos_bound. lia.
  - reflexivity.
  - intros Hinv Hroom.
    apply registry_inv_spec in Hinv as (Hu & Hh & Hs & H1 & H2).
    assert (Hused : used mod 256 = used) by (apply Z.mod_small; lia).
    rewrite Hused in Hh, Hs.
    apply registry_inv_spec. cbn. rewrite Hh, Hs.
    split_and!; try done; try lia.
    + intros i Hi.
      destruct (decide (i = used)) as [->|Hne].
      * rewrite sel_upd_eq by lia. cbn. rewrite sel_upd_eq by lia. done.
      * rewrite (sel_upd_ne (m_debug_queue st)) by lia.
        pose proof (typed_slot st i Hwt ltac:(lia)) as [Hki _]. unfold u8 in Hki.
        pose proof (H1 i ltac:(lia)) as Hli.
        rewrite sel_upd_ne; [done|lia|lia|].
        intros ->. rewrite Hf in Hli. unfold ANT_DEBUG_FIELD_INVALID in Hli. lia.
    + intros k' Hk' Hne.
      destruct (decide (k' = k)) as [->|Hkk].
      * rewrite sel_upd_eq in * by lia.
        rewrite sel_upd_eq by lia. cbn. split; [lia|done].
      * rewrite sel_upd_ne in * by lia.
        destruct (H2 k' Hk' Hne) as [Hlt' Hik].
        pose proof (typed_lookup st k' Hwt Hk').
        rewrite sel_upd_ne by lia. split; [lia|done].
Qed.

(** [set] on a key the lookup table knows: no allocation. *)
Lemma set_known_inv used st k v :
  well_typed st -> u8 k -> u16 v ->
  fresh st k = false ->
  well_typed (ad_set_debug_field k v st) /\
  m_head (ad_set_debug_field k v st) = m_head st /\
  (registry_inv used st -> registry_inv used (ad_set_debug_field k v st)).
Proof.
  intros Hwt Hk Hv Hf. unfold fresh in Hf. apply Z.eqb_neq in Hf.
  rewrite (set_known st k v Hf).
  pose proof (typed_lookup st k Hwt Hk) as Hs.
  assert (Hv' : u16 (value (with_value v (sel (m_debug_queue st) (sel (m_hash_lookup st) k)))))
    by done.
  split_and!.
  - by apply slot_update_typed.
  - reflexivity.
  - intros Hinv. by apply slot_update_inv.
Qed.

(** ** Calls as allocation steps *)

Lemma advances_refl st : well_typed st -> advances 0 st st.
Proof.
  intros Hwt. unfold advances. split_and!; try done.
  - typed Hwt. unfold u8 in *. rewrite Z.add_0_r, Z.mod_small; lia.
  - intros used Hinv _. by rewrite Z.add_0_r.
Qed.

Lemma advances_trans a b st st' st'' :
  advances a st st' -> advances b st' st'' -> advances (a + b) st st''.
Proof.
  intros (Ha & _ & Hh & Hinv) (Hb & Hwt & Hh' & Hinv').
  unfold advances. split_and!; try done; try lia.
  - rewrite Hh', Hh, Zplus_mod_idemp_l. f_equal. lia.
  - intros used Hu Hroom. rewrite Z.add_assoc.
    apply Hinv'; [|lia]. apply Hinv; [done|lia].
Qed.

Lemma advances_slot_update st i d :
  well_typed st -> 0 <= i < 256 ->
  index d = index (sel (m_debug_queue st) i) -> u16 (value d) ->
  advances 0 st (set_queue (upd (m_debug_queue st) i d) st).
Proof.
  intros Hwt Hi Hidx Hval. unfold advances. split_and!; try done.
  - by apply slot_update_typed.
  - cbn. typed Hwt. unfold u8 in *. rewrite Z.add_0_r, Z.mod_small; lia.
  - intros used Hinv _. rewrite Z.add_0_r. by apply slot_update_inv.
Qed.

Lemma advances_set_selective b st :
  well_typed st -> advances 0 st (set_selective b st).
Proof.
  intros Hwt. unfold advances. split_and!; try done.
  - cbn. typed Hwt. unfold u8 in *. rewrite Z.add_0_r, Z.mod_small; lia.
  - intros used Hinv _. by rewrite Z.add_0_r.
Qed.

Lemma advances_set st k v :
  well_typed st -> u8 k -> u16 v ->
  advances (if fresh st k then 1 else 0) st (ad_set_debug_field k v st).
Proof.
  intros Hwt Hk Hv. destruct (fresh st k) eqn:Hf.
  - destruct (set_fresh_inv 0 st k v Hwt Hk Hv Hf) as (Hwt' & Hh & _).
    unfold advances. split_and!; try done.
    intros used Hinv Hroom.
    by apply (set_fresh_inv used st k v Hwt Hk Hv Hf).
  - destruct (set_known_inv 0 st k v Hwt Hk Hv Hf) as (Hwt' & Hh & _).
    unfold advances. split_and!; try done.
    + rewrite Hh. typed Hwt. unfold u8 in *. rewrite Z.add_0_r, Z.mod_small; lia.
    + intros used Hinv _. rewrite Z.add_0_r.
      by apply (set_known_inv used st k v Hwt Hk Hv Hf).
Qed.

Lemma advances_increment st k :
  well_typed st -> u8 k ->
  exists a, 0 <= a <= 1 /\ advances a st (ad_increment_debug_field k st).
Proof.
  intros Hwt Hk. unfold ad_increment_debug_field.
  destruct (ad_get_debug_field k st) as [v|].
  - exists (if fresh st k then 1 else 0). split; [destruct (fresh st k); lia|].
    apply advances_set; [done|done|]. unfold u16. apply Z.mod_pos_bound. lia.
  - exists 0. split; [lia|]. by apply advances_refl.
Qed.

Lemma advances_mark st i b :
  well_typed st -> 0 <= i < 256 ->
  advances 0 st
    (set_queue (upd (m_debug_queue st) i (with_output b (sel (m_debug_queue st) i))) st).
Proof.
  intros Hwt Hi. apply advances_slot_update; [done|done|done|].
  by destruct (typed_slot st i Hwt Hi).
Qed.

Lemma advances_filter_add_arg st b :
  well_typed st -> u8 b ->
  advances (if negb (b =? ANT_DEBUG_FIELD_INVALID) && fresh st b then 1 else 0)
    st (filter_add_arg b st).
Proof.
  intros Hwt Hb. unfold filter_add_arg.
  destruct (b =? ANT_DEBUG_FIELD_INVALID) eqn:Hb255; cbn [negb andb].
  - by apply advances_refl.
  - fold (fresh st b). destruct (fresh st b) eqn:Hf.
    + pose proof (advances_set st b 65535 Hwt Hb ltac:(unfold u16; lia)) as Hset.
      rewrite Hf in Hset.
      replace 1 with (1 + 0) by lia.
      eapply advances_trans; [exact Hset|].
      destruct Hset as (_ & Hwt1 & _).
      apply advances_mark; [done|]. by apply typed_lookup.
    + apply advances_mark; [done|]. by apply typed_lookup.
Qed.

(** A counted loop each of whose iterations allocates at most [m] slots. *)
Lemma advances_for_loop (m : Z) (body : Z -> ad_state -> ad_state) n :
  0 <= m ->
  forall lo st,
  (forall i s, lo <= i < lo + Z.of_nat n -> well_typed s ->
     exists a, 0 <= a <= m /\ advances a s (body i s)) ->
  well_typed st ->
  exists a, 0 <= a <= m * Z.of_nat n /\ advances a st (for_loop n lo body st).
Proof.
  intros Hm. induction n as [|n IH]; intros lo st Hbody Hwt.
  - exists 0. split; [lia|]. by apply advances_refl.
  - destruct (Hbody lo st ltac:(lia) Hwt) as (a1 & Ha1 & Hadv1).
    destruct (IH (lo + 1) (body lo st)) as (a2 & Ha2 & Hadv2).
    + intros i s Hi Hs. apply Hbody; [lia|done].
    + by destruct Hadv1 as (_ & ? & _).
    + exists (a1 + a2). split; [lia|]. simpl. by eapply advances_trans.
Qed.

Lemma advances_command st payload :
  well_typed st -> length payload = 8%nat -> Forall u8 payload ->
  exists a, 0 <= a <= 5 /\ advances a st (ad_decode_debug_command payload st).
Proof.
  intros Hwt Hlen Hbytes. unfold ad_decode_debug_command.
  destruct (sel payload 1 =? ANT_DEBUG_FILTER_COMMAND);
    [|exists 0; split; [lia|by apply advances_refl]].
  destruct (sel payload 2 =? ANT_DEBUG_SUB_COMMAND_FILTER_ADD).
  { destruct (advances_for_loop 1 (fun i s => filter_add_arg (sel payload i) s) 5
                ltac:(lia) 3 (set_selective true st)) as (a & Ha & Hadv).
    - intros i s Hi Hs. eexists. split; [|apply advances_filter_add_arg; [done|]].
      + destruct (_ && _); lia.
      + apply (Forall_sel u8); [done|lia].
    - by destruct (advances_set_selective true st Hwt) as (_ & ? & _).
    - exists (0 + a). split; [lia|].
      eapply advances_trans; [by apply (advances_set_selective true)|done]. }
  destruct (sel payload 2 =? ANT_DEBUG_SUB_COMMAND_FILTER_CLEAR);
    [|exists 0; split; [lia|by apply advances_refl]].
  pose proof Hwt as Hwt'. typed Hwt'.
  destruct (advances_for_loop 0
              (fun i s => set_queue (upd (m_debug_queue s) i
                                       (with_output false (sel (m_debug_queue s) i))) s)
              (Z.to_nat (m_queue_size (set_selective false st)))
              ltac:(lia) 0 (set_selective false st)) as (a & Ha & Hadv).
  - intros i s Hi Hs. exists 0. split; [lia|]. apply advances_mark; [done|].
    cbn in Hi. unfold u8 in *. lia.
  - by destruct (advances_set_selective false st Hwt) as (_ & ? & _).
  - exists (0 + a). split; [lia|].
    eapply advances_trans; [by apply (advances_set_selective false)|done].
Qed.

Lemma step_advances op st :
  well_typed st -> op_valid op ->
  exists a, 0 <= a <= 5 /\ advances a st (ad_step op st).
Proof.
  intros Hwt Hop. destruct op as [k v|k|payload]; cbn in *.
  - destruct Hop as [Hk Hv]. exists (if fresh st k then 1 else 0).
    split; [destruct (fresh st k); lia|]. by apply advances_set.
  - destruct (advances_increment st k Hwt Hop) as (a & Ha & Hadv).
    exists a. split; [lia|done].
  - destruct Hop as [Hlen Hbytes]. by apply advances_command.
Qed.

Lemma advances_allocated a st st' :
  well_typed st -> 0 <= a <= 5 -> advances a st st' -> slots_allocated st st' = a.
Proof.
  intros Hwt Ha (_ & _ & Hh & _). typed Hwt. unfold slots_allocated, u8 in *.
  rewrite Hh, Zminus_mod_idemp_l.
  replace (m_head st + a - m_head st) with a by lia.
  apply Z.mod_small. lia.
Qed.

Lemma allocations_nonneg ops st : 0 <= allocations ops st.
Proof.
  revert st. induction ops as [|op ops IH]; intros st; simpl; [lia|].
  specialize (IH (ad_step op st)).
  pose proof (Z.mod_pos_bound (m_head (ad_step op st) - m_head st) 256 ltac:(lia)).
  unfold slots_allocated. lia.
Qed.

(** The invariant along a sequence of calls that fits the registry. *)
Lemma run_inv ops : forall st used,
  well_typed st -> Forall op_valid ops ->
  registry_inv used st ->
  used + allocations ops st <= DEBUG_QUEUE_SIZE ->
  well_typed (ad_run ops st) /\
  registry_inv (used + allocations ops st) (ad_run ops st).
Proof.
  induction ops as [|op ops IH]; intros st used Hwt Hops Hinv Hroom.
  - simpl. rewrite Z.add_0_r. done.
  - apply Forall_cons in Hops as [Hop Hops].
    destruct (step_advances op st Hwt Hop) as (a & Ha & Hadv).
    pose proof (advances_allocated a st _ Hwt Ha Hadv) as Halloc.
    pose proof (allocations_nonneg ops (ad_step op st)).
    destruct Hadv as (_ & Hwt' & _ & Hstep).
    simpl in *. rewrite Halloc in *. rewrite Z.add_assoc.
    apply IH; try done; [|lia].
    apply Hstep; [done|lia].
Qed.

Lemma registry_inv_lookup_invariant used st :
  registry_inv used st -> lookup_invariant st.
Proof.
  intros Hinv. apply registry_inv_spec in Hinv as (Hu & Hh & Hs & H1 & H2).
  split.
  - intros i Hi. apply H1. rewrite Hs in Hi.
    pose proof (Z.mod_le used 256 ltac:(lia) ltac:(lia)). lia.
  - intros k Hk Hne. by apply H2.
Qed.

Lemma init_inv st : well_typed st -> registry_inv 0 (ad_init st).
Proof.
  intros Hwt.
  destruct (ad_init_spec st Hwt) as (Hq & Hl & H1 & H2 & H3 & H4 & H5 & H6 & H7).
  revert Hq Hl H1 H2 H3 H4 H5 H6 H7.
  generalize (ad_init st). intros st' Hq Hl H1 H2 H3 H4 H5 H6 H7.
  apply registry_inv_spec. rewrite H1, H3. split_and!; try done.
  - intros i Hi. lia.
  - intros k Hk Hne. by destruct (H7 k Hk) as [_ ?].
Qed.

(** C7.  After [ad_init] and any sequence of [set], [increment] and
    command-decode calls that allocates no more than [DEBUG_QUEUE_SIZE]
    slots in total, every occupied slot is found back through the lookup
    table, and every lookup entry other than the sentinel names a slot that
    holds its key. *)
Theorem lookup_invariant_preserved st0 ops :
  well_typed st0 -> Forall op_valid ops ->
  allocations ops (ad_init st0) <= DEBUG_QUEUE_SIZE ->
  lookup_invariant (ad_run ops (ad_init st0)).
Proof.
  intros Hwt Hops Hroom.
  destruct (run_inv ops (ad_init st0) 0) as [_ Hinv]; try done.
  - by apply init_typed.
  - by apply init_inv.
  - by eapply registry_inv_lookup_invariant.
Qed.

Lemma lookup_invariant_preserved_witness :
  lookup_invariant
    (ad_run [OpSet 5 100; OpIncrement 5; OpCommand [249; 3; 1; 9; 5; 255; 255; 255];
             OpSet 9 7; OpCommand [249; 3; 2; 0; 0; 0; 0; 0]]
       (ad_init boot_state)).
Proof.
  apply (lookup_invariant_preserved boot_state).
  - evaluate.
  - evaluate.
  - vm_compute. discriminate.
Defined.

(** * Filling the registry *)

(** [set] on distinct keys, fewer than 256 of them, after [ad_init]. *)
Lemma set_all_distinct st0 (kvs : list (Z * Z)) :
  well_typed st0 ->
  Forall (fun kv => u8 kv.1 /\ u16 kv.2) kvs ->
  NoDup (kvs.*1) ->
  (length kvs < 256)%nat ->
  let st := set_all kvs (ad_init st0) in
  well_typed st /\
  m_queue_size st = Z.of_nat (length kvs) /\
  m_head st = Z.of_nat (length kvs) /\
  (forall (i : nat) k v, kvs !! i = Some (k, v) ->
     sel (m_hash_lookup st) k = Z.of_nat i /\
     index (sel (m_debug_queue st) (Z.of_nat i)) = k /\
     value (sel (m_debug_queue st) (Z.of_nat i)) = v) /\
  (forall k, u8 k -> k ∉ kvs.*1 ->
     sel (m_hash_lookup st) k = ANT_DEBUG_FIELD_INVALID) /\
  (forall i, Z.of_nat (length kvs) <= i < 256 ->
     index (sel (m_debug_queue st) i) = 0 /\ value (sel (m_debug_queue st) i) = 0).
Proof.
  intros Hwt0. cbv zeta.
  pose proof (init_typed st0 Hwt0) as Hwti.
  destruct (ad_init_spec st0 Hwt0) as (_ & _ & Hs0 & _ & Hh0 & _ & _ & _ & Hi0).
  revert Hwti Hs0 Hh0 Hi0. generalize (ad_init st0). intros sti Hwti Hs0 Hh0 Hi0.
  induction kvs as [|[k v] kvs IH] using rev_ind; intros Hargs Hnd Hlen.
  - cbn. split; [done|]. split; [done|]. split; [done|]. split; [|split].
    + intros i k v Hi. by rewrite lookup_nil in Hi.
    + intros k Hk _. by destruct (Hi0 k Hk).
    + intros i Hi. destruct (Hi0 i ltac:(lia)) as [-> _]. done.
  - apply Forall_app in Hargs as [Hargs Hkv].
    apply Forall_singleton in Hkv as [Hk Hv]. cbn in Hk, Hv.
    rewrite fmap_app in Hnd. apply NoDup_app in Hnd as (Hnd & Hnew & _).
    rewrite length_app in Hlen. cbn in Hlen.
    destruct (IH Hargs Hnd ltac:(lia)) as (Hwt & Hs & Hh & Hold & Hrest & Hfree).
    assert (Hknew : k ∉ kvs.*1).
    { intros Hin. apply (Hnew k Hin). cbn. left. }
    unfold set_all in *. rewrite foldl_snoc. cbn [fst snd].
    set (st := foldl _ sti kvs) in *.
    pose proof (Hrest k Hk Hknew) as Hf.
    assert (Hfresh : fresh st k = true) by (unfold fresh; by apply Z.eqb_eq).
    destruct (set_fresh_inv 0 st k v Hwt Hk Hv Hfresh) as (Hwt' & _ & _).
    split; [done|].
    rewrite (set_fresh st k v Hwt Hf). cbn.
    pose proof Hwt as Hwt''. typed Hwt''. unfold u8 in *.
    rewrite Hs, Hh, length_app. cbn [length].
    rewrite Z.mod_small by lia.
    split; [lia|]. split; [lia|]. split; [|split].
    + intros i k' v' Hi.
      apply lookup_snoc_Some in Hi as [[Hi Hin]|[-> [= -> ->]]].
      * destruct (Hold i k' v' Hin) as (Hl & Hki & Hvi).
        assert (k' <> k).
        { intros ->. apply Hknew. apply list_elem_of_fmap.
          exists (k, v'). split; [done|]. by eapply list_elem_of_lookup_2. }
        assert (0 <= k' < 256).
        { rewrite <- Hki. apply (typed_slot st (Z.of_nat i) Hwt). lia. }
        rewrite !sel_upd_ne by lia. done.
      * rewrite !sel_upd_eq by lia. done.
    + intros k' Hk' Hnotin.
      rewrite fmap_app in Hnotin. cbn in Hnotin.
      assert (k' <> k) by (intros ->; apply Hnotin, elem_of_app; right; left).
      rewrite sel_upd_ne by lia. apply Hrest; [done|].
      intros Hin. apply Hnotin, elem_of_app. by left.
    + intros i Hi. rewrite sel_upd_ne by lia. apply Hfree. lia.
Qed.

(** The defect of C2 in general: after [ad_init] and [set] on fewer than
    256 distinct keys, [get] of any key that was not set finds slot 255
    through the sentinel and returns the value 0. *)
Lemma get_of_unset_key_is_present st0 (kvs : list (Z * Z)) k :
  well_typed st0 ->
  Forall (fun kv => u8 kv.1 /\ u16 kv.2) kvs ->
  NoDup (kvs.*1) ->
  (length kvs < 256)%nat ->
  u8 k -> k ∉ kvs.*1 ->
  ad_get_debug_field k (set_all kvs (ad_init st0)) = Some 0.
Proof.
  intros Hwt Hargs Hnd Hlen Hk Hnotin.
  destruct (set_all_distinct st0 kvs Hwt Hargs Hnd Hlen) as (_ & _ & _ & _ & Hrest & Hfree).
  unfold ad_get_debug_field. rewrite (Hrest k Hk Hnotin).
  destruct (Hfree ANT_DEBUG_FIELD_INVALID) as [-> ->];
    [unfold ANT_DEBUG_FIELD_INVALID; lia|done].
Qed.

(** C4 (as amended).  [ad_set_debug_field] returns nothing, so no call
    reports an error.  Starting from a freshly initialised registry, calls
    on up to 255 distinct keys all succeed: the i-th distinct key gets slot
    i, the lookup table and the slot agree, the slot holds the value set,
    the slot count is the number of keys, and earlier slots are untouched;
    keys not set stay unknown. *)
Theorem set_distinct_keys_below_capacity st0 (kvs : list (Z * Z)) :
  well_typed st0 ->
  Forall (fun kv => u8 kv.1 /\ u16 kv.2) kvs ->
  NoDup (kvs.*1) ->
  Z.of_nat (length kvs) < DEBUG_QUEUE_SIZE ->
  let st := set_all kvs (ad_init st0) in
  m_queue_size st = Z.of_nat (length kvs) /\
  (forall (i : nat) k v, kvs !! i = Some (k, v) ->
     sel (m_hash_lookup st) k = Z.of_nat i /\
     index (sel (m_debug_queue st) (Z.of_nat i)) = k /\
     value (sel (m_debug_queue st) (Z.of_nat i)) = v) /\
  (forall k, u8 k -> k ∉ kvs.*1 ->
     sel (m_hash_lookup st) k = ANT_DEBUG_FIELD_INVALID).
Proof.
  intros Hwt Hargs Hnd Hlen.
  destruct (set_all_distinct st0 kvs Hwt Hargs Hnd) as (_ & Hs & _ & Hold & Hrest & _).
  - unfold DEBUG_QUEUE_SIZE in Hlen. lia.
  - cbv zeta. done.
Qed.

Lemma set_distinct_keys_below_capacity_witness :
  let st := set_all [(5, 100); (9, 7); (255, 1)] (ad_init boot_state) in
  m_queue_size st = 3 /\
  sel (m_hash_lookup st) 9 = 1 /\
  sel (m_debug_queue st) 1 = mk_debug_value 9 7 false /\
  sel (m_hash_lookup st) 6 = ANT_DEBUG_FIELD_INVALID.
Proof.
  cbv zeta.
  destruct (set_distinct_keys_below_capacity boot_state [(5, 100); (9, 7); (255, 1)])
    as (Hs & Hold & Hrest).
  - evaluate.
  - evaluate.
  - evaluate.
  - vm_compute. reflexivity.
  - split; [exact Hs|].
    destruct (Hold 1%nat 9 7 eq_refl) as (Hl & _ & _).
    split; [exact Hl|]. split; [vm_compute; reflexivity|].
    apply Hrest; [evaluate|evaluate].
Defined.

(** C4 as stated fails on the code.  After [ad_init], [set] on the 256
    distinct keys 0..255: the first 255 calls leave 255 slots, but the
    256th (which the claim counts among the N = [DEBUG_QUEUE_SIZE] that
    succeed) wraps the [uint8_t] slot count to 0 and stores slot number
    255, the sentinel, in the lookup table, so the key reads as unknown; no
    call reports an error, and there is no 257th distinct [uint8_t] key.
    Setting that key once more takes slot 0 and overwrites the key held
    there. *)
Lemma capacity_boundary_counterexample :
  let keys := seqZ 0 DEBUG_QUEUE_SIZE in
  let kvs := (fun k => (k, k)) <$> keys in
  let st255 := set_all (take 255 kvs) (ad_init boot_state) in
  let st256 := set_all kvs (ad_init boot_state) in
  (NoDup keys /\ Z.of_nat (length keys) = DEBUG_QUEUE_SIZE) /\
  m_queue_size st255 = 255 /\
  (m_queue_size st256 = 0 /\
   sel (m_hash_lookup st256) 255 = ANT_DEBUG_FIELD_INVALID) /\
  (index (sel (m_debug_queue st256) 0) = 0 /\
   index (sel (m_debug_queue (ad_set_debug_field 255 1 st256)) 0) = 255).
Proof.
  cbv zeta. split; [split; [evaluate|vm_compute; reflexivity]|].
  vm_compute. done.
Qed.

(** * The filter-add command *)

Lemma set_queue_id st : set_queue (m_debug_queue st) st = st.
Proof. by destruct st. Qed.

Lemma set_selective_id st b : m_selective_debug st = b -> set_selective b st = st.
Proof. intros <-. by destruct st. Qed.

Lemma registry_ok_spec st :
  registry_ok st <->
  (0 <= m_queue_size st < 256) /\
  m_head st = m_queue_size st /\
  (forall i, 0 <= i < m_queue_size st ->
     sel (m_hash_lookup st) (index (sel (m_debug_queue st) i)) = i) /\
  (forall k, 0 <= k < 256 ->
     sel (m_hash_lookup st) k <> ANT_DEBUG_FIELD_INVALID ->
     sel (m_hash_lookup st) k < m_queue_size st /\
     index (sel (m_debug_queue st) (sel (m_hash_lookup st) k)) = k).
Proof.
  unfold registry_ok. rewrite registry_inv_spec. split.
  - intros (Hu & Hh & Hs & H1 & H2).
    pose proof (Z.mod_pos_bound (m_queue_size st) 256 ltac:(lia)).
    rewrite <- Hs in Hh. split_and!; try done; lia.
  - intros (Hu & Hh & H1 & H2).
    rewrite Z.mod_small by lia. split_and!; try done; lia.
Qed.

Lemma advances_registry_ok a st st' :
  advances a st st' -> registry_ok st -> m_queue_size st + a < 256 ->
  registry_ok st' /\ m_queue_size st' = m_queue_size st + a.
Proof.
  intros (Ha & _ & _ & Hinv) Hok Hroom.
  specialize (Hinv _ Hok ltac:(unfold DEBUG_QUEUE_SIZE; lia)).
  assert (Hs : m_queue_size st' = m_queue_size st + a).
  { apply registry_inv_spec in Hinv as (_ & _ & -> & _).
    apply registry_ok_spec in Hok as (? & _). apply Z.mod_small. lia. }
  split; [|done]. unfold registry_ok. by rewrite Hs.
Qed.

(** The decoder's loop over payload bytes 3..7 is a left fold over the
    five data bytes. *)
Lemma decode_filter_add p0 (d : list Z) st :
  length d = 5%nat ->
  ad_decode_debug_command
    (p0 :: ANT_DEBUG_FILTER_COMMAND :: ANT_DEBUG_SUB_COMMAND_FILTER_ADD :: d) st =
  foldl (fun s b => filter_add_arg b s) (set_selective true st) d.
Proof.
  intros Hd.
  destruct d as [|d0 [|d1 [|d2 [|d3 [|d4 [|d5 d]]]]]]; try discriminate Hd.
  reflexivity.
Qed.

Lemma filter_add_arg_spec_step b st :
  filter_add_arg b st = filter_add_spec_step st b.
Proof.
  unfold filter_add_arg, filter_add_spec_step, ANT_DEBUG_FIELD_INVALID.
  destruct (Z.eqb_spec b 255), (decide (b = 255)); try done.
  cbn [negb]. fold ANT_DEBUG_FIELD_INVALID. fold (fresh st b).
  by destruct (fresh st b).
Qed.

Lemma advances_filter_add d : forall st,
  well_typed st -> Forall u8 d ->
  0 <= filter_add_allocs d st <= Z.of_nat (length d) /\
  advances (filter_add_allocs d st) st (foldl (fun s b => filter_add_arg b s) st d).
Proof.
  induction d as [|b d IH]; intros st Hwt Hd.
  - cbn. split; [lia|]. by apply advances_refl.
  - apply Forall_cons in Hd as [Hb Hd].
    pose proof (advances_filter_add_arg st b Hwt Hb) as Hadv.
    destruct (IH (filter_add_arg b st)) as [Hbound Hrest]; [by destruct Hadv as (_ & ? & _)|done|].
    cbn [filter_add_allocs foldl length]. split.
    + destruct (_ && _); lia.
    + by eapply advances_trans.
Qed.

(** The three ways one data byte is processed. *)
Lemma filter_add_arg_cases st b :
  well_typed st -> u8 b ->
  (b = 255 /\ filter_add_arg b st = st) \/
  (b <> 255 /\ fresh st b = false /\
   filter_add_arg b st =
   set_queue (upd (m_debug_queue st) (sel (m_hash_lookup st) b)
                (with_output true (sel (m_debug_queue st) (sel (m_hash_lookup st) b)))) st) \/
  (b <> 255 /\ fresh st b = true /\
   filter_add_arg b st =
   mk_ad_state
     (upd (m_debug_queue st) (m_head st) (mk_debug_value b 65535 true))
     (upd (m_hash_lookup st) b (m_head st))
     ((m_queue_size st + 1) mod 256)
     (m_current_index_debug_channel st)
     ((m_head st + 1) mod 256)
     (m_selective_debug st) (m_tx_buffer st) (m_fast_debug_byte st)).
Proof.
  intros Hwt Hb. unfold filter_add_arg, ANT_DEBUG_FIELD_INVALID.
  destruct (Z.eqb_spec b 255) as [->|Hne]; [by left|right].
  cbn [negb]. fold ANT_DEBUG_FIELD_INVALID. fold (fresh st b).
  destruct (fresh st b) eqn:Hf; [right|left]; split; try done; split; try done.
  unfold fresh in Hf. apply Z.eqb_eq in Hf.
  rewrite (set_fresh st b 65535 Hwt Hf). typed Hwt. unfold u8 in *. cbn.
  rewrite sel_upd_eq by lia. rewrite sel_upd_eq by lia.
  by rewrite upd_upd_eq.
Qed.

(** One data byte, seen on the registry as a partial map. *)
Lemma filter_add_arg_fields st b :
  well_typed st -> registry_ok st -> u8 b ->
  m_queue_size st + (if negb (b =? ANT_DEBUG_FIELD_INVALID) && fresh st b then 1 else 0) < 256 ->
  let st' := filter_add_arg b st in
  m_selective_debug st' = m_selective_debug st /\
  (forall k, u8 k ->
     ad_field st' k =
     if decide (k = b /\ k <> 255)
     then Some (mk_debug_value k (default 65535 (value <$> ad_field st k)) true)
     else ad_field st k) /\
  (forall k, u8 k -> fresh st k = false ->
     sel (m_hash_lookup st') k = sel (m_hash_lookup st) k).
Proof.
  intros Hwt Hok Hb Hroom. cbv zeta.
  apply registry_ok_spec in Hok as (Hsz' & Hhead & H1 & H2).
  pose proof Hwt as Hwt'. typed Hwt'. unfold u8 in *.
  destruct (filter_add_arg_cases st b Hwt Hb) as [[-> ->]|[(Hne & Hf & ->)|(Hne & Hf & ->)]].
  - split; [done|]. split; [|done].
    intros k Hk. destruct (decide _) as [[-> ?]|]; done.
  - assert (Hkb : sel (m_hash_lookup st) b <> ANT_DEBUG_FIELD_INVALID)
      by (unfold fresh in Hf; by apply Z.eqb_neq).
    destruct (H2 b Hb Hkb) as [Hslot Hidx].
    pose proof (typed_lookup st b Hwt Hb) as Hsb.
    split; [done|]. split; [|done].
    intros k Hk. unfold ad_field, fresh. cbn. fold (fresh st k).
    destruct (decide _) as [[-> _]|Hnot].
    + rewrite Hf. cbn. rewrite sel_upd_eq by lia.
      unfold with_output. by rewrite Hidx.
    + destruct (fresh st k) eqn:Hfk; [done|].
      assert (Hkk : sel (m_hash_lookup st) k <> ANT_DEBUG_FIELD_INVALID)
        by (unfold fresh in Hfk; by apply Z.eqb_neq).
      destruct (H2 k Hk Hkk) as [Hslotk Hidxk].
      pose proof (typed_lookup st k Hwt Hk) as Hsk.
      rewrite sel_upd_ne; [done|lia|lia|].
      intros Heq. rewrite <- Heq in Hidxk. rewrite Hidx in Hidxk.
      apply Hnot. split; [done|]. by subst.
  - assert (Hb255 : (b =? ANT_DEBUG_FIELD_INVALID) = false)
      by (apply Z.eqb_neq; unfold ANT_DEBUG_FIELD_INVALID; lia).
    rewrite Hb255, Hf in Hroom. cbn in Hroom.
    split; [done|]. split.
    + intros k Hk. unfold ad_field, fresh. cbn. fold (fresh st k). rewrite Hhead.
      destruct (decide _) as [[-> _]|Hnot].
      * rewrite Hf, sel_upd_eq by lia.
        destruct (Z.eqb_spec (m_queue_size st) ANT_DEBUG_FIELD_INVALID) as [Hx|_];
          [unfold ANT_DEBUG_FIELD_INVALID in Hx; lia|].
        cbn. by rewrite sel_upd_eq by lia.
      * assert (k <> b) by (intros ->; apply Hnot; split; [done|lia]).
        rewrite sel_upd_ne by lia. fold (fresh st k).
        destruct (fresh st k) eqn:Hfk; [done|].
        assert (Hkk : sel (m_hash_lookup st) k <> ANT_DEBUG_FIELD_INVALID)
          by (unfold fresh in Hfk; by apply Z.eqb_neq).
        destruct (H2 k Hk Hkk) as [Hslotk Hidxk].
        pose proof (typed_lookup st k Hwt Hk) as Hsk.
        by rewrite sel_upd_ne by lia.
    + intros k Hk Hfk. cbn.
      assert (k <> b) by (intros ->; congruence).
      by rewrite sel_upd_ne by lia.
Qed.

(** All data bytes, seen on the registry as a partial map. *)
Lemma filter_add_fields d : forall st,
  well_typed st -> registry_ok st -> Forall u8 d ->
  m_queue_size st + filter_add_allocs d st < 256 ->
  let st' := foldl (fun s b => filter_add_arg b s) st d in
  (well_typed st' /\ registry_ok st') /\
  m_selective_debug st' = m_selective_debug st /\
  (forall k, u8 k ->
     ad_field st' k =
     if decide (k ∈ d /\ k <> 255)
     then Some (mk_debug_value k (default 65535 (value <$> ad_field st k)) true)
     else ad_field st k) /\
  (forall k, u8 k -> fresh st k = false ->
     sel (m_hash_lookup st') k = sel (m_hash_lookup st) k).
Proof.
  induction d as [|b d IH]; intros st Hwt Hok Hd Hroom; cbv zeta.
  - cbn. split; [done|]. split; [done|]. split; [|done].
    intros k Hk. destruct (decide _) as [[Hin _]|]; [|done].
    by apply elem_of_nil in Hin.
  - apply Forall_cons in Hd as [Hb Hd].
    cbn [filter_add_allocs] in Hroom. cbn [foldl].
    set (a := if negb (b =? ANT_DEBUG_FIELD_INVALID) && fresh st b then 1 else 0) in *.
    pose proof (advances_filter_add_arg st b Hwt Hb) as Hadv. fold a in Hadv.
    assert (Hwt1 : well_typed (filter_add_arg b st)) by (by destruct Hadv as (_ & ? & _)).
    destruct (advances_filter_add d (filter_add_arg b st) Hwt1 Hd) as [Hbound _].
    destruct (advances_registry_ok a st _ Hadv Hok ltac:(lia)) as [Hok1 Hsize1].
    destruct (filter_add_arg_fields st b Hwt Hok Hb ltac:(fold a; lia))
      as (Hsel1 & Hf1 & Hl1).
    destruct (IH (filter_add_arg b st) Hwt1 Hok1 Hd ltac:(lia))
      as (Htyped & Hsel & Hf & Hl).
    split; [done|]. split; [by rewrite Hsel|]. split.
    + intros k Hk. rewrite (Hf k Hk), (Hf1 k Hk).
      destruct (decide (k = b /\ k <> 255)) as [[-> Hk255]|Hn2].
      * rewrite (decide_True (P := b ∈ b :: d /\ b <> 255)) by (split; [left|done]).
        by destruct (decide _).
      * destruct (decide (k ∈ d /\ k <> 255)) as [[Hin Hk255]|Hn1].
        -- by rewrite decide_True by (split; [by right|done]).
        -- rewrite decide_False; [done|]. intros [Hin Hk255].
           apply elem_of_cons in Hin as [->|Hin]; [by apply Hn2|by apply Hn1].
    + intros k Hk Hfk. rewrite Hl; [by apply Hl1|done|].
      unfold fresh in *. by rewrite Hl1.
Qed.

(** A byte whose key is already registered and flagged changes nothing. *)
Lemma filter_add_arg_noop st b :
  well_typed st -> u8 b ->
  (b <> 255 -> exists f, ad_field st b = Some f /\ output f = true) ->
  filter_add_arg b st = st.
Proof.
  intros Hwt Hb Hflag.
  destruct (filter_add_arg_cases st b Hwt Hb) as [[_ ->]|[(Hne & Hf & ->)|(Hne & Hf & _)]].
  - done.
  - destruct (Hflag Hne) as (f & Hfield & Hout).
    unfold ad_field in Hfield. rewrite Hf in Hfield. injection Hfield as <-.
    pose proof (typed_lookup st b Hwt Hb). typed Hwt.
    rewrite upd_sel_id; [apply set_queue_id|lia|].
    destruct (sel (m_debug_queue st) _) as [i v o]. cbn in *. by subst.
  - destruct (Hflag Hne) as (f & Hfield & _).
    unfold ad_field in Hfield. by rewrite Hf in Hfield.
Qed.

(** C5.  A filter-add command turns Selective Mode on and processes its
    five data bytes in message order, skipping 255, registering an unknown
    key with the placeholder 0xFFFF and flagging the key's slot
    ([filter_add_spec_step]).  Provided the slots it allocates fit below
    the sentinel slot number, the net effect on the registry seen as a map
    is: every named key other than 255 is present and flagged, with its old
    value or 0xFFFF; every other key (255 included) is as before; keys
    already known keep their slot; and decoding the command again changes
    nothing. *)
Theorem filter_add_command st p0 (d : list Z) :
  well_typed st -> registry_ok st ->
  length d = 5%nat -> Forall u8 d ->
  let payload := p0 :: ANT_DEBUG_FILTER_COMMAND :: ANT_DEBUG_SUB_COMMAND_FILTER_ADD :: d in
  let st' := ad_decode_debug_command payload st in
  m_queue_size st + slots_allocated st st' < DEBUG_QUEUE_SIZE ->
  st' = foldl filter_add_spec_step (set_selective true st) d /\
  m_selective_debug st' = true /\
  (well_typed st' /\ registry_ok st') /\
  (forall k, u8 k ->
     ad_field st' k =
     if decide (k ∈ d /\ k <> 255)
     then Some (mk_debug_value k (default 65535 (value <$> ad_field st k)) true)
     else ad_field st k) /\
  (forall k, u8 k -> fresh st k = false ->
     sel (m_hash_lookup st') k = sel (m_hash_lookup st) k) /\
  ad_decode_debug_command payload st' = st'.
Proof.
  intros Hwt Hok Hlen Hd. cbv zeta.
  rewrite !decode_filter_add by done.
  set (st0 := set_selective true st).
  assert (Hwt0 : well_typed st0) by (by destruct (advances_set_selective true st Hwt) as (_ & ? & _)).
  destruct (advances_filter_add d st0 Hwt0 Hd) as [Hbound Hadv].
  rewrite Hlen in Hbound.
  intros Hroom.
  assert (Halloc : slots_allocated st (foldl (fun s b => filter_add_arg b s) st0 d)
                   = filter_add_allocs d st0).
  { change (slots_allocated st ?s) with (slots_allocated st0 s).
    apply advances_allocated; [done|lia|done]. }
  rewrite Halloc in Hroom. unfold DEBUG_QUEUE_SIZE in Hroom.
  destruct (filter_add_fields d st0 Hwt0 Hok Hd Hroom) as (Htyped & Hsel & Hf & Hl).
  set (st' := foldl (fun s b => filter_add_arg b s) st0 d) in *.
  split.
  { unfold st'. generalize st0. clear. induction d as [|b d IH]; intros s; [done|].
    cbn [foldl]. by rewrite filter_add_arg_spec_step, IH. }
  split; [by rewrite Hsel|]. split; [done|]. split; [done|]. split; [done|].
  rewrite set_selective_id by (by rewrite Hsel).
  destruct Htyped as [Hwt' _].
  assert (Hnoop : forall b, b ∈ d -> filter_add_arg b st' = st').
  { intros b Hb. assert (Hb8 : u8 b) by (by eapply Forall_forall in Hd).
    apply filter_add_arg_noop; [done|done|].
    intros Hne. eexists. split; [|shelve].
    rewrite (Hf b Hb8). rewrite decide_True by done. reflexivity.
    Unshelve. reflexivity. }
  clear -Hnoop. revert Hnoop. generalize st'. intros s.
  induction d as [|b d IH]; intros Hnoop; [done|].
  cbn [foldl]. rewrite Hnoop by left. apply IH.
  intros b' Hb'. apply Hnoop. by right.
Qed.

Lemma filter_add_command_witness :
  let st := ad_set_debug_field 9 7 (ad_set_debug_field 5 100 (ad_init boot_state)) in
  let payload := [249; 3; 1; 9; 12; 255; 12; 5] in
  let st' := ad_decode_debug_command payload st in
  ad_field st' 12 = Some (mk_debug_value 12 65535 true) /\
  ad_field st' 9 = Some (mk_debug_value 9 7 true) /\
  ad_field st' 255 = None /\
  ad_decode_debug_command payload st' = st'.
Proof.
  cbv zeta.
  destruct (filter_add_command
              (ad_set_debug_field 9 7 (ad_set_debug_field 5 100 (ad_init boot_state)))
              249 [9; 12; 255; 12; 5])
    as (_ & _ & _ & Hf & _ & Hidem).
  - evaluate.
  - evaluate.
  - reflexivity.
  - evaluate.
  - vm_compute. reflexivity.
  - split; [|split; [|split]].
    + rewrite Hf by evaluate. vm_compute. reflexivity.
    + rewrite Hf by evaluate. vm_compute. reflexivity.
    + rewrite Hf by evaluate. vm_compute. reflexivity.
    + exact Hidem.
Defined.

(** Slots at or above the new slot count are not written. *)
Lemma filter_add_arg_frame st b :
  well_typed st -> registry_ok st -> u8 b ->
  m_queue_size st + (if negb (b =? ANT_DEBUG_FIELD_INVALID) && fresh st b then 1 else 0) < 256 ->
  let st' := filter_add_arg b st in
  m_current_index_debug_channel st' = m_current_index_debug_channel st /\
  m_queue_size st <= m_queue_size st' /\
  (forall i, m_queue_size st' <= i < 256 ->
     sel (m_debug_queue st') i = sel (m_debug_queue st) i).
Proof.
  intros Hwt Hok Hb Hroom. cbv zeta.
  apply registry_ok_spec in Hok as (Hsz' & Hhead & H1 & H2).
  pose proof Hwt as Hwt'. typed Hwt'. unfold u8 in *.
  destruct (filter_add_arg_cases st b Hwt Hb) as [[-> ->]|[(Hne & Hf & ->)|(Hne & Hf & ->)]].
  - split; [done|]. split; [lia|done].
  - assert (Hkb : sel (m_hash_lookup st) b <> ANT_DEBUG_FIELD_INVALID)
      by (unfold fresh in Hf; by apply Z.eqb_neq).
    destruct (H2 b Hb Hkb) as [Hslot Hidx].
    pose proof (typed_lookup st b Hwt Hb) as Hsb.
    cbn. split; [done|]. split; [lia|].
    intros i Hi. by rewrite sel_upd_ne by lia.
  - assert (Hb255 : (b =? ANT_DEBUG_FIELD_INVALID) = false)
      by (apply Z.eqb_neq; unfold ANT_DEBUG_FIELD_INVALID; lia).
    rewrite Hb255, Hf in Hroom. cbn in Hroom.
    cbn. rewrite Z.mod_small by lia. split; [done|]. split; [lia|].
    intros i Hi. by rewrite sel_upd_ne by lia.
Qed.

Lemma filter_add_frame d : forall st,
  well_typed st -> registry_ok st -> Forall u8 d ->
  m_queue_size st + filter_add_allocs d st < 256 ->
  let st' := foldl (fun s b => filter_add_arg b s) st d in
  m_current_index_debug_channel st' = m_current_index_debug_channel st /\
  m_queue_size st <= m_queue_size st' /\
  (forall i, m_queue_size st' <= i < 256 ->
     sel (m_debug_queue st') i = sel (m_debug_queue st) i).
Proof.
  induction d as [|b d IH]; intros st Hwt Hok Hd Hroom; cbv zeta.
  - cbn. split; [done|]. split; [lia|done].
  - apply Forall_cons in Hd as [Hb Hd].
    cbn [filter_add_allocs] in Hroom. cbn [foldl].
    set (a := if negb (b =? ANT_DEBUG_FIELD_INVALID) && fresh st b then 1 else 0) in *.
    pose proof (advances_filter_add_arg st b Hwt Hb) as Hadv. fold a in Hadv.
    assert (Hwt1 : well_typed (filter_add_arg b st)) by (by destruct Hadv as (_ & ? & _)).
    destruct (advances_filter_add d (filter_add_arg b st) Hwt1 Hd) as [Hbound _].
    destruct (advances_registry_ok a st _ Hadv Hok ltac:(lia)) as [Hok1 Hsize1].
    destruct (filter_add_arg_frame st b Hwt Hok Hb ltac:(fold a; lia)) as (Hc1 & Hs1 & Hq1).
    destruct (IH (filter_add_arg b st) Hwt1 Hok1 Hd ltac:(lia)) as (Hc & Hs & Hq).
    split; [by rewrite Hc|]. split; [lia|].
    intros i Hi. rewrite Hq by done. apply Hq1. lia.
Qed.

(** * Other calls: what they leave alone *)

(** [set] writes no [output] member, no key of an occupied slot and no
    lookup entry of a known key. *)
Lemma set_frame st k v :
  well_typed st -> m_head st = m_queue_size st -> u8 k ->
  let st' := ad_set_debug_field k v st in
  (m_selective_debug st' = m_selective_debug st /\
   m_current_index_debug_channel st' = m_current_index_debug_channel st) /\
  (forall i, 0 <= i < 256 ->
     output (sel (m_debug_queue st') i) = output (sel (m_debug_queue st) i)) /\
  (forall i, 0 <= i < m_queue_size st ->
     index (sel (m_debug_queue st') i) = index (sel (m_debug_queue st) i)) /\
  (forall k', u8 k' -> fresh st k' = false ->
     sel (m_hash_lookup st') k' = sel (m_hash_lookup st) k').
Proof.
  intros Hwt Hhead Hk. cbv zeta.
  pose proof Hwt as Hwt'. typed Hwt'. unfold u8 in *.
  pose proof (typed_lookup st k Hwt Hk) as Hsk.
  destruct (fresh st k) eqn:Hf.
  - unfold fresh in Hf. apply Z.eqb_eq in Hf.
    rewrite (set_fresh st k v Hwt Hf). cbn. split; [done|]. split; [|split].
    + intros i Hi. rewrite sel_upd by lia. by destruct (decide _) as [->|].
    + intros i Hi. by rewrite sel_upd_ne by lia.
    + intros k' Hk' Hf'. rewrite sel_upd_ne; [done|lia|lia|].
      intros ->. unfold fresh in Hf'. apply Z.eqb_neq in Hf'. done.
  - unfold fresh in Hf. apply Z.eqb_neq in Hf.
    rewrite (set_known st k v Hf). cbn. split; [done|]. split; [|split].
    + intros i Hi. rewrite sel_upd by lia. by destruct (decide _) as [->|].
    + intros i Hi. rewrite sel_upd by lia. by destruct (decide _) as [->|].
    + done.
Qed.

(** [increment] on a present key other than 255: plus one modulo 65536
    in the key's slot (the part of C3 that holds). *)
Lemma increment_present st k :
  well_typed st -> registry_ok st -> u8 k -> k <> 255 ->
  fresh st k = false ->
  ad_increment_debug_field k st =
  set_queue
    (upd (m_debug_queue st) (sel (m_hash_lookup st) k)
       (with_value ((value (sel (m_debug_queue st) (sel (m_hash_lookup st) k)) + 1) mod 65536)
          (sel (m_debug_queue st) (sel (m_hash_lookup st) k)))) st.
Proof.
  intros Hwt Hok Hk Hne Hf.
  apply registry_ok_spec in Hok as (_ & _ & _ & H2).
  unfold fresh in Hf. apply Z.eqb_neq in Hf.
  destruct (H2 k Hk Hf) as [_ Hidx].
  unfold ad_increment_debug_field, ad_get_debug_field. rewrite Hidx.
  destruct (Z.eqb_spec k ANT_DEBUG_FIELD_INVALID) as [Heq|_];
    [unfold ANT_DEBUG_FIELD_INVALID in Heq; lia|].
  cbn [negb]. by apply set_known.
Qed.

Example increment_wraps :
  ad_field (ad_increment_debug_field 5 (ad_set_debug_field 5 65535 (ad_init boot_state))) 5
  = Some (mk_debug_value 5 0 false).
Proof. vm_compute. reflexivity. Qed.

(** More fuel does not change a finished page build. *)
Lemma page_loop_fuel_mono fuel : forall st count p c r fuel',
  ad_get_debug_page_loop fuel st count p c = Some r ->
  (fuel <= fuel')%nat ->
  ad_get_debug_page_loop fuel' st count p c = Some r.
Proof.
  induction fuel as [|fuel IH]; intros st count p c r fuel' Hrun Hle.
  - simpl in Hrun. destruct (Z.leb_spec 2 count); [|done].
    by rewrite page_loop_done.
  - destruct fuel' as [|fuel']; [lia|].
    simpl in *. destruct (2 <=? count); [done|].
    destruct (ad_output_debug_mesg st c); (apply IH; [done|lia]).
Qed.

Lemma update_tx_fuel_mono fuel fuel' st st' :
  ad_update_tx fuel st = Some st' -> (fuel <= fuel')%nat ->
  ad_update_tx fuel' st = Some st'.
Proof.
  unfold ad_update_tx, ad_get_debug_page. intros Hrun Hle.
  destruct (0 <? m_queue_size st); [|done].
  destruct (ad_get_debug_page_loop fuel _ _ _ _) as [r|] eqn:Hloop; [|done].
  by rewrite (page_loop_fuel_mono fuel _ _ _ _ r fuel' Hloop Hle).
Qed.

(** * Filter isolation *)

(** The filter-clear command. *)
Lemma decode_filter_clear p0 rest st :
  well_typed st ->
  let st' := ad_decode_debug_command
               (p0 :: ANT_DEBUG_FILTER_COMMAND :: ANT_DEBUG_SUB_COMMAND_FILTER_CLEAR :: rest) st in
  well_typed st' /\
  m_selective_debug st' = false /\
  (m_hash_lookup st' = m_hash_lookup st /\ m_queue_size st' = m_queue_size st /\
   m_head st' = m_head st /\
   m_current_index_debug_channel st' = m_current_index_debug_channel st /\
   m_fast_debug_byte st' = m_fast_debug_byte st) /\
  (forall i, 0 <= i < 256 ->
     sel (m_debug_queue st') i =
     if i <? m_queue_size st then with_output false (sel (m_debug_queue st) i)
     else sel (m_debug_queue st) i).
Proof.
  intros Hwt. cbv zeta. unfold ad_decode_debug_command.
  change (sel (p0 :: ANT_DEBUG_FILTER_COMMAND :: ANT_DEBUG_SUB_COMMAND_FILTER_CLEAR :: rest) 1)
    with ANT_DEBUG_FILTER_COMMAND.
  change (sel (p0 :: ANT_DEBUG_FILTER_COMMAND :: ANT_DEBUG_SUB_COMMAND_FILTER_CLEAR :: rest) 2)
    with ANT_DEBUG_SUB_COMMAND_FILTER_CLEAR.
  cbn [Z.eqb ANT_DEBUG_FILTER_COMMAND ANT_DEBUG_SUB_COMMAND_FILTER_CLEAR
       ANT_DEBUG_SUB_COMMAND_FILTER_ADD Pos.eqb].
  change (m_queue_size (set_selective false st)) with (m_queue_size st).
  set (body := fun (i : Z) (s : ad_state) => _).
  pose proof Hwt as Hwt'. typed Hwt'. unfold u8 in Hsz.
  pose (I := fun (n : nat) (s : ad_state) =>
    well_typed s /\ m_selective_debug s = false /\
    (m_hash_lookup s = m_hash_lookup st /\ m_queue_size s = m_queue_size st /\
     m_head s = m_head st /\
     m_current_index_debug_channel s = m_current_index_debug_channel st /\
     m_fast_debug_byte s = m_fast_debug_byte st) /\
    (forall i, 0 <= i < 256 ->
       sel (m_debug_queue s) i =
       if i <? Z.of_nat n then with_output false (sel (m_debug_queue st) i)
       else sel (m_debug_queue st) i)).
  assert (HI : I (Z.to_nat (m_queue_size st))
                 (for_loop (Z.to_nat (m_queue_size st)) 0 body (set_selective false st))).
  { apply for_loop_ind.
    - unfold I. split; [by destruct (advances_set_selective false st Hwt) as (_ & ? & _)|].
      split; [done|]. split; [done|]. intros i Hi. cbn.
      destruct (Z.ltb_spec i (Z.of_nat 0)); [lia|done].
    - intros n s Hn (Hs1 & Hs2 & Hs3 & Hs4).
      change (0 + Z.of_nat n) with (Z.of_nat n).
      unfold I, body. split; [|split; [done|split; [done|]]].
      + destruct (advances_mark s (Z.of_nat n) false Hs1 ltac:(lia)) as (_ & ? & _). done.
      + intros i Hi. cbn. destruct Hs1 as (Hqs & _).
        rewrite sel_upd by lia. rewrite !Hs4 by lia.
        destruct (decide (Z.of_nat n = i)) as [<-|Hne];
          destruct (Z.ltb_spec (Z.of_nat n) (Z.of_nat n));
          try destruct (Z.ltb_spec (Z.of_nat n) (Z.of_nat (S n)));
          try destruct (Z.ltb_spec i (Z.of_nat n));
          try destruct (Z.ltb_spec i (Z.of_nat (S n))); try lia; done. }
  destruct HI as (H1 & H2 & H3 & H4).
  split; [done|]. split; [done|]. split; [done|].
  intros i Hi. rewrite H4 by done. by rewrite Z2Nat.id by lia.
Qed.

Lemma write_pair_typed st p idx c :
  well_typed st -> 0 <= c < 256 -> length p = 8%nat -> Forall u8 p ->
  length (write_pair st p idx c) = 8%nat /\ Forall u8 (write_pair st p idx c).
Proof.
  intros Hwt Hc Hlen Hp. unfold write_pair.
  destruct (typed_slot st c Hwt Hc) as [Hi _].
  rewrite !length_upd. split; [done|].
  repeat apply Forall_upd; try done; unfold u8; apply Z.mod_pos_bound; lia.
Qed.

(** Whatever the fuel, a finished loop leaves a typed buffer and a cursor
    inside the occupied slots. *)
Lemma page_loop_typed st fuel : forall count p c r,
  well_typed st -> 0 <= c < m_queue_size st ->
  length p = 8%nat -> Forall u8 p ->
  ad_get_debug_page_loop fuel st count p c = Some r ->
  (length r.1 = 8%nat /\ Forall u8 r.1) /\ 0 <= r.2 < m_queue_size st.
Proof.
  induction fuel as [|fuel IH]; intros count p c r Hwt Hc Hlen Hp Hrun.
  - simpl in Hrun. destruct (2 <=? count); [|done]. by injection Hrun as <-.
  - simpl in Hrun. destruct (2 <=? count); [by injection Hrun as <-|].
    pose proof Hwt as Hwt'. typed Hwt'.
    pose proof (next_index_lt st c Hsz Hc) as Hnext.
    destruct (ad_output_debug_mesg st c).
    + destruct (write_pair_typed st p
                  ((ANT_PAGE_DEBUG_KEY0_INDEX + count * ANT_PAGE_DEBUG_VALUE_SIZE) mod 256)
                  c Hwt ltac:(unfold u8 in *; lia) Hlen Hp) as [Hl' Hp'].
      exact (IH _ _ _ r Hwt Hnext Hl' Hp' Hrun).
    + exact (IH _ _ _ r Hwt Hnext Hlen Hp Hrun).
Qed.

Lemma update_tx_preserves fuel st st' :
  well_typed st -> cursor_ok st ->
  ad_update_tx fuel st = Some st' ->
  well_typed st' /\ cursor_ok st'.
Proof.
  intros Hwt Hcok Hrun. pose proof Hwt as Hwt'. typed Hwt'.
  unfold ad_update_tx, ad_get_debug_page in Hrun.
  destruct (Z.ltb_spec 0 (m_queue_size st)) as [Hpos|Hzero].
  - destruct (ad_get_debug_page_loop _ _ _ _ _) as [[p c]|] eqn:Hloop; [|done].
    injection Hrun as <-.
    apply page_loop_typed in Hloop as [[Hl Hp] Hc]; try done.
    + cbn in *. split.
      * apply update_tx_typed; try done. unfold u8 in *. lia.
      * unfold cursor_ok. cbn. lia.
    + unfold cursor_ok, u8 in *. lia.
    + by rewrite !length_upd.
    + repeat apply Forall_upd; try done; unfold u8, ANT_DEBUG_PAGE_MESSAGE; lia.
  - injection Hrun as <-. rewrite memset_page by done.
    destruct (empty_page_typed st Hwt) as [Hl Hp]. split.
    + by apply update_tx_typed.
    + exact Hcok.
Qed.

Lemma decode_other_command payload st :
  sel payload 1 <> ANT_DEBUG_FILTER_COMMAND \/
  (sel payload 2 <> ANT_DEBUG_SUB_COMMAND_FILTER_ADD /\
   sel payload 2 <> ANT_DEBUG_SUB_COMMAND_FILTER_CLEAR) ->
  ad_decode_debug_command payload st = st.
Proof.
  intros Hother. unfold ad_decode_debug_command.
  destruct (Z.eqb_spec (sel payload 1) ANT_DEBUG_FILTER_COMMAND); [|done].
  destruct (Z.eqb_spec (sel payload 2) ANT_DEBUG_SUB_COMMAND_FILTER_ADD);
    [destruct Hother as [?|[? _]]; done|].
  destruct (Z.eqb_spec (sel payload 2) ANT_DEBUG_SUB_COMMAND_FILTER_CLEAR);
    [destruct Hother as [?|[_ ?]]; done|].
  done.
Qed.

(** ** The filter stays in force *)

Section filter_in_force.

Variables A B : Z.
Hypothesis HuA : u8 A.

Lemma filter_holds_set st k v :
  filter_holds A B st -> u8 k -> u16 v ->
  (fresh st k = true -> m_queue_size st + 1 < DEBUG_QUEUE_SIZE) ->
  filter_holds A B (ad_set_debug_field k v st).
Proof.
  intros ((Hwt & Hok & Hcok) & Hsel & Hflags & HfA & HoA) Hk Hv Hroom.
  pose proof (advances_set st k v Hwt Hk Hv) as Hadv.
  set (a := if fresh st k then 1 else 0) in *.
  assert (Ha : m_queue_size st + a < 256 /\ 0 <= a).
  { unfold a, DEBUG_QUEUE_SIZE in *. apply registry_ok_spec in Hok as (? & _).
    destruct (fresh st k); [split; [by apply Hroom|lia]|lia]. }
  destruct (advances_registry_ok a st _ Hadv Hok ltac:(lia)) as [Hok' Hsize'].
  assert (Hhead : m_head st = m_queue_size st)
    by (by apply registry_ok_spec in Hok as (_ & ? & _)).
  destruct (set_frame st k v Hwt Hhead Hk) as ((Hsel' & Hcur') & Hout & Hidx & Hlook).
  pose proof (typed_lookup st A Hwt HuA) as HsA.
  unfold filter_holds. split; [split; [|split]|split; [|split; [|split]]].
  - by destruct Hadv as (_ & ? & _).
  - done.
  - unfold cursor_ok in *. rewrite Hcur', Hsize'. lia.
  - by rewrite Hsel'.
  - intros i Hi Hflag. rewrite Hout in Hflag by done.
    destruct (Hflags i Hi Hflag) as [Hlt' HAB].
    rewrite Hidx by lia. split; [lia|done].
  - unfold fresh in *. by rewrite Hlook.
  - rewrite Hlook by done. by rewrite Hout.
Qed.

Lemma filter_holds_step st st' :
  filter_holds A B st -> kept_step st st' -> filter_holds A B st'.
Proof.
  intros Hholds Hstep.
  destruct Hstep as [k v st Hk Hv Hroom|k st Hk Hroom|b st Hb|fuel st st' Hrun|payload st Hother].
  - by apply filter_holds_set.
  - unfold ad_increment_debug_field.
    destruct (ad_get_debug_field k st) as [v|]; [|done].
    apply filter_holds_set; try done.
    unfold u16. apply Z.mod_pos_bound. lia.
  - destruct Hholds as ((Hwt & Hok & Hcok) & Hsel & Hflags & HfA & HoA).
    unfold filter_holds, ad_set_fast_debug_byte.
    split; [split; [|split]|done]; try done.
    typed Hwt. unfold well_typed. cbn. done.
  - destruct Hholds as ((Hwt & Hok & Hcok) & Hsel & Hflags & HfA & HoA).
    destruct (update_tx_preserves fuel st st' Hwt Hcok Hrun) as [Hwt' Hcok'].
    destruct (update_tx_frame fuel st st' Hrun) as (Hq & Hl & Hs & Hh & Hse & Hfb).
    unfold filter_holds, registry_ok, registry_inv, fresh in *.
    rewrite Hq, Hl, Hs, Hh, Hse. done.
  - by rewrite decode_other_command.
Qed.

Lemma filter_holds_rtc st st' :
  filter_holds A B st -> rtc kept_step st st' -> filter_holds A B st'.
Proof.
  intros Hholds Hsteps. induction Hsteps as [|s1 s2 s3 Hstep _ IH]; [done|].
  apply IH. by eapply filter_holds_step.
Qed.

(** While the filter is in force every page build terminates and both key
    bytes of the page are [A] or [B]. *)
Lemma filter_holds_page st fuel :
  filter_holds A B st ->
  (2 * Z.to_nat (m_queue_size st) <= fuel)%nat ->
  exists st', ad_update_tx fuel st = Some st' /\
    (sel (m_tx_buffer st') 2 = A \/ sel (m_tx_buffer st') 2 = B) /\
    (sel (m_tx_buffer st') 5 = A \/ sel (m_tx_buffer st') 5 = B).
Proof.
  intros ((Hwt & Hok & Hcok) & Hsel & Hflags & HfA & HoA) Hfuel.
  pose proof (typed_lookup st A Hwt HuA) as HsA.
  destruct (Hflags _ HsA HoA) as [HltA _].
  assert (Hel : forall i, ad_output_debug_mesg st i = output (sel (m_debug_queue st) i)).
  { intros i. unfold ad_output_debug_mesg. by rewrite Hsel. }
  destruct (page_build_nonempty st (sel (m_hash_lookup st) A) fuel Hwt)
    as (q1 & q2 & [Hq1 He1] & [Hq2 He2] & Hrun); try done.
  { unfold cursor_ok in Hcok. typed Hwt. unfold u8 in *. lia. }
  { lia. }
  { by rewrite Hel. }
  rewrite Hel in He1, He2.
  apply registry_ok_spec in Hok as (Hsz' & _).
  destruct (Hflags q1 ltac:(lia) He1) as [_ HAB1].
  destruct (Hflags q2 ltac:(lia) He2) as [_ HAB2].
  eexists. unfold ad_update_tx. rewrite Hrun. split; [reflexivity|]. done.
Qed.

End filter_in_force.

(** ** Before a filter-add command *)

Lemma no_filter_init : no_filter (ad_init boot_state).
Proof. evaluate. Qed.

Lemma no_filter_set st k v :
  no_filter st -> u8 k -> u16 v ->
  (fresh st k = true -> m_queue_size st + 1 < DEBUG_QUEUE_SIZE) ->
  no_filter (ad_set_debug_field k v st).
Proof.
  intros ((Hwt & Hok & Hcok) & Hclean) Hk Hv Hroom.
  pose proof (advances_set st k v Hwt Hk Hv) as Hadv.
  set (a := if fresh st k then 1 else 0) in *.
  assert (Ha : m_queue_size st + a < 256 /\ 0 <= a).
  { unfold a, DEBUG_QUEUE_SIZE in *. apply registry_ok_spec in Hok as (? & _).
    destruct (fresh st k); [split; [by apply Hroom|lia]|lia]. }
  destruct (advances_registry_ok a st _ Hadv Hok ltac:(lia)) as [Hok' Hsize'].
  assert (Hhead : m_head st = m_queue_size st)
    by (by apply registry_ok_spec in Hok as (_ & ? & _)).
  destruct (set_frame st k v Hwt Hhead Hk) as ((_ & Hcur') & Hout & _).
  split; [split; [|split]|].
  - by destruct Hadv as (_ & ? & _).
  - done.
  - unfold cursor_ok in *. rewrite Hcur', Hsize'. lia.
  - apply forall_below_spec. intros i Hi. rewrite Hout by done.
    by apply (proj1 (forall_below_spec _ _) Hclean).
Qed.

Lemma no_filter_step st st' : no_filter st -> kept_step st st' -> no_filter st'.
Proof.
  intros Hno Hstep.
  destruct Hstep as [k v st Hk Hv Hroom|k st Hk Hroom|b st Hb|fuel st st' Hrun|payload st Hother].
  - by apply no_filter_set.
  - unfold ad_increment_debug_field.
    destruct (ad_get_debug_field k st) as [v|]; [|done].
    apply no_filter_set; try done.
    unfold u16. apply Z.mod_pos_bound. lia.
  - destruct Hno as ((Hwt & Hok & Hcok) & Hclean).
    split; [split; [|split]|done]; try done.
    typed Hwt. unfold well_typed, ad_set_fast_debug_byte. cbn. done.
  - destruct Hno as ((Hwt & Hok & Hcok) & Hclean).
    destruct (update_tx_preserves fuel st st' Hwt Hcok Hrun) as [Hwt' Hcok'].
    destruct (update_tx_frame fuel st st' Hrun) as (Hq & Hl & Hs & Hh & Hse & Hfb).
    unfold no_filter, registry_ok, registry_inv in *.
    rewrite Hq, Hl, Hs, Hh. done.
  - by rewrite decode_other_command.
Qed.

(** The filter-add command naming [A] and [B], on a registry with no
    flagged slot and room for two more fields, puts the filter in force. *)
Lemma filter_holds_after_add st p0 A B :
  well_typed st -> registry_ok st -> cursor_ok st ->
  (forall i, 0 <= i < 256 -> output (sel (m_debug_queue st) i) = false) ->
  u8 A -> A <> 255 -> u8 B -> B <> 255 ->
  m_queue_size st + 2 < DEBUG_QUEUE_SIZE ->
  filter_holds A B
    (ad_decode_debug_command
       [p0; ANT_DEBUG_FILTER_COMMAND; ANT_DEBUG_SUB_COMMAND_FILTER_ADD; A; B; 255; 255; 255] st).
Proof.
  intros Hwt Hok Hcok Hclean HA HA255 HB HB255 Hroom.
  rewrite (decode_filter_add p0 [A; B; 255; 255; 255]) by done.
  set (d := [A; B; 255; 255; 255]).
  set (st0 := set_selective true st).
  assert (Hwt0 : well_typed st0) by (by destruct (advances_set_selective true st Hwt) as (_ & ? & _)).
  assert (Hok0 : registry_ok st0) by exact Hok.
  assert (Hd : Forall u8 d).
  { unfold d. repeat (apply Forall_cons; split); try done; try apply Forall_nil; unfold u8; lia. }
  assert (Hallocs : filter_add_allocs d st0 <= 2).
  { unfold d. cbn [filter_add_allocs].
    change (negb (255 =? ANT_DEBUG_FIELD_INVALID)) with false. cbn [andb].
    destruct (_ && _), (_ && _); lia. }
  unfold DEBUG_QUEUE_SIZE in Hroom.
  destruct (filter_add_fields d st0 Hwt0 Hok0 Hd ltac:(change (m_queue_size st0) with (m_queue_size st); lia))
    as ((Hwt1 & Hok1) & Hsel1 & Hf1 & _).
  destruct (filter_add_frame d st0 Hwt0 Hok0 Hd ltac:(change (m_queue_size st0) with (m_queue_size st); lia))
    as (Hcur1 & Hsize1 & Hframe1).
  set (st1 := foldl (fun s b => filter_add_arg b s) st0 d) in *.
  change (m_queue_size st0) with (m_queue_size st) in *.
  change (m_current_index_debug_channel st0) with (m_current_index_debug_channel st) in *.
  change (m_debug_queue st0) with (m_debug_queue st) in *.
  pose proof Hok1 as Hok1'. apply registry_ok_spec in Hok1' as (Hsz1 & _ & Hslots1 & _).
  assert (HfA : ad_field st1 A = Some (mk_debug_value A (default 65535 (value <$> ad_field st0 A)) true)).
  { rewrite (Hf1 A HA). apply decide_True. split; [left|done]. }
  unfold filter_holds. split; [split; [done|split; [done|]]|split; [done|split]].
  - unfold cursor_ok in *. rewrite Hcur1. lia.
  - intros i Hi Hflag.
    destruct (decide (i < m_queue_size st1)) as [Hlt'|Hge].
    + split; [done|].
      pose proof (Hslots1 i ltac:(lia)) as Hback.
      destruct (typed_slot st1 i Hwt1 Hi) as [Hkey _].
      set (key := index (sel (m_debug_queue st1) i)) in *.
      pose proof (Hf1 key Hkey) as Hfield.
      unfold ad_field at 1 in Hfield. unfold fresh at 1 in Hfield.
      rewrite Hback in Hfield.
      destruct (Z.eqb_spec i ANT_DEBUG_FIELD_INVALID) as [Hx|_];
        [unfold ANT_DEBUG_FIELD_INVALID in Hx; lia|].
      destruct (decide (key ∈ d /\ key <> 255)) as [[Hin Hne]|Hnot].
      * unfold d in Hin. rewrite !elem_of_cons in Hin.
        destruct Hin as [?|[?|[?|[?|[?|Hin]]]]]; try lia; try (by left); try (by right).
        by apply elem_of_nil in Hin.
      * exfalso. unfold ad_field in Hfield.
        destruct (fresh st0 key); [done|]. injection Hfield as Hfield.
        rewrite Hfield in Hflag.
        rewrite Hclean in Hflag; [done|].
        by apply (typed_lookup st0 key Hwt0).
    + exfalso. rewrite Hframe1 in Hflag by lia. by rewrite Hclean in Hflag.
  - unfold ad_field in HfA. destruct (fresh st1 A); [done|].
    injection HfA as HfA. split; [done|]. by rewrite HfA.
Qed.

(** ** Cycling with Selective Mode off *)

Lemma next_index_mod st c :
  u8 (m_queue_size st) -> 0 <= c < m_queue_size st ->
  next_index st c = (c + 1) mod m_queue_size st.
Proof.
  intros Hn Hc. rewrite next_index_step by done.
  destruct (Z.ltb_spec (c + 1) (m_queue_size st)).
  - by rewrite Z.mod_small by lia.
  - replace (c + 1) with (m_queue_size st) by lia. by rewrite Z_mod_same_full.
Qed.

(** With Selective Mode off, page number [n] (from 0) after a state with
    cursor [c] carries slots [c + 2n] and [c + 2n + 1], modulo the slot
    count.  [st0] is the state the registry is read from; page builds do
    not change it. *)
Lemma update_tx_n_unfiltered st0 fuel n : forall st,
  well_typed st -> m_selective_debug st = false ->
  (m_debug_queue st = m_debug_queue st0 /\ m_queue_size st = m_queue_size st0 /\
   m_fast_debug_byte st = m_fast_debug_byte st0) ->
  0 <= m_current_index_debug_channel st < m_queue_size st0 ->
  (2 <= fuel)%nat ->
  exists st',
    ad_update_tx_n fuel (S n) st = Some st' /\
    m_tx_buffer st' =
      page_of st0
        ((m_current_index_debug_channel st + 2 * Z.of_nat n) mod m_queue_size st0)
        ((m_current_index_debug_channel st + 2 * Z.of_nat n + 1) mod m_queue_size st0).
Proof.
  induction n as [|n IH]; intros st Hwt Hsel (Hq & Hs & Hfast) Hc Hfuel.
  - pose proof Hwt as Hwt'. typed Hwt'.
    cbn [ad_update_tx_n]. unfold ad_update_tx.
    rewrite page_build_unfiltered by (done || lia).
    eexists. split; [reflexivity|]. cbn.
    rewrite next_index_mod by (done || lia).
    unfold page_of. rewrite Hq, Hs, Hfast.
    rewrite Z.mul_0_r, Z.add_0_r. by rewrite (Z.mod_small _ _ Hc).
  - pose proof Hwt as Hwt'. typed Hwt'.
    change (ad_update_tx_n fuel (S (S n)) st)
      with (match ad_update_tx fuel st with
            | Some st' => ad_update_tx_n fuel (S n) st'
            | None => None
            end).
    destruct (ad_update_tx fuel st) as [st1|] eqn:Hrun.
    2:{ unfold ad_update_tx in Hrun.
        rewrite page_build_unfiltered in Hrun by (done || lia). done. }
    assert (Hcok : cursor_ok st) by (unfold cursor_ok; lia).
    destruct (update_tx_preserves fuel st st1 Hwt Hcok Hrun) as [Hwt1 _].
    destruct (update_tx_frame fuel st st1 Hrun) as (Hq1 & _ & Hs1 & _ & Hsel1 & Hfb1).
    assert (Hc1 : m_current_index_debug_channel st1 =
                  (m_current_index_debug_channel st + 2) mod m_queue_size st0).
    { unfold ad_update_tx in Hrun.
      rewrite page_build_unfiltered in Hrun by (done || lia).
      injection Hrun as <-. cbn.
      assert (Hc' : 0 <= m_current_index_debug_channel st < m_queue_size st) by lia.
      pose proof (next_index_lt st _ Hsz Hc') as Hn1.
      rewrite (next_index_mod st _ Hsz Hn1), (next_index_mod st _ Hsz Hc').
      rewrite Hs, Zplus_mod_idemp_l. f_equal. lia. }
    destruct (IH st1) as (st' & Hrun' & Hpage); try done.
    + by rewrite Hsel1.
    + by rewrite Hq1, Hs1, Hfb1, Hq, Hs, Hfast.
    + rewrite Hc1. apply Z.mod_pos_bound. lia.
    + exists st'. split; [done|]. rewrite Hpage, Hc1.
      rewrite <- !Z.add_assoc, !Zplus_mod_idemp_l.
      f_equal; f_equal; lia.
Qed.

(** Every slot comes up within [size] pages. *)
Lemma update_tx_n_covers st fuel i :
  well_typed st -> m_selective_debug st = false ->
  0 <= m_current_index_debug_channel st < m_queue_size st ->
  0 <= i < m_queue_size st -> (2 <= fuel)%nat ->
  exists (n : nat) st' j,
    (n < Z.to_nat (m_queue_size st))%nat /\
    ad_update_tx_n fuel (S n) st = Some st' /\
    (m_tx_buffer st' = page_of st i j \/ m_tx_buffer st' = page_of st j i).
Proof.
  intros Hwt Hsel Hc Hi Hfuel.
  set (c := m_current_index_debug_channel st) in *.
  set (N := m_queue_size st) in *.
  set (t := (i - c) mod N).
  assert (Ht : 0 <= t < N) by (apply Z.mod_pos_bound; lia).
  assert (Hreach : (c + t) mod N = i).
  { unfold t. rewrite Zplus_mod_idemp_r.
    replace (c + (i - c)) with i by lia. apply Z.mod_small. lia. }
  destruct (update_tx_n_unfiltered st fuel (Z.to_nat (t / 2)) st Hwt Hsel)
    as (st' & Hrun & Hpage); try done.
  fold c N in Hpage.
  assert (Hdiv : 0 <= t / 2) by (apply Z.div_pos; lia).
  rewrite Z2Nat.id in Hpage by done.
  pose proof (Z.div_mod t 2 ltac:(lia)) as Hdm.
  pose proof (Z.mod_pos_bound t 2 ltac:(lia)) as Hm.
  exists (Z.to_nat (t / 2)), st'.
  destruct (decide (t mod 2 = 0)) as [Heven|Hodd].
  - exists ((c + 2 * (t / 2) + 1) mod N).
    split; [|split; [done|left]].
    + assert (t / 2 < N) by (apply Z.div_lt_upper_bound; lia). lia.
    + rewrite Hpage. do 2 f_equal. rewrite <- Hreach. f_equal. lia.
  - exists ((c + 2 * (t / 2)) mod N).
    split; [|split; [done|right]].
    + assert (t / 2 < N) by (apply Z.div_lt_upper_bound; lia). lia.
    + rewrite Hpage. f_equal. rewrite <- Hreach. f_equal. lia.
Qed.

(** Filter isolation from a clean registry.  Take a registry in which no
    filter is in force ([no_filter]: no slot is flagged, which [ad_init]
    does not establish) and which has room for two more fields, and decode
    a filter-add command naming [A] and [B].  Then, after any further calls other than filter commands and
    [ad_init] (sets and increments that fit the registry, fast-byte
    updates, page builds, ignored commands), every page build terminates
    and both key bytes of its page are [A] or [B].  Once a filter-clear
    command is decoded, Selective Mode is off and the pages cycle over all
    occupied slots again: every slot is carried by one of the next [size]
    pages. *)
Theorem filter_isolation st p0 A B s :
  no_filter st ->
  u8 A /\ A <> 255 -> u8 B /\ B <> 255 ->
  m_queue_size st + 2 < DEBUG_QUEUE_SIZE ->
  rtc kept_step
    (ad_decode_debug_command
       [p0; ANT_DEBUG_FILTER_COMMAND; ANT_DEBUG_SUB_COMMAND_FILTER_ADD; A; B; 255; 255; 255] st)
    s ->
  (forall fuel, (2 * Z.to_nat (m_queue_size s) <= fuel)%nat ->
     exists s', ad_update_tx fuel s = Some s' /\
       (sel (m_tx_buffer s') 2 = A \/ sel (m_tx_buffer s') 2 = B) /\
       (sel (m_tx_buffer s') 5 = A \/ sel (m_tx_buffer s') 5 = B)) /\
  (forall p1 rest fuel i,
     let s2 := ad_decode_debug_command
                 (p1 :: ANT_DEBUG_FILTER_COMMAND :: ANT_DEBUG_SUB_COMMAND_FILTER_CLEAR :: rest) s in
     (2 <= fuel)%nat -> 0 <= i < m_queue_size s2 ->
     (m_selective_debug s2 = false /\
      forall i', 0 <= i' < 256 -> output (sel (m_debug_queue s2) i') = false) /\
     exists (n : nat) s3 j,
       (n < Z.to_nat (m_queue_size s2))%nat /\
       ad_update_tx_n fuel (S n) s2 = Some s3 /\
       (m_tx_buffer s3 = page_of s2 i j \/ m_tx_buffer s3 = page_of s2 j i)).
Proof.
  intros ((Hwt & Hok & Hcok) & Hclean') [HA HA255] [HB HB255] Hroom Hsteps.
  pose proof (proj1 (forall_below_spec _ _) Hclean') as Hclean.
  pose proof (filter_holds_after_add st p0 A B Hwt Hok Hcok Hclean HA HA255 HB HB255 Hroom)
    as Hholds1.
  pose proof (filter_holds_rtc A B HA _ s Hholds1 Hsteps) as Hholds.
  split.
  - intros fuel Hfuel. by apply filter_holds_page.
  - intros p1 rest fuel i s2 Hfuel Hi.
    destruct Hholds as ((Hwts & Hoks & Hcoks) & Hsels & Hflags & HfA & HoA).
    destruct (decode_filter_clear p1 rest s Hwts) as (Hwt2 & Hsel2 & (_ & Hs2 & _ & Hc2 & _) & Hq2).
    fold s2 in Hwt2, Hsel2, Hs2, Hc2, Hq2.
    split.
    { split; [done|]. intros i' Hi'. rewrite Hq2 by done.
      destruct (Z.ltb_spec i' (m_queue_size s)); [done|].
      destruct (output (sel (m_debug_queue s) i')) eqn:Hflag; [|done].
      destruct (Hflags i' Hi' Hflag). lia. }
    apply update_tx_n_covers; try done.
    rewrite Hc2, Hs2. rewrite Hs2 in Hi.
    unfold cursor_ok in Hcoks. typed Hwts. unfold u8 in *. lia.
Qed.

Lemma filter_isolation_witness :
  let st := ad_set_debug_field 9 7 (ad_set_debug_field 5 100 (ad_init boot_state)) in
  let st1 := ad_decode_debug_command [249; 3; 1; 20; 21; 255; 255; 255] st in
  let s := ad_set_debug_field 30 1 st1 in
  exists s', ad_update_tx 10 s = Some s' /\
    (sel (m_tx_buffer s') 2 = 20 \/ sel (m_tx_buffer s') 2 = 21) /\
    (sel (m_tx_buffer s') 5 = 20 \/ sel (m_tx_buffer s') 5 = 21).
Proof.
  cbv zeta.
  refine (proj1 (filter_isolation
            (ad_set_debug_field 9 7 (ad_set_debug_field 5 100 (ad_init boot_state)))
            249 20 21 _ _ _ _ _ _) 10%nat _).
  - evaluate.
  - evaluate.
  - evaluate.
  - vm_compute. reflexivity.
  - apply rtc_once. apply kept_set.
    + evaluate.
    + evaluate.
    + intros _. vm_compute. reflexivity.
  - vm_compute. lia.
Defined.

(** C6.  Filter isolation fails on the code after a re-initialisation.
    [ad_init] turns Selective Mode off and resets every key, value and
    lookup entry, but writes no [output] member, so a flag set under an
    earlier filter survives it.  In the run [ad_init]; filter-add {7};
    [ad_init]; [set 5 100]; filter-add {20, 21}, the second command meets
    a state that satisfies the invariants, has Selective Mode off and does
    not know keys 20 and 21; yet slot 0, which now holds key 5, is still
    flagged.  The first page built under the filter {20, 21} carries key
    5 with its value 100, and so does the second. *)
Theorem filter_isolation_broken_by_stale_flag :
  let st := ad_set_debug_field 5 100
              (ad_init (ad_decode_debug_command [249; 3; 1; 7; 255; 255; 255; 255]
                          (ad_init boot_state))) in
  let st' := ad_decode_debug_command [249; 3; 1; 20; 21; 255; 255; 255] st in
  (well_typed st /\ registry_ok st /\ cursor_ok st) /\
  m_selective_debug st = false /\
  fresh st 20 = true /\ fresh st 21 = true /\
  output (sel (m_debug_queue st) 0) = true /\
  m_selective_debug st' = true /\
  m_tx_buffer <$> ad_update_tx 2 st' = Some [249; 255; 5; 100; 0; 20; 255; 255] /\
  m_tx_buffer <$> ad_update_tx_n 2 2 st' = Some [249; 255; 21; 255; 255; 5; 100; 0].
Proof.
  cbv zeta.
  split; [evaluate|].
  split; [vm_compute; reflexivity|].
  split; [vm_compute; reflexivity|].
  split; [vm_compute; reflexivity|].
  split; [vm_compute; reflexivity|].
  split; [vm_compute; reflexivity|].
  split; vm_compute; reflexivity.
Qed.

(** * Further properties of the registry *)

Lemma list_eq_sel {A : Type} `{!Inhabited A} (a b : list A) :
  length a = length b ->
  (forall i, 0 <= i < Z.of_nat (length a) -> sel a i = sel b i) -> a = b.
Proof.
  intros Hlen H. apply list_eq_same_length with (length a); [done|done|].
  intros i x y Hi Hx Hy.
  specialize (H (Z.of_nat i) ltac:(lia)). unfold sel in H.
  rewrite Nat2Z.id in H.
  rewrite (list_lookup_total_correct _ _ _ Hx) in H.
  rewrite (list_lookup_total_correct _ _ _ Hy) in H. done.
Qed.

(** [get] of a key the lookup table knows, other than 255, reads the
    value of its slot. *)
Lemma get_known st k :
  registry_ok st -> u8 k -> k <> 255 -> fresh st k = false ->
  ad_get_debug_field k st =
  Some (value (sel (m_debug_queue st) (sel (m_hash_lookup st) k))).
Proof.
  intros Hok Hk Hne Hf.
  apply registry_ok_spec in Hok as (_ & _ & _ & H2).
  unfold fresh in Hf. apply Z.eqb_neq in Hf.
  destruct (H2 k Hk Hf) as [_ Hidx].
  unfold ad_get_debug_field. rewrite Hidx.
  destruct (Z.eqb_spec k ANT_DEBUG_FIELD_INVALID) as [Heq|_]; [|done].
  unfold ANT_DEBUG_FIELD_INVALID in Heq. lia.
Qed.

(** X1.  Round trip: in a registry that satisfies the invariant and has
    room for the key, [get] after [set] returns the value just set, for
    every key other than 255, and the values of the other known keys are
    what they were. *)
Theorem set_then_get st k v :
  well_typed st -> registry_ok st ->
  u8 k -> k <> 255 -> u16 v ->
  (fresh st k = true -> m_queue_size st + 1 < DEBUG_QUEUE_SIZE) ->
  ad_get_debug_field k (ad_set_debug_field k v st) = Some v /\
  (forall k', u8 k' -> k' <> k -> fresh st k' = false ->
     ad_get_debug_field k' (ad_set_debug_field k v st) = ad_get_debug_field k' st).
Proof.
  intros Hwt Hok Hk Hne Hv Hroom.
  pose proof Hok as Hok'. apply registry_ok_spec in Hok' as (Hsz' & Hhead & H1 & H2).
  pose proof Hwt as Hwt'. typed Hwt'. unfold u8, DEBUG_QUEUE_SIZE in *.
  pose proof (typed_lookup st k Hwt Hk) as Hsk.
  assert (H255 : forall x, x <> 255 -> (x =? ANT_DEBUG_FIELD_INVALID) = false).
  { intros x Hx. apply Z.eqb_neq. unfold ANT_DEBUG_FIELD_INVALID. lia. }
  destruct (fresh st k) eqn:Hf.
  - specialize (Hroom eq_refl).
    unfold fresh in Hf. apply Z.eqb_eq in Hf.
    rewrite (set_fresh st k v Hwt Hf). unfold ad_get_debug_field. cbn.
    rewrite Hhead. split.
    + rewrite !sel_upd_eq by lia. cbn. by rewrite H255.
    + intros k' Hk' Hkk Hf'. unfold fresh in Hf'. apply Z.eqb_neq in Hf'.
      destruct (H2 k' Hk' Hf') as [Hslot _].
      pose proof (typed_lookup st k' Hwt Hk').
      rewrite (sel_upd_ne (m_hash_lookup st)) by lia.
      by rewrite sel_upd_ne by lia.
  - unfold fresh in Hf. apply Z.eqb_neq in Hf.
    destruct (H2 k Hk Hf) as [Hslot Hidx].
    rewrite (set_known st k v Hf). unfold ad_get_debug_field. cbn. split.
    + rewrite sel_upd_eq by lia. cbn. rewrite Hidx. by rewrite H255.
    + intros k' Hk' Hkk Hf'. unfold fresh in Hf'. apply Z.eqb_neq in Hf'.
      destruct (H2 k' Hk' Hf') as [Hslot' Hidx'].
      pose proof (typed_lookup st k' Hwt Hk').
      rewrite sel_upd_ne; [done|lia|lia|].
      intros Heq. rewrite Heq in Hidx. congruence.
Qed.

Lemma set_then_get_witness :
  let st := ad_set_debug_field 5 100 (ad_init boot_state) in
  ad_get_debug_field 9 (ad_set_debug_field 9 7 st) = Some 7 /\
  ad_get_debug_field 5 (ad_set_debug_field 9 7 st) = ad_get_debug_field 5 st.
Proof.
  cbv zeta.
  destruct (set_then_get (ad_set_debug_field 5 100 (ad_init boot_state)) 9 7)
    as [Hget Hother].
  - evaluate.
  - evaluate.
  - evaluate.
  - lia.
  - evaluate.
  - intros _. vm_compute. reflexivity.
  - split; [exact Hget|]. apply Hother; [evaluate|lia|vm_compute; reflexivity].
Defined.

(** X2.  Key 255 can be written but not read: after [set] on key 255 the
    key's slot holds key 255 and the value (and is cycled into pages like
    any other slot), yet [get] on key 255 returns [false], because 255 is
    also the value [ad_get_debug_field] takes for "no field". *)
Theorem key_255_is_write_only st v :
  well_typed st -> registry_ok st -> u16 v ->
  let st' := ad_set_debug_field 255 v st in
  sel (m_debug_queue st') (sel (m_hash_lookup st') 255) =
    mk_debug_value 255 v (output (sel (m_debug_queue st) (sel (m_hash_lookup st') 255))) /\
  ad_get_debug_field 255 st' = None.
Proof.
  intros Hwt Hok Hv. cbv zeta.
  apply registry_ok_spec in Hok as (Hsz' & Hhead & H1 & H2).
  pose proof Hwt as Hwt'. typed Hwt'. unfold u8 in *.
  pose proof (typed_lookup st 255 Hwt ltac:(lia)) as Hsk.
  destruct (fresh st 255) eqn:Hf.
  - unfold fresh in Hf. apply Z.eqb_eq in Hf.
    rewrite (set_fresh st 255 v Hwt Hf). unfold ad_get_debug_field. cbn.
    rewrite !sel_upd_eq by lia. done.
  - unfold fresh in Hf. apply Z.eqb_neq in Hf.
    destruct (H2 255 ltac:(lia) Hf) as [Hslot Hidx].
    rewrite (set_known st 255 v Hf). unfold ad_get_debug_field. cbn.
    rewrite !sel_upd_eq by lia. unfold with_value. cbn. rewrite Hidx. done.
Qed.

Lemma key_255_is_write_only_witness :
  let st' := ad_set_debug_field 255 77 (ad_init boot_state) in
  sel (m_debug_queue st') 0 = mk_debug_value 255 77 false /\
  ad_get_debug_field 255 st' = None.
Proof.
  cbv zeta.
  destruct (key_255_is_write_only (ad_init boot_state) 77) as [Hslot Hget].
  - evaluate.
  - evaluate.
  - evaluate.
  - split; [exact Hslot|exact Hget].
Defined.

(** X3.  The last write wins: two [set]s on one key leave the state that
    the second alone leaves, provided a first-time key does not get slot
    number 255 (which the lookup table cannot tell from "unknown"). *)
Theorem set_twice_last_wins st k v w :
  well_typed st -> u8 k ->
  (fresh st k = true -> m_head st <> 255) ->
  ad_set_debug_field k w (ad_set_debug_field k v st) = ad_set_debug_field k w st.
Proof.
  intros Hwt Hk Hroom.
  pose proof Hwt as Hwt'. typed Hwt'. unfold u8 in *.
  pose proof (typed_lookup st k Hwt Hk) as Hsk.
  destruct (fresh st k) eqn:Hf.
  - specialize (Hroom eq_refl).
    unfold fresh in Hf. apply Z.eqb_eq in Hf.
    rewrite (set_fresh st k v Hwt Hf), (set_fresh st k w Hwt Hf).
    rewrite set_known; cbn.
    + rewrite !sel_upd_eq by (rewrite ?length_upd; lia).
      unfold set_queue. cbn. by rewrite upd_upd_eq.
    + rewrite sel_upd_eq by lia. done.
  - unfold fresh in Hf. apply Z.eqb_neq in Hf.
    rewrite (set_known st k v Hf), (set_known st k w Hf).
    rewrite set_known; cbn; [|done].
    rewrite sel_upd_eq by lia. unfold set_queue. cbn. by rewrite upd_upd_eq.
Qed.

Lemma set_twice_last_wins_witness :
  ad_set_debug_field 5 2 (ad_set_debug_field 5 1 (ad_init boot_state))
  = ad_set_debug_field 5 2 (ad_init boot_state).
Proof.
  apply (set_twice_last_wins (ad_init boot_state) 5 1 2).
  - evaluate.
  - evaluate.
  - intros _. vm_compute. discriminate.
Defined.

Lemma increment_known_step st k :
  well_typed st -> registry_ok st -> u8 k -> k <> 255 -> fresh st k = false ->
  let st' := ad_increment_debug_field k st in
  (well_typed st' /\ registry_ok st' /\ fresh st' k = false) /\
  m_hash_lookup st' = m_hash_lookup st /\
  value (sel (m_debug_queue st') (sel (m_hash_lookup st) k)) =
    (value (sel (m_debug_queue st) (sel (m_hash_lookup st) k)) + 1) mod 65536.
Proof.
  intros Hwt Hok Hk Hne Hf. cbv zeta.
  rewrite (increment_present st k Hwt Hok Hk Hne Hf).
  pose proof (typed_lookup st k Hwt Hk) as Hs.
  set (d := with_value _ _).
  assert (Hidx : index d = index (sel (m_debug_queue st) (sel (m_hash_lookup st) k))) by done.
  assert (Hval : u16 (value d)) by (unfold u16; cbn; apply Z.mod_pos_bound; lia).
  split; [split; [|split]|split].
  - by apply slot_update_typed.
  - by apply (slot_update_inv (m_queue_size st)).
  - exact Hf.
  - reflexivity.
  - cbn. typed Hwt. by rewrite sel_upd_eq by lia.
Qed.

(** X4.  Increments add up: [n] calls of [increment] on a present key
    other than 255 leave [get] at the old value plus [n], modulo 65536 (so
    65536 calls bring the value back). *)
Theorem increment_n_times st k v (n : nat) :
  well_typed st -> registry_ok st -> u8 k -> k <> 255 -> fresh st k = false ->
  ad_get_debug_field k st = Some v ->
  ad_get_debug_field k (Nat.iter n (ad_increment_debug_field k) st)
  = Some ((v + Z.of_nat n) mod 65536).
Proof.
  intros Hwt Hok Hk Hne Hf Hget.
  rewrite (get_known st k Hok Hk Hne Hf) in Hget. injection Hget as Hv.
  pose proof (typed_lookup st k Hwt Hk) as Hs.
  destruct (typed_slot st _ Hwt Hs) as [_ Hv16]. rewrite Hv in Hv16.
  assert (Hn : let st' := Nat.iter n (ad_increment_debug_field k) st in
               (well_typed st' /\ registry_ok st' /\ fresh st' k = false) /\
               m_hash_lookup st' = m_hash_lookup st /\
               value (sel (m_debug_queue st') (sel (m_hash_lookup st) k)) =
                 (v + Z.of_nat n) mod 65536).
  { induction n as [|n IH]; cbv zeta.
    - change (Nat.iter 0 (ad_increment_debug_field k) st) with st.
      split; [done|]. split; [done|].
      rewrite Hv, Z.add_0_r. unfold u16 in Hv16. by rewrite Z.mod_small.
    - change (Nat.iter (S n) (ad_increment_debug_field k) st)
        with (ad_increment_debug_field k (Nat.iter n (ad_increment_debug_field k) st)).
      cbv zeta in IH.
      destruct IH as ((Hwt' & Hok' & Hf') & Hl' & Hval').
      destruct (increment_known_step _ k Hwt' Hok' Hk Hne Hf') as (Hinv & Hl'' & Hval'').
      split; [done|]. split; [by rewrite Hl''|].
      rewrite Hl' in Hval''. rewrite Hval'', Hval', Zplus_mod_idemp_l.
      f_equal. lia. }
  cbv zeta in Hn. destruct Hn as ((Hwt' & Hok' & Hf') & Hl' & Hval').
  rewrite (get_known _ k Hok' Hk Hne Hf'), Hl', Hval'. done.
Qed.

Lemma increment_n_times_witness :
  ad_get_debug_field 5
    (Nat.iter 3 (ad_increment_debug_field 5)
       (ad_set_debug_field 5 65534 (ad_init boot_state)))
  = Some 1.
Proof.
  apply (increment_n_times (ad_set_debug_field 5 65534 (ad_init boot_state)) 5 65534 3).
  - evaluate.
  - evaluate.
  - evaluate.
  - lia.
  - vm_compute. reflexivity.
  - vm_compute. reflexivity.
Defined.

(** * Further properties of the page builder *)

(** X5.  After [ad_init], whatever the statics held before, the first
    page build needs no loop iteration and gives the page of an empty
    registry: the tag, the default fast byte 0xFF and six fill bytes; the
    cursor stays at 0. *)
Theorem first_page_after_init st fuel :
  well_typed st ->
  ad_update_tx fuel (ad_init st) =
  Some (set_current_index 0
          (set_tx_buffer [ANT_DEBUG_PAGE_MESSAGE; 255; ANT_RESERVED_BYTE; ANT_RESERVED_BYTE;
                          ANT_RESERVED_BYTE; ANT_RESERVED_BYTE; ANT_RESERVED_BYTE;
                          ANT_RESERVED_BYTE]
             (ad_init st))).
Proof.
  intros Hwt. pose proof (init_typed st Hwt) as Hwt'.
  destruct (ad_init_spec st Hwt) as (_ & _ & Hs & Hc & _ & _ & _ & Hfb & _).
  revert Hwt' Hs Hc Hfb. generalize (ad_init st). intros st' Hwt' Hs Hc Hfb.
  unfold ad_update_tx. rewrite page_build_empty by done.
  unfold empty_page. rewrite Hc, Hfb. reflexivity.
Qed.

Lemma first_page_after_init_witness :
  option_map m_tx_buffer
    (ad_update_tx 0 (ad_init (ad_set_debug_field 5 100 (ad_init boot_state))))
  = Some [249; 255; 255; 255; 255; 255; 255; 255].
Proof.
  rewrite (first_page_after_init (ad_set_debug_field 5 100 (ad_init boot_state)) 0).
  - reflexivity.
  - evaluate.
Defined.

(** ** The buffer a page is built in *)

(** The loop reads the statics but not the transmit buffer. *)
Lemma page_loop_reads_no_buffer fuel st b : forall count p c,
  ad_get_debug_page_loop fuel (set_tx_buffer b st) count p c =
  ad_get_debug_page_loop fuel st count p c.
Proof.
  induction fuel as [|fuel IH]; intros count p c; [reflexivity|].
  simpl. destruct (2 <=? count); [reflexivity|].
  change (ad_output_debug_mesg (set_tx_buffer b st) c) with (ad_output_debug_mesg st c).
  change (next_index (set_tx_buffer b st) c) with (next_index st c).
  destruct (ad_output_debug_mesg st c); [|apply IH].
  rewrite IH. reflexivity.
Qed.

Lemma sel_write_pair st p idx c i :
  length p = 8%nat -> 0 <= idx -> idx + 2 < 8 -> 0 <= i ->
  sel (write_pair st p idx c) i =
  if decide (i = idx) then index (sel (m_debug_queue st) c)
  else if decide (i = idx + 1) then value (sel (m_debug_queue st) c) mod 256
  else if decide (i = idx + 2) then Z.shiftr (value (sel (m_debug_queue st) c)) 8 mod 256
  else sel p i.
Proof.
  intros Hp Hidx Hidx' Hi. unfold write_pair.
  rewrite !sel_upd by (rewrite ?length_upd; lia).
  repeat destruct (decide _); try lia; done.
Qed.

(** Two buffers that agree on the bytes written so far give the same
    page: at the end all eight bytes have been written. *)
Lemma page_loop_buffer_indep fuel st : forall count p q c,
  length p = 8%nat -> length q = 8%nat -> 0 <= count <= 2 ->
  (forall i, 0 <= i < 2 + 3 * count -> sel p i = sel q i) ->
  ad_get_debug_page_loop fuel st count p c =
  ad_get_debug_page_loop fuel st count q c.
Proof.
  induction fuel as [|fuel IH]; intros count p q c Hp Hq Hcount Hagree.
  - simpl. destruct (Z.leb_spec 2 count); [|done].
    f_equal. f_equal. apply list_eq_sel; [congruence|].
    intros i Hi. apply Hagree. lia.
  - simpl. destruct (Z.leb_spec 2 count).
    + f_equal. f_equal. apply list_eq_sel; [congruence|].
      intros i Hi. apply Hagree. lia.
    + unfold ANT_PAGE_DEBUG_KEY0_INDEX, ANT_PAGE_DEBUG_VALUE_SIZE.
      rewrite !Z.mod_small by lia.
      destruct (ad_output_debug_mesg st c); [|by apply IH].
      apply IH; try lia.
      * unfold write_pair. by rewrite !length_upd.
      * unfold write_pair. by rewrite !length_upd.
      * intros i Hi. rewrite !sel_write_pair by lia.
        repeat destruct (decide _); try done. apply Hagree. lia.
Qed.

(** A page build overwrites the whole transmit buffer: its result does
    not depend on what the buffer held before. *)
Lemma update_tx_ignores_old_buffer fuel st b :
  well_typed st -> length b = 8%nat ->
  ad_update_tx fuel (set_tx_buffer b st) = ad_update_tx fuel st.
Proof.
  intros Hwt Hb. typed Hwt. unfold ad_update_tx, ad_get_debug_page.
  change (m_queue_size (set_tx_buffer b st)) with (m_queue_size st).
  change (m_tx_buffer (set_tx_buffer b st)) with b.
  change (m_fast_debug_byte (set_tx_buffer b st)) with (m_fast_debug_byte st).
  change (m_current_index_debug_channel (set_tx_buffer b st))
    with (m_current_index_debug_channel st).
  destruct (0 <? m_queue_size st).
  - rewrite page_loop_reads_no_buffer.
    rewrite (page_loop_buffer_indep fuel st 0
               (upd (upd b 0 ANT_DEBUG_PAGE_MESSAGE) ANT_FAST_DEBUG_BYTE_INDEX (m_fast_debug_byte st))
               (upd (upd (m_tx_buffer st) 0 ANT_DEBUG_PAGE_MESSAGE) ANT_FAST_DEBUG_BYTE_INDEX
                  (m_fast_debug_byte st))).
    + by destruct (ad_get_debug_page_loop _ _ _ _ _) as [[r c]|].
    + by rewrite !length_upd.
    + by rewrite !length_upd.
    + lia.
    + intros i Hi. unfold ANT_FAST_DEBUG_BYTE_INDEX.
      rewrite !sel_upd by (rewrite ?length_upd; lia).
      repeat destruct (decide _); try done; lia.
  - by rewrite !memset_page.
Qed.

(** ** The error page *)

Lemma force_error_page_buffer F E code line name st :
  length (m_tx_buffer st) = 8%nat ->
  m_tx_buffer (ad_force_error_page F E code line name st) =
  [ANT_DEBUG_PAGE_MESSAGE; code; F; sel name 1 mod 256; sel name 0 mod 256;
   E; line mod 256; line / 256 mod 256].
Proof.
  intros Hb. unfold ad_force_error_page.
  destruct (m_tx_buffer st) as [|b0 [|b1 [|b2 [|b3 [|b4 [|b5 [|b6 [|b7 [|b8 b]]]]]]]]];
    try discriminate Hb.
  rewrite shiftr_8, Z.shiftr_0_r. reflexivity.
Qed.

(** X6.  The error page has the layout of a debug page: the tag, the
    error code where the fast byte goes, then the pair (file-name key, the
    first two characters of the file name, the second one in the low byte)
    and the pair (line key, line number, low byte first).  The 16-bit line
    number is recovered from bytes 6 and 7.  No other static changes. *)
Theorem error_page_layout F E code line name st :
  well_typed st -> u16 line ->
  let st' := ad_force_error_page F E code line name st in
  let chars := sel name 1 mod 256 + 256 * (sel name 0 mod 256) in
  m_tx_buffer st' =
    [ANT_DEBUG_PAGE_MESSAGE; code]
    ++ pair_bytes (mk_debug_value F chars false)
    ++ pair_bytes (mk_debug_value E line false) /\
  sel (m_tx_buffer st') 6 + 256 * sel (m_tx_buffer st') 7 = line /\
  st' = set_tx_buffer (m_tx_buffer st') st.
Proof.
  intros Hwt Hline. typed Hwt. cbv zeta.
  split; [|split]; [| |reflexivity];
    rewrite force_error_page_buffer by done;
    unfold pair_bytes, u16 in *; cbn [index value app].
  all: pose proof (Z.mod_pos_bound (sel name 1) 256 ltac:(lia)) as H1.
  all: pose proof (Z.mod_pos_bound (sel name 0) 256 ltac:(lia)) as H0.
  all: set (c1 := sel name 1 mod 256) in *; set (c0 := sel name 0 mod 256) in *.
  - assert ((c1 + 256 * c0) mod 256 = c1) as -> by (Z.div_mod_to_equations; lia).
    assert ((c1 + 256 * c0) / 256 mod 256 = c0) as -> by (Z.div_mod_to_equations; lia).
    reflexivity.
  - change (sel [ANT_DEBUG_PAGE_MESSAGE; code; F; c1; c0; E; line mod 256; line / 256 mod 256] 6)
      with (line mod 256).
    change (sel [ANT_DEBUG_PAGE_MESSAGE; code; F; c1; c0; E; line mod 256; line / 256 mod 256] 7)
      with (line / 256 mod 256).
    Z.div_mod_to_equations. lia.
Qed.

Lemma error_page_layout_witness :
  m_tx_buffer (ad_force_error_page 250 251 4 300 [109; 97; 105; 110; 0] (ad_init boot_state))
  = [249; 4; 250; 97; 109; 251; 44; 1].
Proof.
  rewrite (proj1 (error_page_layout 250 251 4 300 [109; 97; 105; 110; 0]
                    (ad_init boot_state) ltac:(evaluate) ltac:(evaluate))).
  vm_compute. reflexivity.
Defined.

(** X7.  An error page does not outlive the next transmit opportunity:
    the page build after [ad_force_error_page] gives exactly the state it
    would have given without the error page. *)
Theorem error_page_is_overwritten F E code line name fuel st :
  well_typed st ->
  ad_update_tx fuel (ad_force_error_page F E code line name st) = ad_update_tx fuel st.
Proof.
  intros Hwt.
  assert (Hlen : length (m_tx_buffer (ad_force_error_page F E code line name st)) = 8%nat).
  { typed Hwt. by rewrite force_error_page_buffer. }
  change (ad_force_error_page F E code line name st)
    with (set_tx_buffer (m_tx_buffer (ad_force_error_page F E code line name st)) st).
  by apply update_tx_ignores_old_buffer.
Qed.

Lemma error_page_is_overwritten_witness :
  let st := ad_set_debug_field 5 100 (ad_init boot_state) in
  ad_update_tx 2 (ad_force_error_page 250 251 4 300 [109; 97; 0] st) = ad_update_tx 2 st.
Proof.
  apply (error_page_is_overwritten 250 251 4 300 [109; 97; 0] 2
           (ad_set_debug_field 5 100 (ad_init boot_state))).
  evaluate.
Defined.

(** ** Round robin *)

Lemma set_scalars k v st :
  m_selective_debug (ad_set_debug_field k v st) = m_selective_debug st /\
  m_current_index_debug_channel (ad_set_debug_field k v st)
    = m_current_index_debug_channel st /\
  m_fast_debug_byte (ad_set_debug_field k v st) = m_fast_debug_byte st.
Proof. unfold ad_set_debug_field. by destruct (negb _). Qed.

Lemma set_all_scalars kvs : forall st,
  m_selective_debug (set_all kvs st) = m_selective_debug st /\
  m_current_index_debug_channel (set_all kvs st) = m_current_index_debug_channel st /\
  m_fast_debug_byte (set_all kvs st) = m_fast_debug_byte st.
Proof.
  induction kvs as [|[k v] kvs IH]; intros st; [done|].
  unfold set_all in *. cbn [foldl fst snd].
  destruct (IH (ad_set_debug_field k v st)) as (-> & -> & ->).
  apply set_scalars.
Qed.

(** X8.  End to end, with Selective Mode off: after [ad_init] and [set]
    on [m] distinct keys (0 < m < 256), page number [n] (from 0) carries
    the keys set at positions [2n mod m] and [2n + 1 mod m], each with its
    value low byte first, after the tag and the default fast byte. *)
Theorem pages_cycle_through_set_keys st0 (kvs : list (Z * Z)) fuel (n : nat) k1 v1 k2 v2 :
  well_typed st0 ->
  Forall (fun kv => u8 kv.1 /\ u16 kv.2) kvs ->
  NoDup (kvs.*1) ->
  (0 < length kvs < 256)%nat ->
  (2 <= fuel)%nat ->
  kvs !! ((2 * n) mod length kvs)%nat = Some (k1, v1) ->
  kvs !! ((2 * n + 1) mod length kvs)%nat = Some (k2, v2) ->
  exists st',
    ad_update_tx_n fuel (S n) (set_all kvs (ad_init st0)) = Some st' /\
    m_tx_buffer st' =
      [ANT_DEBUG_PAGE_MESSAGE; 255;
       k1; v1 mod 256; v1 / 256 mod 256;
       k2; v2 mod 256; v2 / 256 mod 256].
Proof.
  intros Hwt0 Hargs Hnd Hlen Hfuel Hk1 Hk2.
  destruct (set_all_distinct st0 kvs Hwt0 Hargs Hnd ltac:(lia))
    as (Hwt & Hs & _ & Hold & _).
  destruct (set_all_scalars kvs (ad_init st0)) as (Hsel & Hcur & Hfb).
  destruct (ad_init_spec st0 Hwt0) as (_ & _ & _ & Hc0 & _ & Hsel0 & _ & Hfb0 & _).
  rewrite Hsel0 in Hsel. rewrite Hc0 in Hcur. rewrite Hfb0 in Hfb.
  revert Hwt Hs Hold Hsel Hcur Hfb.
  generalize (set_all kvs (ad_init st0)). intros st Hwt Hs Hold Hsel Hcur Hfb.
  destruct (update_tx_n_unfiltered st fuel n st Hwt Hsel ltac:(done) ltac:(lia) Hfuel)
    as (st' & Hrun & Hpage).
  exists st'. split; [done|].
  rewrite Hpage, Hcur, Hs. unfold page_of, pair_bytes. rewrite Hfb.
  destruct (Hold _ _ _ Hk1) as (_ & Hi1 & Hv1).
  destruct (Hold _ _ _ Hk2) as (_ & Hi2 & Hv2).
  rewrite Nat2Z.inj_mod, Nat2Z.inj_mul in Hi1, Hv1.
  rewrite Nat2Z.inj_mod, Nat2Z.inj_add, Nat2Z.inj_mul in Hi2, Hv2.
  change (Z.of_nat 2) with 2 in *. change (Z.of_nat 1) with 1 in *.
  change (0 + 2 * Z.of_nat n) with (2 * Z.of_nat n).
  rewrite Hi1, Hv1, Hi2, Hv2. reflexivity.
Qed.

Lemma pages_cycle_through_set_keys_witness :
  exists st',
    ad_update_tx_n 2 2 (set_all [(5, 100); (9, 7); (12, 600)] (ad_init boot_state)) = Some st' /\
    m_tx_buffer st' = [249; 255; 12; 88; 2; 5; 100; 0].
Proof.
  destruct (pages_cycle_through_set_keys boot_state [(5, 100); (9, 7); (12, 600)] 2 1
              12 600 5 100) as (st' & Hrun & Hpage).
  - evaluate.
  - evaluate.
  - evaluate.
  - cbn. lia.
  - lia.
  - reflexivity.
  - reflexivity.
  - exists st'. split; [exact Hrun|]. rewrite Hpage. vm_compute. reflexivity.
Defined.

Lemma update_tx_n_unfiltered_cursor fuel (n : nat) : forall st,
  well_typed st -> m_selective_debug st = false ->
  0 <= m_current_index_debug_channel st < m_queue_size st ->
  (2 <= fuel)%nat ->
  exists st',
    ad_update_tx_n fuel n st = Some st' /\
    m_current_index_debug_channel st' =
      (m_current_index_debug_channel st + 2 * Z.of_nat n) mod m_queue_size st /\
    (m_debug_queue st' = m_debug_queue st /\ m_hash_lookup st' = m_hash_lookup st /\
     m_queue_size st' = m_queue_size st /\ m_head st' = m_head st /\
     m_selective_debug st' = m_selective_debug st /\
     m_fast_debug_byte st' = m_fast_debug_byte st).
Proof.
  induction n as [|n IH]; intros st Hwt Hsel Hc Hfuel.
  - exists st. split; [done|]. split; [|done].
    rewrite Z.mul_0_r, Z.add_0_r. by rewrite Z.mod_small.
  - pose proof Hwt as Hwt'. typed Hwt'.
    cbn [ad_update_tx_n].
    destruct (ad_update_tx fuel st) as [st1|] eqn:Hrun.
    2:{ unfold ad_update_tx in Hrun.
        rewrite page_build_unfiltered in Hrun by (done || lia). done. }
    assert (Hcok : cursor_ok st) by (unfold cursor_ok; lia).
    destruct (update_tx_preserves fuel st st1 Hwt Hcok Hrun) as [Hwt1 _].
    destruct (update_tx_frame fuel st st1 Hrun) as (Hq1 & Hl1 & Hs1 & Hh1 & Hsel1 & Hfb1).
    assert (Hc1 : m_current_index_debug_channel st1 =
                  (m_current_index_debug_channel st + 2) mod m_queue_size st).
    { unfold ad_update_tx in Hrun.
      rewrite page_build_unfiltered in Hrun by (done || lia).
      injection Hrun as <-. cbn.
      pose proof (next_index_lt st _ Hsz Hc) as Hn1.
      rewrite (next_index_mod st _ Hsz Hn1), (next_index_mod st _ Hsz Hc).
      rewrite Zplus_mod_idemp_l. f_equal. lia. }
    destruct (IH st1) as (st' & Hrun' & Hcur' & Hq & Hl & Hs & Hh & Hse & Hfb'); try done.
    + by rewrite Hsel1.
    + rewrite Hc1, Hs1. apply Z.mod_pos_bound. lia.
    + exists st'. split; [done|]. split.
      * rewrite Hcur', Hc1, Hs1, Zplus_mod_idemp_l. f_equal. lia.
      * rewrite Hq, Hl, Hs, Hh, Hse, Hfb'. done.
Qed.

(** X9.  With Selective Mode off the cursor moves by two slots per page,
    modulo the slot count: after [n] page builds it is at [c + 2n], and
    after as many builds as there are slots it is back where it was.  The
    registry is not changed on the way. *)
Theorem unfiltered_cursor_is_periodic st fuel (n : nat) :
  well_typed st -> m_selective_debug st = false ->
  0 <= m_current_index_debug_channel st < m_queue_size st ->
  (2 <= fuel)%nat ->
  (exists st',
     ad_update_tx_n fuel n st = Some st' /\
     m_current_index_debug_channel st' =
       (m_current_index_debug_channel st + 2 * Z.of_nat n) mod m_queue_size st /\
     m_debug_queue st' = m_debug_queue st /\ m_hash_lookup st' = m_hash_lookup st /\
     m_queue_size st' = m_queue_size st) /\
  (exists st',
     ad_update_tx_n fuel (Z.to_nat (m_queue_size st)) st = Some st' /\
     m_current_index_debug_channel st' = m_current_index_debug_channel st).
Proof.
  intros Hwt Hsel Hc Hfuel. split.
  - destruct (update_tx_n_unfiltered_cursor fuel n st Hwt Hsel Hc Hfuel)
      as (st' & Hrun & Hcur & Hq & Hl & Hs & _).
    exists st'. done.
  - destruct (update_tx_n_unfiltered_cursor fuel (Z.to_nat (m_queue_size st)) st
                Hwt Hsel Hc Hfuel) as (st' & Hrun & Hcur & _).
    exists st'. split; [done|]. rewrite Hcur, Z2Nat.id by lia.
    rewrite Z_mod_plus_full. apply Z.mod_small. lia.
Qed.

Lemma unfiltered_cursor_is_periodic_witness :
  let st := set_all [(5, 100); (9, 7); (12, 600)] (ad_init boot_state) in
  exists st',
    ad_update_tx_n 2 (Z.to_nat (m_queue_size st)) st = Some st' /\
    m_current_index_debug_channel st' = m_current_index_debug_channel st.
Proof.
  cbv zeta.
  apply (proj2 (unfiltered_cursor_is_periodic
                  (set_all [(5, 100); (9, 7); (12, 600)] (ad_init boot_state)) 2 0
                  ltac:(evaluate) ltac:(vm_compute; reflexivity) ltac:(evaluate)
                  ltac:(lia))).
Defined.



(** The loop steps over [d] consecutive slots that are not eligible. *)
Lemma page_loop_skips st (d : nat) : forall c fuel count data,
  u8 (m_queue_size st) -> 0 <= c < m_queue_size st -> count < 2 ->
  (forall j : nat, (j < d)%nat ->
     ad_output_debug_mesg st ((c + Z.of_nat j) mod m_queue_size st) = false) ->
  ad_get_debug_page_loop (d + fuel) st count data c =
  ad_get_debug_page_loop fuel st count data ((c + Z.of_nat d) mod m_queue_size st).
Proof.
  induction d as [|d IH]; intros c fuel count data Hn Hc Hcount Hskip.
  - cbn [Nat.add]. by rewrite Z.add_0_r, Z.mod_small.
  - change (S d + fuel)%nat with (S (d + fuel)).
    pose proof (Hskip O ltac:(lia)) as H0.
    rewrite Z.add_0_r, Z.mod_small in H0 by done.
    rewrite page_loop_skip by done.
    rewrite (next_index_mod st c Hn Hc).
    rewrite IH; try done.
    + rewrite Zplus_mod_idemp_l.
      by replace (c + 1 + Z.of_nat d) with (c + Z.of_nat (S d)) by lia.
    + apply Z.mod_pos_bound. lia.
    + intros j Hj. rewrite Zplus_mod_idemp_l.
      replace (c + 1 + Z.of_nat j) with (c + Z.of_nat (S j)) by lia.
      apply Hskip. lia.
Qed.

(** X11.  The page carries the next two eligible slots, in order, going
    forward cyclically from the cursor.  If these are [d1] and [d2] slots
    ahead of the cursor ([d1 < d2 < size], every other slot before them
    ineligible), the build examines exactly [d2 + 1] slots (so at most
    [size]), the two slots differ, and the cursor ends just past the
    second.  Eligible means flagged when Selective Mode is on, and any slot
    when it is off. *)
Theorem page_takes_next_two_eligible st (d1 d2 fuel : nat) :
  well_typed st ->
  0 <= m_current_index_debug_channel st < m_queue_size st ->
  (d1 < d2 < Z.to_nat (m_queue_size st))%nat ->
  let slot := fun j : nat =>
    (m_current_index_debug_channel st + Z.of_nat j) mod m_queue_size st in
  ad_output_debug_mesg st (slot d1) = true ->
  ad_output_debug_mesg st (slot d2) = true ->
  (forall j : nat, (j < d2)%nat -> j <> d1 -> ad_output_debug_mesg st (slot j) = false) ->
  (d2 + 1 <= fuel)%nat ->
  ad_update_tx fuel st =
    Some (set_current_index (slot (S d2))
            (set_tx_buffer (page_of st (slot d1) (slot d2)) st)) /\
  slot d1 <> slot d2 /\
  ad_update_tx d2 st = None.
Proof.
  intros Hwt Hc Hd slot He1 He2 Hskip Hfuel.
  pose proof Hwt as Hwt'. typed Hwt'.
  set (c := m_current_index_debug_channel st) in *.
  set (N := m_queue_size st) in *.
  assert (Hslot : forall j, 0 <= slot j < N) by (intros j; apply Z.mod_pos_bound; lia).
  assert (Hnext : forall j, next_index st (slot j) = slot (S j)).
  { intros j. rewrite (next_index_mod st _ Hsz (Hslot j)). unfold slot. fold N.
    rewrite Zplus_mod_idemp_l.
    by replace (c + Z.of_nat j + 1) with (c + Z.of_nat (S j)) by lia. }
  assert (Hskip1 : forall j : nat, (j < d1)%nat ->
            ad_output_debug_mesg st ((c + Z.of_nat j) mod N) = false).
  { intros j Hj. apply Hskip; lia. }
  assert (Hskip2 : forall j : nat, (j < d2 - d1 - 1)%nat ->
            ad_output_debug_mesg st ((slot (S d1) + Z.of_nat j) mod N) = false).
  { intros j Hj. unfold slot. rewrite Zplus_mod_idemp_l.
    replace (c + Z.of_nat (S d1) + Z.of_nat j) with (c + Z.of_nat (S d1 + j)) by lia.
    apply Hskip; lia. }
  assert (Hreach : (slot (S d1) + Z.of_nat (d2 - d1 - 1)) mod N = slot d2).
  { unfold slot. rewrite Zplus_mod_idemp_l.
    by replace (c + Z.of_nat (S d1) + Z.of_nat (d2 - d1 - 1)) with (c + Z.of_nat d2) by lia. }
  assert (Hgo : forall f,
    ad_get_debug_page_loop (d1 + (1 + ((d2 - d1 - 1) + f))) st 0
      (upd (upd (m_tx_buffer st) 0 ANT_DEBUG_PAGE_MESSAGE) ANT_FAST_DEBUG_BYTE_INDEX
         (m_fast_debug_byte st)) c =
    ad_get_debug_page_loop f st 1
      (write_pair st
         (upd (upd (m_tx_buffer st) 0 ANT_DEBUG_PAGE_MESSAGE) ANT_FAST_DEBUG_BYTE_INDEX
            (m_fast_debug_byte st)) 2 (slot d1))
      (slot d2)).
  { intros f.
    rewrite (page_loop_skips st d1 c) by (done || lia).
    change ((c + Z.of_nat d1) mod m_queue_size st) with (slot d1).
    change (1 + (d2 - d1 - 1 + f))%nat with (S (d2 - d1 - 1 + f)).
    rewrite page_loop_hit by (done || lia).
    rewrite Hnext. change (2 + 0 * 3) with 2. change (0 + 1) with 1.
    rewrite (page_loop_skips st (d2 - d1 - 1) (slot (S d1))) by (done || lia).
    change (m_queue_size st) with N. by rewrite Hreach. }
  unfold ad_update_tx, ad_get_debug_page. fold N c.
  destruct (Z.ltb_spec 0 N); [|lia].
  split; [|split].
  - replace fuel with (d1 + (1 + ((d2 - d1 - 1) + (1 + (fuel - d2 - 1)))))%nat by lia.
    rewrite Hgo. change (1 + (fuel - d2 - 1))%nat with (S (fuel - d2 - 1)).
    rewrite page_loop_hit by (done || lia).
    rewrite page_loop_done by lia. rewrite Hnext.
    change (2 + 1 * 3) with 5. by rewrite write_two_pairs.
  - unfold slot. intros Heq.
    assert (Hz : (Z.of_nat d2 - Z.of_nat d1) mod N = 0).
    { replace (Z.of_nat d2 - Z.of_nat d1) with ((c + Z.of_nat d2) - (c + Z.of_nat d1)) by lia.
      rewrite Zminus_mod, Heq, Z.sub_diag. apply Z.mod_0_l. lia. }
    rewrite Z.mod_small in Hz by lia. lia.
  - replace d2 with (d1 + (1 + ((d2 - d1 - 1) + 0)))%nat at 1 by lia.
    rewrite Hgo. reflexivity.
Qed.

Lemma page_takes_next_two_eligible_witness :
  let st := ad_decode_debug_command [249; 3; 1; 9; 30; 255; 255; 255]
              (set_all [(5, 100); (9, 7); (12, 600)] (ad_init boot_state)) in
  option_map m_tx_buffer (ad_update_tx 4 st) = Some [249; 255; 9; 7; 0; 30; 255; 255] /\
  ad_update_tx 3 st = None.
Proof.
  cbv zeta.
  destruct (page_takes_next_two_eligible
              (ad_decode_debug_command [249; 3; 1; 9; 30; 255; 255; 255]
                 (set_all [(5, 100); (9, 7); (12, 600)] (ad_init boot_state)))
              1 3 4) as (Hrun & _ & Hshort).
  - evaluate.
  - evaluate.
  - vm_compute. lia.
  - vm_compute. reflexivity.
  - vm_compute. reflexivity.
  - intros j Hj Hne.
    destruct j as [|[|[|j]]]; [vm_compute; reflexivity|lia|vm_compute; reflexivity|lia].
  - lia.
  - split; [rewrite Hrun; vm_compute; reflexivity|exact Hshort].
Defined.

(** * The filter-clear command *)

(** The clear loop assigns to the queue only. *)
Lemma clear_loop_frame n : forall i s,
  let s' := for_loop n i
              (fun i s => set_queue (upd (m_debug_queue s) i
                                       (with_output false (sel (m_debug_queue s) i))) s) s in
  s' = set_queue (m_debug_queue s') s.
Proof.
  induction n as [|n IH]; intros i s; cbv zeta.
  - cbn [for_loop]. by rewrite set_queue_id.
  - cbn [for_loop]. etrans; [apply IH|]. reflexivity.
Qed.

Lemma decode_filter_clear_frame p0 rest st :
  let st' := ad_decode_debug_command
               (p0 :: ANT_DEBUG_FILTER_COMMAND :: ANT_DEBUG_SUB_COMMAND_FILTER_CLEAR :: rest) st in
  st' = set_queue (m_debug_queue st') (set_selective false st).
Proof.
  cbv zeta. unfold ad_decode_debug_command.
  change (sel (p0 :: ANT_DEBUG_FILTER_COMMAND :: ANT_DEBUG_SUB_COMMAND_FILTER_CLEAR :: rest) 1)
    with ANT_DEBUG_FILTER_COMMAND.
  change (sel (p0 :: ANT_DEBUG_FILTER_COMMAND :: ANT_DEBUG_SUB_COMMAND_FILTER_CLEAR :: rest) 2)
    with ANT_DEBUG_SUB_COMMAND_FILTER_CLEAR.
  cbn [Z.eqb ANT_DEBUG_FILTER_COMMAND ANT_DEBUG_SUB_COMMAND_FILTER_CLEAR
       ANT_DEBUG_SUB_COMMAND_FILTER_ADD Pos.eqb].
  apply clear_loop_frame.
Qed.

(** What the clear command does to a well-typed state whose registry
    satisfies the invariant: the registry is as it was and no slot below
    the slot count is flagged. *)
Lemma decode_filter_clear_registry p0 rest st :
  well_typed st -> registry_ok st -> cursor_ok st ->
  let st' := ad_decode_debug_command
               (p0 :: ANT_DEBUG_FILTER_COMMAND :: ANT_DEBUG_SUB_COMMAND_FILTER_CLEAR :: rest) st in
  (well_typed st' /\ registry_ok st' /\ cursor_ok st') /\
  m_queue_size st' = m_queue_size st /\
  (forall k, u8 k ->
     fresh st' k = fresh st k /\
     ad_get_debug_field k st' = ad_get_debug_field k st).
Proof.
  intros Hwt Hok Hcok. cbv zeta.
  destruct (decode_filter_clear p0 rest st Hwt)
    as (Hwt' & Hsel & (Hl & Hs & Hh & Hc & Hfast) & Hq).
  revert Hwt' Hsel Hl Hs Hh Hc Hfast Hq.
  generalize (ad_decode_debug_command
    (p0 :: ANT_DEBUG_FILTER_COMMAND :: ANT_DEBUG_SUB_COMMAND_FILTER_CLEAR :: rest) st).
  intros st' Hwt' Hsel Hl Hs Hh Hc Hfast Hq.
  assert (Hidx : forall i, 0 <= i < 256 ->
            index (sel (m_debug_queue st') i) = index (sel (m_debug_queue st) i) /\
            value (sel (m_debug_queue st') i) = value (sel (m_debug_queue st) i)).
  { intros i Hi. rewrite Hq by done. by destruct (i <? m_queue_size st). }
  split; [split; [done|split]|split; [done|]].
  - apply registry_ok_spec. apply registry_ok_spec in Hok as (A & B & C & D).
    rewrite Hs, Hh, Hl. split; [done|]. split; [done|]. split.
    + intros i Hi. rewrite (proj1 (Hidx i ltac:(lia))). by apply C.
    + intros k Hk Hne. destruct (D k Hk Hne) as [D1 D2]. split; [done|].
      by rewrite (proj1 (Hidx _ (typed_lookup st k Hwt Hk))).
  - unfold cursor_ok. rewrite Hc, Hs. exact Hcok.
  - intros k Hk. unfold fresh, ad_get_debug_field. rewrite Hl. split; [done|].
    pose proof (typed_lookup st k Hwt Hk) as Hslot.
    destruct (Hidx _ Hslot) as [-> ->]. done.
Qed.

(** X12.  The filter-clear command ([F9 03 02 ...]), met by a state in
    which only occupied slots are flagged, leaves no filter in force:
    Selective Mode is off and no slot at all is flagged.  It changes no
    value and no key ([get] answers as before for every key), does not
    touch the transmit buffer, and decoding it a second time changes
    nothing. *)
Theorem filter_clear_command st p0 rest :
  well_typed st -> registry_ok st -> cursor_ok st -> flags_occupied st ->
  let payload :=
    p0 :: ANT_DEBUG_FILTER_COMMAND :: ANT_DEBUG_SUB_COMMAND_FILTER_CLEAR :: rest in
  let st' := ad_decode_debug_command payload st in
  no_filter st' /\ m_selective_debug st' = false /\
  (forall k, u8 k ->
     fresh st' k = fresh st k /\
     ad_get_debug_field k st' = ad_get_debug_field k st) /\
  m_tx_buffer st' = m_tx_buffer st /\
  ad_decode_debug_command payload st' = st'.
Proof.
  intros Hwt Hok Hcok Hflag. cbv zeta.
  pose proof (proj1 (forall_below_spec _ _) Hflag) as Hflag'. cbv beta in Hflag'.
  clear Hflag.
  destruct (decode_filter_clear_registry p0 rest st Hwt Hok Hcok)
    as ((Hwt' & Hok' & Hcok') & Hsize & Hget).
  destruct (decode_filter_clear p0 rest st Hwt) as (_ & Hsel & _ & Hq).
  pose proof (decode_filter_clear_frame p0 rest st) as Hframe.
  destruct (decode_filter_clear p0 rest _ Hwt') as (Hwt'' & _ & _ & Hq').
  pose proof (decode_filter_clear_frame p0 rest
                (ad_decode_debug_command
                   (p0 :: ANT_DEBUG_FILTER_COMMAND :: ANT_DEBUG_SUB_COMMAND_FILTER_CLEAR :: rest)
                   st)) as Hframe'.
  cbv zeta in *.
  revert Hwt' Hok' Hcok' Hsize Hget Hsel Hq Hframe Hwt'' Hq' Hframe'.
  generalize (ad_decode_debug_command
    (p0 :: ANT_DEBUG_FILTER_COMMAND :: ANT_DEBUG_SUB_COMMAND_FILTER_CLEAR :: rest)).
  intros decode Hwt' Hok' Hcok' Hsize Hget Hsel Hq Hframe Hwt'' Hq' Hframe'.
  assert (Hout : forall i, 0 <= i < 256 -> output (sel (m_debug_queue (decode st)) i) = false).
  { intros i Hi. rewrite Hq by done.
    destruct (Z.ltb_spec i (m_queue_size st)); [done|].
    destruct (output (sel (m_debug_queue st) i)) eqn:E; [|done].
    specialize (Hflag' i Hi E). lia. }
  split; [|split; [done|split; [done|split]]].
  - split; [done|]. by apply forall_below_spec.
  - by rewrite Hframe.
  - rewrite Hframe'. rewrite set_selective_id by done.
    rewrite <- (set_queue_id (decode st)) at 3. f_equal.
    apply list_eq_sel.
    + destruct Hwt'' as (-> & _). by destruct Hwt' as (-> & _).
    + intros i Hi. destruct Hwt'' as (Hlen & _). rewrite Hlen in Hi.
      rewrite Hq' by lia. destruct (i <? m_queue_size (decode st)); [|done].
      specialize (Hout i ltac:(lia)).
      destruct (sel (m_debug_queue (decode st)) i) as [ix vl out].
      cbn in Hout. subst out. done.
Qed.

Lemma filter_clear_command_witness :
  let st := ad_decode_debug_command [249; 3; 1; 9; 30; 255; 255; 255]
              (set_all [(5, 100); (9, 7); (12, 600)] (ad_init boot_state)) in
  let st' := ad_decode_debug_command [249; 3; 2; 0; 0; 0; 0; 0] st in
  m_selective_debug st = true /\ no_filter st' /\
  ad_get_debug_field 30 st' = Some 65535.
Proof.
  cbv zeta.
  destruct (filter_clear_command
              (ad_decode_debug_command [249; 3; 1; 9; 30; 255; 255; 255]
                 (set_all [(5, 100); (9, 7); (12, 600)] (ad_init boot_state)))
              249 [0; 0; 0; 0; 0]) as (Hnf & _ & Hget & _).
  - evaluate.
  - evaluate.
  - evaluate.
  - evaluate.
  - split; [vm_compute; reflexivity|]. split; [exact Hnf|].
    destruct (Hget 30 ltac:(evaluate)) as [_ Hg].
    etrans; [exact Hg|]. vm_compute. reflexivity.
Defined.

(** * Events *)

(** [get] and [fresh] read the queue and the lookup table only. *)
Lemma get_frame st st' k :
  m_debug_queue st' = m_debug_queue st -> m_hash_lookup st' = m_hash_lookup st ->
  fresh st' k = fresh st k /\ ad_get_debug_field k st' = ad_get_debug_field k st.
Proof. intros Hq Hl. unfold fresh, ad_get_debug_field. by rewrite Hq, Hl. Qed.

(** Any eight-byte command, decoded with room for the five keys it can
    register, keeps the invariants and the value of every known key. *)
Lemma decode_keeps_known payload st :
  well_typed st -> registry_ok st -> cursor_ok st ->
  length payload = 8%nat -> Forall u8 payload ->
  m_queue_size st + 5 < 256 ->
  let st' := ad_decode_debug_command payload st in
  (well_typed st' /\ registry_ok st' /\ cursor_ok st') /\
  m_queue_size st <= m_queue_size st' <= m_queue_size st + 5 /\
  (forall k, u8 k -> k <> 255 -> fresh st k = false ->
     fresh st' k = false /\
     ad_get_debug_field k st' = ad_get_debug_field k st).
Proof.
  intros Hwt Hok Hcok Hlen Hbytes Hroom. cbv zeta.
  destruct payload as [|p0 [|p1 [|p2 d]]]; try discriminate Hlen.
  assert (Hd : length d = 5%nat) by (cbn in Hlen; lia).
  apply Forall_cons in Hbytes as [_ Hbytes].
  apply Forall_cons in Hbytes as [_ Hbytes].
  apply Forall_cons in Hbytes as [_ Hbytes].
  assert (Hsame : ad_decode_debug_command (p0 :: p1 :: p2 :: d) st = st ->
    (well_typed (ad_decode_debug_command (p0 :: p1 :: p2 :: d) st) /\
     registry_ok (ad_decode_debug_command (p0 :: p1 :: p2 :: d) st) /\
     cursor_ok (ad_decode_debug_command (p0 :: p1 :: p2 :: d) st)) /\
    m_queue_size st <= m_queue_size (ad_decode_debug_command (p0 :: p1 :: p2 :: d) st)
      <= m_queue_size st + 5 /\
    (forall k, u8 k -> k <> 255 -> fresh st k = false ->
       fresh (ad_decode_debug_command (p0 :: p1 :: p2 :: d) st) k = false /\
       ad_get_debug_field k (ad_decode_debug_command (p0 :: p1 :: p2 :: d) st)
       = ad_get_debug_field k st)).
  { intros ->. split; [done|]. split; [lia|]. by intros k _ _ Hf. }
  destruct (decide (p1 = ANT_DEBUG_FILTER_COMMAND)) as [->|Hp1];
    [|apply Hsame, decode_other_command; by left].
  destruct (decide (p2 = ANT_DEBUG_SUB_COMMAND_FILTER_ADD)) as [->|Hadd].
  - clear Hsame. rewrite decode_filter_add by done.
    assert (Hwt0 : well_typed (set_selective true st))
      by (by destruct (advances_set_selective true st Hwt) as (_ & ? & _)).
    destruct (advances_filter_add d _ Hwt0 Hbytes) as [Hbound Hadv].
    rewrite Hd in Hbound.
    change (m_queue_size st) with (m_queue_size (set_selective true st)) in Hroom |- *.
    destruct (advances_registry_ok _ _ _ Hadv Hok ltac:(lia)) as [_ Hsize].
    destruct (filter_add_fields d _ Hwt0 Hok Hbytes ltac:(lia))
      as ((Hwt' & Hok') & _ & Hf & Hl).
    destruct (filter_add_frame d _ Hwt0 Hok Hbytes ltac:(lia)) as (Hc & Hs & _).
    cbv zeta in *.
    revert Hadv Hsize Hwt' Hok' Hf Hl Hc Hs.
    generalize (foldl (fun s b => filter_add_arg b s) (set_selective true st) d).
    intros st' Hadv Hsize Hwt' Hok' Hf Hl Hc Hs.
    split; [split; [done|split; [done|]]|split; [lia|]].
    + unfold cursor_ok in *. rewrite Hc.
      change (m_current_index_debug_channel (set_selective true st))
        with (m_current_index_debug_channel st).
      change (m_queue_size (set_selective true st)) with (m_queue_size st) in Hs.
      destruct Hcok; [left; lia|by right].
    + intros k Hk Hne Hfr.
      assert (Hfield : exists x, ad_field st' k = Some x /\
                value x = value (sel (m_debug_queue st) (sel (m_hash_lookup st) k))).
      { rewrite (Hf k Hk). unfold ad_field.
        change (fresh (set_selective true st) k) with (fresh st k). rewrite Hfr.
        destruct (decide _); eexists; (split; [reflexivity|done]). }
      destruct Hfield as (x & Hx & Hval).
      unfold ad_field in Hx. destruct (fresh st' k) eqn:Hfr'; [done|].
      injection Hx as Hx. split; [done|].
      rewrite (get_known st' k Hok' Hk Hne Hfr'), (get_known st k Hok Hk Hne Hfr).
      by rewrite Hx, Hval.
  - destruct (decide (p2 = ANT_DEBUG_SUB_COMMAND_FILTER_CLEAR)) as [->|Hclear];
      [|apply Hsame, decode_other_command; by right].
    clear Hsame.
    destruct (decode_filter_clear_registry p0 d st Hwt Hok Hcok) as (Hinv & Hsize & Hget).
    cbv zeta in *. split; [done|]. split; [lia|].
    intros k Hk _ Hfr. destruct (Hget k Hk) as [Hfr' Hg]. split; [congruence|done].
Qed.

(** X13.  No event changes what the application has stored.  With no
    custom callback registered, a registry that satisfies the invariant
    and has room for the five keys a filter command can register, and a
    well-formed eight-byte payload, an event the handler returns from
    keeps the invariants, registers no callback, and leaves every known
    key other than 255 known with the value [get] returned before. *)
Theorem event_keeps_known_values
    EVENT_CHANNEL_COLLISION EVENT_TRANSFER_TX_FAILED EVENT_TX EVENT_RX
    (ANT_MESSAGE_aucPayload : list Z -> list Z) fuel p_ant_evt m m' :
  well_typed (ad_statics m) -> registry_ok (ad_statics m) -> cursor_ok (ad_statics m) ->
  m_queue_size (ad_statics m) + 5 < 256 ->
  length (ANT_MESSAGE_aucPayload (evt_buffer p_ant_evt)) = 8%nat ->
  Forall u8 (ANT_MESSAGE_aucPayload (evt_buffer p_ant_evt)) ->
  m_custom_command_callback m = None ->
  ad_process_ant_event EVENT_CHANNEL_COLLISION EVENT_TRANSFER_TX_FAILED EVENT_TX EVENT_RX
    ANT_MESSAGE_aucPayload fuel p_ant_evt m = Some m' ->
  (well_typed (ad_statics m') /\ registry_ok (ad_statics m') /\
   cursor_ok (ad_statics m')) /\
  m_custom_command_callback m' = None /\
  (forall k, u8 k -> k <> 255 -> fresh (ad_statics m) k = false ->
     fresh (ad_statics m') k = false /\
     ad_get_debug_field k (ad_statics m') = ad_get_debug_field k (ad_statics m)).
Proof.
  intros Hwt Hok Hcok Hroom Hlen Hbytes Hcb.
  destruct m as [st cb]. cbn [ad_statics m_custom_command_callback] in *. subst cb.
  unfold ad_process_ant_event. cbn [ad_statics m_custom_command_callback].
  destruct (_ || _ || _).
  - destruct (ad_update_tx fuel st) as [st'|] eqn:Hrun; [|done].
    intros [= <-]. cbn [ad_statics m_custom_command_callback].
    destruct (update_tx_preserves _ _ _ Hwt Hcok Hrun) as [Hwt' Hcok'].
    destruct (update_tx_frame _ _ _ Hrun) as (Hq & Hl & Hs & Hh & _).
    split; [split; [done|split; [|done]]|split; [done|]].
    + unfold registry_ok, registry_inv in *. by rewrite Hq, Hl, Hs, Hh.
    + intros k _ _ Hfr. destruct (get_frame st st' k Hq Hl) as [Hfr' Hg].
      split; [congruence|done].
  - destruct (event p_ant_evt =? EVENT_RX); [|intros [= <-]; by split_and!].
    destruct (sel (evt_buffer p_ant_evt) 3 =? ANT_DEBUG_PAGE_MESSAGE);
      [|intros [= <-]; by split_and!].
    intros [= <-]. cbn [ad_statics m_custom_command_callback].
    destruct (decode_keeps_known _ st Hwt Hok Hcok Hlen Hbytes Hroom) as (Hinv & _ & Hget).
    done.
Qed.

Lemma event_keeps_known_values_witness :
  let m := mk_ad_module (set_all [(5, 100); (9, 7)] (ad_init boot_state)) None in
  let p_ant_evt := mk_ant_evt 128 [9; 78; 0; 249; 3; 1; 9; 30; 255; 255; 255] in
  exists m',
    ad_process_ant_event 9 6 3 128 (drop 3) 0 p_ant_evt m = Some m' /\
    m_selective_debug (ad_statics m') = true /\
    ad_get_debug_field 30 (ad_statics m') = Some 65535 /\
    ad_get_debug_field 5 (ad_statics m') = Some 100.
Proof.
  cbv zeta. eexists. split; [reflexivity|].
  split; [vm_compute; reflexivity|]. split; [vm_compute; reflexivity|].
  destruct (event_keeps_known_values 9 6 3 128 (drop 3) 0
              (mk_ant_evt 128 [9; 78; 0; 249; 3; 1; 9; 30; 255; 255; 255])
              (mk_ad_module (set_all [(5, 100); (9, 7)] (ad_init boot_state)) None)
              _ ltac:(evaluate) ltac:(evaluate) ltac:(evaluate) ltac:(vm_compute; reflexivity)
              ltac:(reflexivity) ltac:(evaluate) ltac:(reflexivity) eq_refl)
    as (_ & _ & Hget).
  destruct (Hget 5 ltac:(evaluate) ltac:(lia) ltac:(vm_compute; reflexivity)) as [_ Hg].
  etrans; [exact Hg|]. vm_compute. reflexivity.
Defined.

(** X14.  The custom callback sees custom pages only.  For an event
    that is not a received message, or whose byte 3 is the debug page
    number 0xF9, the statics after the event do not depend on the callback
    that is registered, and the event leaves the registered callback as
    it is.  (A custom page is handed to the callback, which in C may do
    anything, registering another callback included.) *)
Theorem callback_only_for_custom_pages
    EVENT_CHANNEL_COLLISION EVENT_TRANSFER_TX_FAILED EVENT_TX EVENT_RX
    (ANT_MESSAGE_aucPayload : list Z -> list Z) fuel p_ant_evt m callback callback' :
  sel (evt_buffer p_ant_evt) 3 = ANT_DEBUG_PAGE_MESSAGE \/ event p_ant_evt <> EVENT_RX ->
  let process := ad_process_ant_event EVENT_CHANNEL_COLLISION EVENT_TRANSFER_TX_FAILED
                   EVENT_TX EVENT_RX ANT_MESSAGE_aucPayload fuel p_ant_evt in
  ad_statics <$> process (ad_register_custom_command_callback callback m) =
  ad_statics <$> process (ad_register_custom_command_callback callback' m) /\
  (forall m', process (ad_register_custom_command_callback callback m) = Some m' ->
     m_custom_command_callback m' = callback).
Proof.
  intros Hev. cbv zeta.
  unfold ad_process_ant_event, ad_register_custom_command_callback.
  cbn [ad_statics m_custom_command_callback].
  destruct (_ || _ || _).
  { split; [by destruct (ad_update_tx fuel (ad_statics m))|].
    intros m'. destruct (ad_update_tx fuel (ad_statics m)); [|done]. by intros [= <-]. }
  destruct (Z.eqb_spec (event p_ant_evt) EVENT_RX) as [Hrx|_];
    [|split; [done|by intros m' [= <-]]].
  destruct Hev as [Hpage|?]; [|done].
  rewrite Hpage. change (ANT_DEBUG_PAGE_MESSAGE =? ANT_DEBUG_PAGE_MESSAGE) with true.
  cbv iota. split; [done|]. by intros m' [= <-].
Qed.

Lemma callback_only_for_custom_pages_witness :
  let m := mk_ad_module (set_all [(5, 100); (9, 7)] (ad_init boot_state)) None in
  let p_ant_evt := mk_ant_evt 128 [9; 78; 0; 249; 3; 1; 9; 30; 255; 255; 255] in
  let callback := Some (fun (_ : list Z) (st : ad_state) => ad_init st) in
  ad_statics <$> ad_process_ant_event 9 6 3 128 (drop 3) 0 p_ant_evt
                   (ad_register_custom_command_callback callback m) =
  ad_statics <$> ad_process_ant_event 9 6 3 128 (drop 3) 0 p_ant_evt
                   (ad_register_custom_command_callback None m).
Proof.
  cbv zeta.
  exact (proj1 (callback_only_for_custom_pages 9 6 3 128 (drop 3) 0
                  (mk_ant_evt 128 [9; 78; 0; 249; 3; 1; 9; 30; 255; 255; 255])
                  (mk_ad_module (set_all [(5, 100); (9, 7)] (ad_init boot_state)) None)
                  (Some (fun (_ : list Z) (st : ad_state) => ad_init st)) None
                  (or_introl eq_refl))).
Defined.

(** * The fast debug byte *)

Lemma upd_comm {A : Type} (a : list A) i j v w :
  0 <= i -> 0 <= j -> i <> j -> upd (upd a i v) j w = upd (upd a j w) i v.
Proof. intros Hi Hj Hne. unfold upd. apply list_insert_insert_ne. lia. Qed.

Lemma page_loop_reads_no_fast_byte fuel st b : forall count p c,
  ad_get_debug_page_loop fuel (ad_set_fast_debug_byte b st) count p c =
  ad_get_debug_page_loop fuel st count p c.
Proof.
  induction fuel as [|fuel IH]; intros count p c; [reflexivity|].
  simpl. destruct (2 <=? count); [reflexivity|].
  change (ad_output_debug_mesg (ad_set_fast_debug_byte b st) c)
    with (ad_output_debug_mesg st c).
  change (next_index (ad_set_fast_debug_byte b st) c) with (next_index st c).
  destruct (ad_output_debug_mesg st c); [|apply IH].
  rewrite IH. reflexivity.
Qed.

(** The loop writes bytes 2..7 only: a store to byte 1 commutes with it. *)
Lemma page_loop_byte_1 fuel st b : forall count p c,
  0 <= count ->
  ad_get_debug_page_loop fuel st count (upd p 1 b) c =
  (fun r => (upd r.1 1 b, r.2)) <$> ad_get_debug_page_loop fuel st count p c.
Proof.
  induction fuel as [|fuel IH]; intros count p c Hcount.
  - simpl. by destruct (2 <=? count).
  - simpl. destruct (Z.leb_spec 2 count); [done|].
    unfold ANT_PAGE_DEBUG_KEY0_INDEX, ANT_PAGE_DEBUG_VALUE_SIZE.
    rewrite !Z.mod_small by lia.
    destruct (ad_output_debug_mesg st c); [|by apply IH].
    rewrite <- IH by lia. f_equal. unfold write_pair.
    rewrite (upd_comm p 1 (2 + count * 3)) by lia.
    rewrite (upd_comm _ 1 (2 + count * 3 + 1)) by lia.
    by rewrite (upd_comm _ 1 (2 + count * 3 + 2)) by lia.
Qed.

Lemma memset_byte_1 byte b n : forall from p,
  1 < from -> memset (upd p 1 b) from byte n = upd (memset p from byte n) 1 b.
Proof.
  unfold memset. induction n as [|n IH]; intros from p Hfrom; [done|].
  cbn [for_loop]. rewrite (upd_comm p 1 from) by lia. apply IH. lia.
Qed.

(** X15.  The fast debug byte reaches the air as byte 1 of the next
    page and has no other effect: a page build after
    [ad_set_fast_debug_byte] needs the same fuel, leaves the cursor where
    it would have been, and gives the same buffer but for byte 1. *)
Theorem fast_byte_is_page_byte_1 fuel st fdb_value :
  ad_update_tx fuel (ad_set_fast_debug_byte fdb_value st) =
  (fun st' => ad_set_fast_debug_byte fdb_value
                (set_tx_buffer (upd (m_tx_buffer st') 1 fdb_value) st'))
  <$> ad_update_tx fuel st.
Proof.
  unfold ad_update_tx, ad_get_debug_page.
  rewrite page_loop_reads_no_fast_byte. unfold ad_set_fast_debug_byte.
  change (m_queue_size (set_fast_debug_byte fdb_value st)) with (m_queue_size st).
  change (m_tx_buffer (set_fast_debug_byte fdb_value st)) with (m_tx_buffer st).
  change (m_fast_debug_byte (set_fast_debug_byte fdb_value st)) with fdb_value.
  change (m_current_index_debug_channel (set_fast_debug_byte fdb_value st))
    with (m_current_index_debug_channel st).
  unfold ANT_FAST_DEBUG_BYTE_INDEX, ANT_PAGE_DEBUG_KEY0_INDEX.
  rewrite <- (upd_upd_eq (upd (m_tx_buffer st) 0 ANT_DEBUG_PAGE_MESSAGE) 1
                (m_fast_debug_byte st) fdb_value).
  destruct (0 <? m_queue_size st).
  - rewrite page_loop_byte_1 by lia.
    by destruct (ad_get_debug_page_loop _ _ _ _ _) as [[p c]|].
  - rewrite memset_byte_1 by lia. reflexivity.
Qed.
